(** * Accessibility manager of the terminal: a shallow embedding

    The development follows [src/AccessibilityManager.ts]: the live
    region that announces output ([_onChar], [_onKey], [_onTab],
    [_clearLiveRegion], [announce]), the mirrored row elements
    ([_onResize], [_refreshRowsDimensions]), the navigation mode
    ([_onArrowUp], [_onArrowDown], [_navigateToElement]) and disposal.
    The last part follows the attach addon ([attach], [detach]), which
    pipes the messages of a socket into the terminal.

    JavaScript objects are mutable and a [throw] leaves behind every
    write made before it, so every operation that can throw is a
    function from the state to an [outcome] that carries the state it
    reached in both cases. *)

From Stdlib Require Import ZArith Lia Ascii String.
From Stdlib Require QArith.
From stdpp Require Import base option list strings gmap pretty.

Open Scope Z_scope.

(** ** Outcomes of JavaScript code *)

Module JS.

Inductive error :=
  | TypeError       (* property access on undefined or null, wrong argument type *)
  | NotFoundError   (* DOMException of removeChild on a node that is not a child *)
  | OutOfFuel.      (* artefact of the model: a loop bound was too small *)

Inductive outcome (S A : Type) :=
  | Returned (v : A) (s : S)
  | Threw (e : error) (s : S).
Arguments Returned {S A} v s.
Arguments Threw {S A} e s.

Definition M (S A : Type) := S -> outcome S A.

Definition ret {S A} (v : A) : M S A := fun s => Returned v s.
Definition throw {S A} (e : error) : M S A := fun s => Threw e s.
Definition bind {S A B} (m : M S A) (k : A -> M S B) : M S B :=
  fun s => match m s with
           | Returned v s' => k v s'
           | Threw e s' => Threw e s'
           end.
Definition get {S} : M S S := fun s => Returned s s.
Definition modify {S} (f : S -> S) : M S unit := fun s => Returned tt (f s).

Definition final {S A} (o : outcome S A) : S :=
  match o with Returned _ s => s | Threw _ s => s end.

Definition returns {S A} (o : outcome S A) : bool :=
  match o with Returned _ _ => true | Threw _ _ => false end.

(** [arr[i]] of a JavaScript array: [undefined] outside the array, at a
    hole, and at an index that is not a natural number. A hole is an
    entry [None]. *)
Definition index {A} (arr : list (option A)) (i : option Z) : option A :=
  match i with
  | Some z => if z <? 0 then None else mjoin (arr !! Z.to_nat z)
  | None => None
  end.

(** [arr[i] = x]: stores in place inside the array, and extends the
    array (leaving holes) at and past its length. *)
Definition store {A} (arr : list (option A)) (i : nat) (x : A) : list (option A) :=
  if (i <? length arr)%nat then <[i := Some x]> arr
  else arr ++ replicate (i - length arr) None ++ [Some x].

(** [arr.pop()]: the last entry ([undefined] for a hole or an empty
    array) and the array without it. *)
Definition pop {A} (arr : list (option A)) : option A * list (option A) :=
  (mjoin (last arr), removelast arr).

End JS.

Notation "'let*' x ':=' m 'in' k" := (JS.bind m (fun x => k))
  (at level 10, x name, m at level 100, k at level 200).
Notation "'let*' '_' ':=' m 'in' k" := (JS.bind m (fun _ => k))
  (at level 10, m at level 100, k at level 200).

(** ** The live region (lines 11, 121-182, 205-208) *)

Module Live.

Definition MAX_ROWS_TO_READ : nat := 20.

Definition LF : string := String "010"%char EmptyString.
Definition SPACE : string := " ".
(** U+00A0, what the entity [&nbsp;] denotes, in UTF-8. *)
Definition NBSP : string := String "194"%char (String "160"%char EmptyString).
Definition TOO_MUCH_OUTPUT : string :=
  "Too much output to announce, navigate to rows manually to read".

(** The content of the live region is kept as the sequence of writes
    that built it, one constructor per kind of write in the source:
    [innerHTML += '&nbsp;'] (lines 136, 143), [textContent += char]
    (lines 138, 145, and [textContent = text] of [announce]) and the
    notice of line 152. [textContent] reads the text back. *)
Inductive piece :=
  | Nbsp
  | Lit (text : string)
  | Notice.

(** [innerHTML += '&nbsp;'] is [innerHTML = innerHTML + '&nbsp;']: the
    text of the live region is written out as HTML, with [&], [<], [>]
    and U+00A0 escaped, and parsed again. The parser gives every
    character back but two: it reads a carriage return, with the line
    feed that follows it if there is one, as one line feed, and it leaves
    out the character U+0000. Strings are in UTF-8, where the bytes 13
    and 0 are these two characters and nothing else. *)
Fixpoint normalizeNewlines (t : string) : string :=
  match t with
  | EmptyString => EmptyString
  | String c rest =>
      if Ascii.eqb c "013" then
        match rest with
        | String d rest' =>
            if Ascii.eqb d "010" then String "010" (normalizeNewlines rest')
            else String "010" (normalizeNewlines rest)
        | EmptyString => String "010" EmptyString
        end
      else String c (normalizeNewlines rest)
  end.

Fixpoint dropNulls (t : string) : string :=
  match t with
  | EmptyString => EmptyString
  | String c rest =>
      if Ascii.eqb c "000" then dropNulls rest else String c (dropNulls rest)
  end.

(** The text of the live region after its HTML was written out and
    parsed again. *)
Definition reparsed (t : string) : string := dropNulls (normalizeNewlines t).

(** The text after one more write: [textContent += ...] adds to the text
    as it is, [innerHTML += '&nbsp;'] adds to the text parsed again. *)
Definition written (t : string) (p : piece) : string :=
  match p with
  | Nbsp => reparsed t +:+ NBSP
  | Lit char => t +:+ char
  | Notice => t +:+ TOO_MUCH_OUTPUT
  end.

Definition textContent (ps : list piece) : string := foldl written "" ps.

(** How many of the characters of [t] are spaces. *)
Fixpoint spaces (t : string) : nat :=
  match t with
  | EmptyString => 0
  | String c rest => ((if Ascii.eqb c " " then 1 else 0) + spaces rest)%nat
  end.

Definition isNotice (p : piece) : bool :=
  match p with Notice => true | _ => false end.

Definition notices (ps : list piece) : nat := length (filter isNotice ps).

Record state := mkState {
  liveRegion : list piece;        (* _liveRegion, as its writes *)
  liveAttached : bool;            (* _liveRegion.parentNode is not null *)
  liveRegionLineCount : nat;      (* _liveRegionLineCount *)
  charsToConsume : list string;   (* _charsToConsume *)
  reattachTimers : nat            (* setTimeout(..., 0) callbacks not yet run *)
}.

(** The state the constructor leaves: an empty, attached live region. *)
Definition init : state := mkState [] true 0 [] 0.

Section Platform.

(** [isMac] of utils/Browser: fixed by the host. *)
Variable isMac : bool.

Definition append (p : piece) (s : state) : state :=
  mkState (liveRegion s ++ [p]) (liveAttached s) (liveRegionLineCount s)
          (charsToConsume s) (reattachTimers s).

(** Lines 133-139 and 142-145: the write for [char]. *)
Definition write (char : string) : piece :=
  if String.eqb char SPACE then Nbsp else Lit char.

(** Lines 129-146: the front keystroke, if any, is taken, and [char] is
    written unless it equals that keystroke. *)
Definition announceChar (char : string) (s : state) : state :=
  match charsToConsume s with
  | shiftedChar :: rest =>
      let s1 := mkState (liveRegion s) (liveAttached s) (liveRegionLineCount s)
                        rest (reattachTimers s) in
      if negb (String.eqb shiftedChar char) then append (write char) s1 else s1
  | [] => append (write char) s
  end.

(** Lines 148-154. *)
Definition countLine (char : string) (s : state) : state :=
  if String.eqb char LF then
    let n := S (liveRegionLineCount s) in
    let s1 := mkState (liveRegion s) (liveAttached s) n
                      (charsToConsume s) (reattachTimers s) in
    if (n =? MAX_ROWS_TO_READ + 1)%nat then append Notice s1 else s1
  else s.

(** Lines 157-163. *)
Definition reattach (s : state) : state :=
  if isMac then
    if negb (String.eqb (textContent (liveRegion s)) "") && negb (liveAttached s)
    then mkState (liveRegion s) (liveAttached s) (liveRegionLineCount s)
                 (charsToConsume s) (S (reattachTimers s))
    else s
  else s.

(** The callback of line 160, when the timer fires. *)
Definition runReattach (s : state) : state :=
  match reattachTimers s with
  | O => s
  | S n => mkState (liveRegion s) true (liveRegionLineCount s)
                   (charsToConsume s) n
  end.

(** Lines 127-165. *)
Definition _onChar (char : string) (s : state) : state :=
  if (liveRegionLineCount s <? MAX_ROWS_TO_READ + 1)%nat
  then reattach (countLine char (announceChar char s))
  else s.

(** Lines 121-125. *)
Definition _onTab (spaceCount : nat) (s : state) : state :=
  Nat.iter spaceCount (_onChar SPACE) s.

(** Lines 167-177. *)
Definition _clearLiveRegion (s : state) : state :=
  mkState [] (if isMac then false else liveAttached s) 0
          (charsToConsume s) (reattachTimers s).

(** Lines 179-182. *)
Definition _onKey (keyChar : string) (s : state) : state :=
  let s1 := _clearLiveRegion s in
  mkState (liveRegion s1) (liveAttached s1) (liveRegionLineCount s1)
          (charsToConsume s1 ++ [keyChar]) (reattachTimers s1).

(** Lines 205-208. *)
Definition announce (text : string) (s : state) : state :=
  let s1 := _clearLiveRegion s in
  mkState [Lit text] (liveAttached s1) (liveRegionLineCount s1)
          (charsToConsume s1) (reattachTimers s1).

(** A run of character events, oldest first. *)
Definition onChars (chars : list string) (s : state) : state :=
  foldl (fun acc char => _onChar char acc) s chars.

End Platform.

(** The counter is within its bound, and the notice is there exactly
    when the counter has passed the ceiling. *)
Definition settled (s : state) : Prop :=
  (liveRegionLineCount s <= MAX_ROWS_TO_READ + 1)%nat /\
  notices (liveRegion s) =
    (if (MAX_ROWS_TO_READ <? liveRegionLineCount s)%nat then 1 else 0)%nat.

End Live.

(** ** Elements of the accessibility tree *)

Module Dom.

(** An element is known by its identity: the number of elements created
    before it. Two variables hold the same object exactly when they hold
    the same [node]. *)
Definition node := nat.

(** What a field of type [number] holds: a number, which is a rational
    when it is finite, or [null], which [dimensions.actualCellHeight] is
    until the renderer has measured a cell. *)
Inductive number :=
  | Null
  | NaN
  | Infinity (negative : bool)
  | Finite (q : QArith_base.Q).

(** A whole number. *)
Definition whole (z : Z) : number := Finite (QArith_base.Qmake z 1).

(** The template [`${n}px`] as a value of [height] in CSS, where a
    length must not be negative: the length in pixels, or nothing for
    [nullpx], [NaNpx], [Infinitypx], [-Infinitypx] and a negative
    length, which are not values of [height]. *)
Definition px (n : number) : option QArith_base.Q :=
  match n with
  | Finite q => if QArith_base.Qle_bool (QArith_base.Qmake 0 1) q then Some q else None
  | _ => None
  end.

Record Element := mkElement {
  role : option string;             (* attribute role *)
  text : string;                    (* textContent *)
  ariaLabel : option string;        (* attribute aria-label *)
  height : option QArith_base.Q;    (* style.height, a length in px *)
  id : option string                (* attribute id *)
}.

(** [document.createElement('div')]. *)
Definition div : Element := mkElement None "" None None None.

Definition setRole (r : string) (e : Element) : Element :=
  mkElement (Some r) (text e) (ariaLabel e) (height e) (id e).
(** [e.style.height = `${n}px`]: an assignment of a text that is not a
    value of [height] is ignored, and the element keeps the height it
    had. *)
Definition setHeight (n : number) (e : Element) : Element :=
  match px n with
  | Some h => mkElement (role e) (text e) (ariaLabel e) (Some h) (id e)
  | None => e
  end.
Definition setId (i : option string) (e : Element) : Element :=
  mkElement (role e) (text e) (ariaLabel e) (height e) i.
Definition setLine (lineData : string) (e : Element) : Element :=
  mkElement (role e) lineData (Some lineData) (height e) (id e).

End Dom.

(** ** The mirrored rows (lines 17, 42-46, 101-119, 188-203) *)

Module Rows.

Import Dom.

Record state := mkState {
  nodes : gmap node Element;        (* the elements created so far *)
  created : nat;                    (* how many: the next identity *)
  children : list node;             (* _rowContainer.children *)
  rowElements : list (option node); (* _rowElements; None is a hole *)
  terminalRows : Z;                 (* _terminal.rows *)
  actualCellHeight : number         (* _terminal.renderer.dimensions.actualCellHeight *)
}.

Definition setNodes (f : gmap node Element -> gmap node Element) (s : state) : state :=
  mkState (f (nodes s)) (created s) (children s) (rowElements s)
          (terminalRows s) (actualCellHeight s).
Definition setChildren (f : list node -> list node) (s : state) : state :=
  mkState (nodes s) (created s) (f (children s)) (rowElements s)
          (terminalRows s) (actualCellHeight s).
Definition setRowElements (f : list (option node) -> list (option node)) (s : state) : state :=
  mkState (nodes s) (created s) (children s) (f (rowElements s))
          (terminalRows s) (actualCellHeight s).
Definition setTerminalRows (rows : Z) (s : state) : state :=
  mkState (nodes s) (created s) (children s) (rowElements s)
          rows (actualCellHeight s).
Definition setCellHeight (h : number) (s : state) : state :=
  mkState (nodes s) (created s) (children s) (rowElements s)
          (terminalRows s) h.

(** Lines 115-119. *)
Definition _createAccessibilityTreeNode : JS.M state node :=
  fun s =>
    let element := created s in
    JS.Returned element
      (mkState (<[element := setRole "menuitem" div]> (nodes s)) (S element)
               (children s) (rowElements s) (terminalRows s) (actualCellHeight s)).

(** [_rowContainer.appendChild(x)]: a node that is already a child moves
    to the end; [undefined] is not a node. *)
Definition appendChild (x : option node) : JS.M state unit :=
  match x with
  | None => JS.throw JS.TypeError
  | Some n => JS.modify (setChildren (fun c => filter (fun m => m <> n) c ++ [n]))
  end.

(** [_rowContainer.removeChild(x)]. *)
Definition removeChild (x : option node) : JS.M state unit :=
  match x with
  | None => JS.throw JS.TypeError
  | Some n =>
      fun s =>
        if bool_decide (n ∈ children s)
        then JS.Returned tt (setChildren (filter (fun m => m <> n)) s)
        else JS.Threw JS.NotFoundError s
  end.

(** [_rowElements.pop()]. *)
Definition popRow : JS.M state (option node) :=
  fun s => JS.Returned (JS.pop (rowElements s)).1
                       (setRowElements (fun _ => (JS.pop (rowElements s)).2) s).

(** Lines 43-44 and 104-105: the body of the loop that adds row [i]. *)
Definition addRow (i : nat) : JS.M state unit :=
  let* element := _createAccessibilityTreeNode in
  let* _ := JS.modify (setRowElements (fun arr => JS.store arr i element)) in
  let* s := JS.get in
  appendChild (JS.index (rowElements s) (Some (Z.of_nat i))).

(** Lines 42-45 and 103-106: [for (...; i < this._terminal.rows; i++)]. *)
Fixpoint growRows (fuel : nat) (i : nat) : JS.M state unit :=
  fun s =>
    if Z.of_nat i <? terminalRows s then
      match fuel with
      | O => JS.Threw JS.OutOfFuel s
      | S fuel' => (let* _ := addRow i in growRows fuel' (S i)) s
      end
    else JS.Returned tt s.

(** Lines 108-110: [while (this._rowElements.length > rows)]. *)
Fixpoint shrinkRows (fuel : nat) (rows : Z) : JS.M state unit :=
  fun s =>
    if Z.of_nat (length (rowElements s)) >? rows then
      match fuel with
      | O => JS.Threw JS.OutOfFuel s
      | S fuel' =>
          (let* x := popRow in
           let* _ := removeChild x in
           shrinkRows fuel' rows) s
      end
    else JS.Returned tt s.

(** Lines 200-202. *)
Fixpoint sizeRows (fuel : nat) (i : nat) : JS.M state unit :=
  fun s =>
    if Z.of_nat i <? terminalRows s then
      match fuel with
      | O => JS.Threw JS.OutOfFuel s
      | S fuel' =>
          match JS.index (rowElements s) (Some (Z.of_nat i)) with
          | None => JS.Threw JS.TypeError s
          | Some n =>
              sizeRows fuel' (S i)
                (setNodes (alter (setHeight (actualCellHeight s)) n) s)
          end
      end
    else JS.Returned tt s.

(** Lines 197-203. *)
Definition _refreshRowsDimensions : JS.M state unit :=
  fun s => sizeRows (Z.to_nat (terminalRows s)) 0 s.

(** Lines 101-113. Every loop gets as many steps as it can take. *)
Definition _onResize (cols rows : Z) : JS.M state unit :=
  let* s0 := JS.get in
  let* _ := growRows (Z.to_nat (terminalRows s0)) (length (children s0)) in
  let* s1 := JS.get in
  let* _ := shrinkRows (S (length (rowElements s1))) rows in
  _refreshRowsDimensions.

(** Lines 40-46 of the constructor, for a terminal of [rows] rows. *)
Definition construct (rows : Z) (cellHeight : number) : JS.outcome state unit :=
  (let* _ := growRows (Z.to_nat rows) 0 in _refreshRowsDimensions)
    (mkState ∅ 0 [] [] rows cellHeight).

(** Modelled from the spec: the Terminal collaborator, which is not in
    the source, takes its new row count and then emits `resize` with
    `{cols, rows}`; line 63 hands the event to [_onResize]. *)
Definition resize (cols rows : Z) : JS.M state unit :=
  let* _ := JS.modify (setTerminalRows rows) in _onResize cols rows.

(** Lines 190-194, with the buffer's [ydisp] and
    [translateBufferLineToString(_, true)] given by the terminal. *)
Fixpoint writeRows (fuel : nat) (ydisp : Z) (line : Z -> string) (i end_ : Z)
  : JS.M state unit :=
  fun s =>
    if i <=? end_ then
      match fuel with
      | O => JS.Threw JS.OutOfFuel s
      | S fuel' =>
          match JS.index (rowElements s) (Some i) with
          | None => JS.Threw JS.TypeError s
          | Some n =>
              writeRows fuel' ydisp line (i + 1) end_
                (setNodes (alter (setLine (line (ydisp + i))) n) s)
          end
      end
    else JS.Returned tt s.

(** Lines 188-195. *)
Definition _renderRows (ydisp : Z) (line : Z -> string) (start end_ : Z)
  : JS.M state unit :=
  writeRows (Z.to_nat (end_ - start + 1)) ydisp line start end_.

(** The rows and the container hold the same elements in the same
    order, each created once. *)
Definition mirrored (s : state) : Prop :=
  rowElements s = Some <$> children s /\
  NoDup (children s) /\
  Forall (fun n => (n < created s)%nat) (children s).

(** [mirrored] of a closed state, by evaluation. *)
Ltac mirrored_by_computation :=
  unfold mirrored; split; [reflexivity | split; vm_compute; compute_done].

End Rows.

(** ** Navigation mode (lines 211-335) *)

Module Nav.

Import Dom.

Definition ACTIVE_ITEM_ID_PREFIX : string := "xterm-active-item-".
Definition ENTERED : string := "Entered line navigation mode".
Definition LEFT : string := "Left line navigation mode".

(** Line 224: the identifier that the constructor makes, from the number
    that [Math.floor(Math.random() * 100000)] gave. *)
Definition newActiveItemId (random : N) : string :=
  ACTIVE_ITEM_ID_PREFIX +:+ pretty random.

Inductive focusTarget :=
  | Textarea       (* _terminal.textarea *)
  | RowContainer   (* _rowContainer *)
  | Elsewhere.

(** [rows] is the state of the mirrored rows: [_rowElements] and
    [_rowContainer] are the manager's own objects, handed over at line 52,
    so a resize is seen here too. [navigationModeFocusedRow] is [None]
    while the field is [undefined], and for [NaN], which is what
    [undefined - 1] gives. The last four fields are what the page around
    the terminal decides. *)
Record state := mkState {
  rows : Rows.state;
  live : Live.state;                       (* of _accessibilityManager *)
  ydisp : Z;                               (* _terminal.buffer.ydisp *)
  y : Z;                                   (* _terminal.buffer.y *)
  activeItemId : string;                   (* _activeItemId *)
  isNavigationModeActive : bool;
  navigationModeFocusedRow : option Z;
  containerIsMenu : bool;                  (* tabIndex, role and aria-activedescendant are set *)
  focus : focusTarget;                     (* the element that has the focus *)
  scrollRequests : list Z;                 (* arguments of _terminal.scrollLines so far *)
  inDocument : bool;                       (* the rows are in the tree of the document, not
                                              detached from it and not in a shadow tree *)
  rendered : bool;                         (* the terminal's element is connected and rendered,
                                              so that an element in it can take the focus *)
  idsBefore : nat;                         (* elements of the document that carry _activeItemId
                                              and come before the rows in tree order *)
  idsAfter : nat                           (* the same, after the rows *)
}.

Definition setRows (f : Rows.state -> Rows.state) (s : state) : state :=
  mkState (f (rows s)) (live s) (ydisp s) (y s) (activeItemId s)
    (isNavigationModeActive s) (navigationModeFocusedRow s) (containerIsMenu s)
    (focus s) (scrollRequests s) (inDocument s) (rendered s) (idsBefore s) (idsAfter s).
Definition setLive (f : Live.state -> Live.state) (s : state) : state :=
  mkState (rows s) (f (live s)) (ydisp s) (y s) (activeItemId s)
    (isNavigationModeActive s) (navigationModeFocusedRow s) (containerIsMenu s)
    (focus s) (scrollRequests s) (inDocument s) (rendered s) (idsBefore s) (idsAfter s).
Definition setActive (b : bool) (s : state) : state :=
  mkState (rows s) (live s) (ydisp s) (y s) (activeItemId s)
    b (navigationModeFocusedRow s) (containerIsMenu s)
    (focus s) (scrollRequests s) (inDocument s) (rendered s) (idsBefore s) (idsAfter s).
Definition setFocusedRow (row : option Z) (s : state) : state :=
  mkState (rows s) (live s) (ydisp s) (y s) (activeItemId s)
    (isNavigationModeActive s) row (containerIsMenu s)
    (focus s) (scrollRequests s) (inDocument s) (rendered s) (idsBefore s) (idsAfter s).
Definition setMenu (b : bool) (s : state) : state :=
  mkState (rows s) (live s) (ydisp s) (y s) (activeItemId s)
    (isNavigationModeActive s) (navigationModeFocusedRow s) b
    (focus s) (scrollRequests s) (inDocument s) (rendered s) (idsBefore s) (idsAfter s).
Definition setFocus (t : focusTarget) (s : state) : state :=
  mkState (rows s) (live s) (ydisp s) (y s) (activeItemId s)
    (isNavigationModeActive s) (navigationModeFocusedRow s) (containerIsMenu s)
    t (scrollRequests s) (inDocument s) (rendered s) (idsBefore s) (idsAfter s).
Definition setIdsBefore (n : nat) (s : state) : state :=
  mkState (rows s) (live s) (ydisp s) (y s) (activeItemId s)
    (isNavigationModeActive s) (navigationModeFocusedRow s) (containerIsMenu s)
    (focus s) (scrollRequests s) (inDocument s) (rendered s) n (idsAfter s).
Definition setIdsAfter (n : nat) (s : state) : state :=
  mkState (rows s) (live s) (ydisp s) (y s) (activeItemId s)
    (isNavigationModeActive s) (navigationModeFocusedRow s) (containerIsMenu s)
    (focus s) (scrollRequests s) (inDocument s) (rendered s) (idsBefore s) n.
(** The page: whether the rows are in the document, whether the
    terminal is rendered, and the other elements with the identifier. *)
Definition setPage (inDocument rendered : bool) (idsBefore idsAfter : nat) (s : state)
  : state :=
  mkState (rows s) (live s) (ydisp s) (y s) (activeItemId s)
    (isNavigationModeActive s) (navigationModeFocusedRow s) (containerIsMenu s)
    (focus s) (scrollRequests s) inDocument rendered idsBefore idsAfter.

(** Modelled from the spec: [scrollLines] of the Terminal collaborator,
    which is not in the source, scrolls the viewport by [disp] lines
    ("scroll back one line" for -1). *)
Definition scrollLines (disp : Z) (s : state) : state :=
  mkState (rows s) (live s) (ydisp s + disp) (y s) (activeItemId s)
    (isNavigationModeActive s) (navigationModeFocusedRow s) (containerIsMenu s)
    (focus s) (scrollRequests s ++ [disp])
    (inDocument s) (rendered s) (idsBefore s) (idsAfter s).

(** Whether the element [n] carries the identifier. *)
Definition hasId (s : state) (n : node) : bool :=
  match Rows.nodes (rows s) !! n with
  | Some e => bool_decide (id e = Some (activeItemId s))
  | None => false
  end.

(** What [document.querySelector] can give for the identifier: a row,
    or an element of the page before or after the rows. *)
Inductive selection :=
  | Before
  | Row (n : node)
  | After.

(** [document.querySelector('#' + this._activeItemId)]: the first element
    of the document, in tree order, that carries the identifier, which
    is what the selector means for an identifier that line 224 made. The
    rows are looked at only when they are in the document; they come in
    the order of the container's children. *)
Definition querySelected (s : state) : option selection :=
  if (0 <? idsBefore s)%nat then Some Before
  else
    match (if inDocument s then find (hasId s) (Rows.children (rows s)) else None) with
    | Some n => Some (Row n)
    | None => if (0 <? idsAfter s)%nat then Some After else None
    end.

(** Lines 328-331 (and 261-264): the element found loses the
    identifier. *)
Definition unselect (s : state) : state :=
  match querySelected s with
  | Some Before => setIdsBefore (pred (idsBefore s)) s
  | Some (Row selected) => setRows (Rows.setNodes (alter (setId None) selected)) s
  | Some After => setIdsAfter (pred (idsAfter s)) s
  | None => s
  end.

(** [_rowContainer.focus()] takes the focus when the container can take
    it: it has a [tabindex], as between [enter] and [leave], and it is
    connected and rendered. Otherwise the call does nothing. *)
Definition focusContainer (s : state) : state :=
  if containerIsMenu s && rendered s then setFocus RowContainer s else s.

(** [_terminal.textarea.focus()], likewise. *)
Definition focusTextarea (s : state) : state :=
  if rendered s then setFocus Textarea s else s.

(** [row < 0] on a number that may be [NaN]. *)
Definition negative (row : option Z) : bool :=
  match row with Some z => z <? 0 | None => false end.

(** Lines 317-335. *)
Definition _navigateToElement (row : option Z) : JS.M state unit :=
  fun s =>
    if negative row && (ydisp s >? 0) then
      JS.Returned tt (scrollLines (-1) s)
    else
      let s1 := setFocusedRow row (unselect s) in
      match JS.index (Rows.rowElements (rows s1)) row with
      | None => JS.Threw JS.TypeError s1
      | Some selectedElement =>
          JS.Returned tt
            (setRows (Rows.setNodes (alter (setId (Some (activeItemId s1))) selectedElement)) s1)
      end.

Definition plus (row : option Z) (d : Z) : option Z := (fun z => z + d) <$> row.

(** Lines 304-309. *)
Definition _onArrowUp : JS.M state bool :=
  let* s := JS.get in
  let* _ := _navigateToElement (plus (navigationModeFocusedRow s) (-1)) in
  let* _ := JS.modify focusContainer in
  JS.ret true.

(** Lines 311-315. *)
Definition _onArrowDown : JS.M state bool :=
  let* s := JS.get in
  let* _ := _navigateToElement (plus (navigationModeFocusedRow s) 1) in
  let* _ := JS.modify focusContainer in
  JS.ret true.

Section Platform.

Variable isMac : bool.

(** Lines 245-253. *)
Definition enter : JS.M state unit :=
  let* _ := JS.modify (setActive true) in
  let* _ := JS.modify (setLive (Live.announce isMac ENTERED)) in
  let* _ := JS.modify (setMenu true) in
  let* _ := JS.modify focusContainer in
  let* s := JS.get in
  _navigateToElement (Some (y s)).

(** Lines 255-266. *)
Definition leave : JS.M state unit :=
  let* _ := JS.modify (setActive false) in
  let* _ := JS.modify (setLive (Live.announce isMac LEFT)) in
  let* _ := JS.modify (setMenu false) in
  let* _ := JS.modify unselect in
  JS.modify focusTextarea.

(** Lines 299-302. *)
Definition _onEscape : JS.M state bool :=
  let* _ := leave in JS.ret true.

(** Lines 292-297: the handler's answer, as a boolean. *)
Definition _onKey (handler : JS.M state bool) : JS.M state bool :=
  let* handled := handler in
  JS.ret (if handled then true else false).

(** Lines 281-290. *)
Definition onKeyUp (keyCode : Z) : JS.M state bool :=
  _onKey
    (if keyCode =? 27 then _onEscape
     else if keyCode =? 38 then _onArrowUp
     else if keyCode =? 40 then _onArrowDown
     else JS.ret false).

(** Lines 272-279. *)
Definition onKeyDown (keyCode : Z) : JS.M state bool :=
  _onKey (fun s => JS.Returned (if isNavigationModeActive s then true else false) s).

(** Lines 226-231: the [keyup] listener on the row container. *)
Definition keyup (keyCode : Z) : JS.M state bool :=
  fun s => if isNavigationModeActive s then onKeyUp keyCode s else JS.Returned false s.

(** Lines 232-237: the [keydown] listener. *)
Definition keydown (keyCode : Z) : JS.M state bool :=
  fun s => if isNavigationModeActive s then onKeyDown keyCode s else JS.Returned false s.

(** Key events one after the other. An exception that leaves a listener
    ends that event only: the next event finds the state as it was left. *)
Definition keyups (keyCodes : list Z) (s : state) : state :=
  foldl (fun acc keyCode => JS.final (keyup keyCode acc)) s keyCodes.

End Platform.

(** A terminal of [rows] rows just after construction (lines 37-59):
    navigation inactive, nothing focused, the cursor on line [y]; the
    terminal is rendered in the document and no other element of the
    page carries its identifier. *)
Definition init (r : Rows.state) (ydisp y : Z) (activeItemId : string) : state :=
  mkState r Live.init ydisp y activeItemId false None false Textarea []
          true true 0 0.

(** A terminal of two rows with the cursor on the first, in navigation
    mode. *)
Definition twoRows : state :=
  JS.final (enter false (init (JS.final (Rows.construct 2 (Dom.whole 17))) 0 0 "xterm-active-item-7")).

(** The focused row is one of the mirrored rows. *)
Definition focusedInRange (s : state) : Prop :=
  match navigationModeFocusedRow s with
  | Some row => 0 <= row < Rows.terminalRows (rows s)
  | None => False
  end.

End Nav.

(** ** Disposal (lines 24, 61-91, 216, 226-243) *)

Module Lifecycle.

Import Dom.

Inductive disposable :=
  | RenderRowsDebouncer                    (* line 61 *)
  | NavigationMode                         (* line 62 *)
  | TerminalListener (type : string)       (* _terminal.addDisposableListener(type, ...) *)
  | DomListener (target type : string).    (* addDisposableListener(target, type, ...) *)

(** What the manager asks of its collaborators while it disposes. *)
Inductive call :=
  | RemoveChild (child : option node)      (* _terminal.element.removeChild(child) *)
  | Dispose (d : disposable).              (* d.dispose() *)

(** The fields that [dispose] reads or writes; a field is [None] when it
    holds [null]. *)
Record state := mkState {
  elementChildren : list node;                (* children of _terminal.element *)
  accessibilityTreeRoot : option node;
  rowContainer : option node;
  liveRegion : option node;
  rowElements : option (list (option node));
  disposables : option (list disposable);
  navDisposables : option (list disposable);  (* _disposables of the navigation mode *)
  calls : list call
}.

(** Lines 61-79, in the order of the pushes. *)
Definition managerDisposables : list disposable :=
  [ RenderRowsDebouncer; NavigationMode;
    TerminalListener "resize"; TerminalListener "refresh"; TerminalListener "scroll";
    TerminalListener "a11y.char"; TerminalListener "linefeed"; TerminalListener "a11y.tab";
    TerminalListener "charsizechanged"; TerminalListener "key"; TerminalListener "blur";
    TerminalListener "dprchange"; DomListener "window" "resize" ].

(** Lines 226-237. *)
Definition navigationDisposables : list disposable :=
  [ DomListener "rowContainer" "keyup"; DomListener "rowContainer" "keydown" ].

(** The fields after the constructor, which appends the root to the
    terminal's element (line 59), whatever [others] that element holds. *)
Definition constructed (others : list node) (root container live : node)
    (rows : list (option node)) : state :=
  mkState (others ++ [root]) (Some root) (Some container) (Some live) (Some rows)
          (Some managerDisposables) (Some navigationDisposables) [].

Definition record (c : call) (s : state) : state :=
  mkState (elementChildren s) (accessibilityTreeRoot s) (rowContainer s) (liveRegion s)
          (rowElements s) (disposables s) (navDisposables s) (calls s ++ [c]).

Section Host.

(** Whether [removeChild] of the terminal's element rejects an argument
    that is not one of its children, as a browser does, or lets it pass,
    as a stand-in for the terminal may. *)
Variable checked : bool.

(** [_terminal.element.removeChild(x)]. *)
Definition elementRemoveChild (x : option node) : JS.M state unit :=
  fun s =>
    let s1 := record (RemoveChild x) s in
    match x with
    | Some n =>
        if bool_decide (n ∈ elementChildren s) then
          JS.Returned tt
            (mkState (filter (fun m => m <> n) (elementChildren s1))
               (accessibilityTreeRoot s1) (rowContainer s1) (liveRegion s1)
               (rowElements s1) (disposables s1) (navDisposables s1) (calls s1))
        else if checked then JS.Threw JS.NotFoundError s1 else JS.Returned tt s1
    | None => if checked then JS.Threw JS.TypeError s1 else JS.Returned tt s1
    end.

(** [arr.forEach(d => d.dispose())] on an array. *)
Fixpoint forEach (dispose : disposable -> JS.M state unit) (arr : list disposable)
  : JS.M state unit :=
  match arr with
  | [] => JS.ret tt
  | d :: rest => let* _ := dispose d in forEach dispose rest
  end.

(** Lines 240-243; [forEach] of [null] is a [TypeError]. *)
Definition navigationDispose : JS.M state unit :=
  fun s =>
    match navDisposables s with
    | None => JS.Threw JS.TypeError s
    | Some arr =>
        (let* _ := forEach (fun d => JS.modify (record (Dispose d))) arr in
         JS.modify (fun s' =>
           mkState (elementChildren s') (accessibilityTreeRoot s') (rowContainer s')
                   (liveRegion s') (rowElements s') (disposables s') None (calls s'))) s
    end.

(** [d.dispose()] for an entry of the manager's [_disposables]. *)
Definition disposeOf (d : disposable) : JS.M state unit :=
  match d with
  | NavigationMode => navigationDispose
  | _ => JS.modify (record (Dispose d))
  end.

(** Lines 85-90. *)
Definition release (s : state) : state :=
  mkState (elementChildren s) None None None None None (navDisposables s) (calls s).

(** Lines 82-91. *)
Definition dispose : JS.M state unit :=
  let* s0 := JS.get in
  let* _ := elementRemoveChild (accessibilityTreeRoot s0) in
  let* s1 := JS.get in
  match disposables s1 with
  | None => JS.throw JS.TypeError
  | Some arr =>
      let* _ := forEach disposeOf arr in
      JS.modify release
  end.

End Host.

(** The calls of a first [dispose], in order: the root leaves the
    terminal's element, then every entry of [managerDisposables] is
    disposed of, the navigation mode through its own two listeners. *)
Definition firstCalls (root : node) : list call :=
  RemoveChild (Some root) ::
  [ Dispose RenderRowsDebouncer;
    Dispose (DomListener "rowContainer" "keyup");
    Dispose (DomListener "rowContainer" "keydown");
    Dispose (TerminalListener "resize"); Dispose (TerminalListener "refresh");
    Dispose (TerminalListener "scroll"); Dispose (TerminalListener "a11y.char");
    Dispose (TerminalListener "linefeed"); Dispose (TerminalListener "a11y.tab");
    Dispose (TerminalListener "charsizechanged"); Dispose (TerminalListener "key");
    Dispose (TerminalListener "blur"); Dispose (TerminalListener "dprchange");
    Dispose (DomListener "window" "resize") ].

Definition isDispose (c : call) : bool :=
  match c with Dispose _ => true | RemoveChild _ => false end.

End Lifecycle.

(** ** Refreshing rows (lines 8, 49-50, 64-65, 184-186) *)

Module Debounce.

(** Modelled from the spec: [RenderDebouncer] of utils/RenderDebouncer,
    which is not in the source. "`refresh(start?, end?)` records the
    requested range (defaulting to the full current viewport if omitted)
    and, if no flush is already pending, schedules exactly one deferred
    flush after a fixed short delay (10 ms); repeated calls before the
    delay elapses merge their ranges (widen to the union) without
    scheduling additional flushes. On flush, invokes RowMirror's
    `writeRange` once with the merged range, then clears pending state."
    Time is counted in milliseconds; [DELAY] is the fixed short delay. *)
Definition DELAY : Z := 10.

(** Modelled from the spec: the fields of the debouncer, which is not in
    the source, with the count of flushes it scheduled and the ranges it
    handed to its callback, [_renderRows] (line 49). *)
Record state := mkState {
  rows : Z;                      (* _terminal.rows *)
  range : option (Z * Z);        (* the range recorded, if any *)
  deadline : option Z;           (* when the pending flush fires, if one is pending *)
  scheduled : nat;               (* flushes scheduled so far *)
  flushes : list (Z * Z)         (* ranges written so far, oldest first *)
}.

(** Modelled from the spec: a debouncer (not in the source) with nothing
    recorded and nothing pending. *)
Definition idle (rows : Z) : state := mkState rows None None 0 [].

(** Modelled from the spec: "merge their ranges (widen to the union)", of
    the debouncer that is not in the source. *)
Definition merge (old : option (Z * Z)) (start end_ : Z) : Z * Z :=
  match old with
  | Some (lo, hi) => (Z.min lo start, Z.max hi end_)
  | None => (start, end_)
  end.

(** Modelled from the spec: the flush of the debouncer (not in the
    source): one write of the merged range, then nothing is pending. *)
Definition flush (s : state) : state :=
  match range s with
  | Some r => mkState (rows s) None None (scheduled s) (flushes s ++ [r])
  | None => mkState (rows s) None None (scheduled s) (flushes s)
  end.

(** Modelled from the spec: time reaches [t], and the flush of the
    debouncer (not in the source) fires if it is due. *)
Definition elapse (t : Z) (s : state) : state :=
  match deadline s with
  | Some d => if d <=? t then flush s else s
  | None => s
  end.

(** Modelled from the spec: [refresh(start, end)] of the debouncer (not
    in the source), called at time [t]; an omitted bound defaults to the
    full viewport. *)
Definition refresh (t : Z) (start end_ : option Z) (s : state) : state :=
  let s1 := elapse t s in
  let r := merge (range s1) (default 0 start) (default (rows s1 - 1) end_) in
  match deadline s1 with
  | Some d => mkState (rows s1) (Some r) (Some d) (scheduled s1) (flushes s1)
  | None => mkState (rows s1) (Some r) (Some (t + DELAY)) (S (scheduled s1)) (flushes s1)
  end.

(** Lines 184-186: the manager hands every request to the debouncer. *)
Definition _refreshRows (t : Z) (start end_ : option Z) (s : state) : state :=
  refresh t start end_ s.

(** Requests [(t, start, end)], oldest first. *)
Definition refreshAll (requests : list (Z * Z * Z)) (s : state) : state :=
  foldl (fun acc q => _refreshRows q.1.1 (Some q.1.2) (Some q.2) acc) s requests.

(** The lowest start and the highest end among a first range and the
    ranges of [requests]. *)
Definition lowest (requests : list (Z * Z * Z)) (start : Z) : Z :=
  foldl (fun acc q => Z.min acc q.1.2) start requests.
Definition highest (requests : list (Z * Z * Z)) (end_ : Z) : Z :=
  foldl (fun acc q => Z.max acc q.2) end_ requests.

End Debounce.

(** ** Events of the live region (lines 67-72, 159-161, 205-208) *)

Module LiveEvents.

Import Live.

(** What reaches the live region: the terminal's events that the
    constructor listens to, [announce], which the navigation mode calls,
    and the timer of line 159 when it fires. *)
Inductive event :=
  | Key (keyChar : string)     (* 'key', line 71 *)
  | Char (char : string)       (* 'a11y.char', line 67 *)
  | Linefeed                   (* 'linefeed', line 68 *)
  | Tab (spaceCount : nat)     (* 'a11y.tab', line 69 *)
  | Blur                       (* 'blur', line 72 *)
  | Announce (text : string)   (* announce(text) *)
  | ReattachTimer.             (* the callback of line 160 *)

Section Platform.

Variable isMac : bool.

Definition handle (e : event) (s : state) : state :=
  match e with
  | Key keyChar => _onKey isMac keyChar s
  | Char char => _onChar isMac char s
  | Linefeed => _onChar isMac LF s
  | Tab spaceCount => _onTab isMac spaceCount s
  | Blur => _clearLiveRegion isMac s
  | Announce text => announce isMac text s
  | ReattachTimer => runReattach s
  end.

(** Events one after the other, oldest first. *)
Definition handleAll (events : list event) (s : state) : state :=
  foldl (fun acc e => handle e acc) s events.

(** Keys pressed one after the other. *)
Definition onKeys (keys : list string) (s : state) : state :=
  foldl (fun acc keyChar => _onKey isMac keyChar acc) s keys.

End Platform.

Definition fromTerminal (e : event) : bool :=
  match e with Announce _ => false | _ => true end.

(** How many of [chars] are line feeds. *)
Definition linefeeds (chars : list string) : nat :=
  length (filter (fun char => char = LF) chars).

(** A live region that holds text while it is out of the tree has a
    timer pending that puts it back. *)
Definition reattachPending (s : state) : Prop :=
  liveAttached s = false -> textContent (liveRegion s) <> "" ->
  (0 < reattachTimers s)%nat.

End LiveEvents.

(** ** Runs of the mirrored rows *)

Module RowRuns.

Import Dom Rows.

(** Resize events one after the other; a throw ends the run. *)
Fixpoint resizes (cols : Z) (counts : list Z) : JS.M state unit :=
  match counts with
  | [] => JS.ret tt
  | rows :: rest => let* _ := resize cols rows in resizes cols rest
  end.

(** The element of row [i], when there is one. *)
Definition rowElement (s : state) (i : Z) : option Element :=
  JS.index (rowElements s) (Some i) ≫= fun n => nodes s !! n.

(** A row element as [_createAccessibilityTreeNode] and
    [_refreshRowsDimensions] leave it. *)
Definition blankRow (cellHeight : number) : Element :=
  mkElement (Some "menuitem") "" None (px cellHeight) None.

(** Two rows as the constructor leaves them, with cells 17 px high. *)
Definition twoBlank : state := JS.final (construct 2 (whole 17)).

End RowRuns.

(** ** Runs of the navigation mode *)

Module NavEvents.

Import Dom Nav.

Inductive event :=
  | Enter                  (* enterNavigationMode(), lines 97-99 *)
  | KeyUp (keyCode : Z)    (* 'keyup' on the row container *)
  | KeyDown (keyCode : Z). (* 'keydown' on the row container *)

Section Platform.

Variable isMac : bool.

(** One event; an exception ends that event only. *)
Definition handle (e : event) (s : state) : state :=
  match e with
  | Enter => JS.final (enter isMac s)
  | KeyUp keyCode => JS.final (keyup isMac keyCode s)
  | KeyDown keyCode => JS.final (keydown keyCode s)
  end.

Definition handleAll (events : list event) (s : state) : state :=
  foldl (fun acc e => handle e acc) s events.

End Platform.

(** Two rows just constructed, the cursor on the first, nothing
    scrolled: before navigation mode is entered. *)
Definition fresh : state := init RowRuns.twoBlank 0 0 "xterm-active-item-7".

(** The identifier is one that line 224 makes, for a number below
    100000. *)
Definition ownIdentifier (s : state) : Prop :=
  exists random, (random < 100000)%N /\ activeItemId s = newActiveItemId random.

(** [document.querySelector] reaches the rows, and no element of the
    page that carries the identifier comes before them: a row that
    carries the identifier is found. *)
Definition rowsFound (s : state) : Prop :=
  inDocument s = true /\ idsBefore s = 0%nat.

(** At most one row of the container carries the identifier. *)
Definition atMostOneSelected (s : state) : Prop :=
  forall n m, n ∈ Rows.children (rows s) -> m ∈ Rows.children (rows s) ->
    hasId s n = true -> hasId s m = true -> n = m.

(** No row of the container carries the identifier. *)
Definition unselected (s : state) : Prop :=
  forall n, n ∈ Rows.children (rows s) -> hasId s n = false.

(** An element with its identifier left out. *)
Definition withoutId (e : Element) : Element := setId None e.

(** The rows of [s'] are the rows of [s], with the same elements but
    for their identifiers. *)
Definition sameButId (s s' : state) : Prop :=
  Rows.children (rows s') = Rows.children (rows s) /\
  Rows.rowElements (rows s') = Rows.rowElements (rows s) /\
  Rows.created (rows s') = Rows.created (rows s) /\
  Rows.terminalRows (rows s') = Rows.terminalRows (rows s) /\
  activeItemId s' = activeItemId s /\
  forall n, withoutId <$> Rows.nodes (rows s') !! n =
            withoutId <$> Rows.nodes (rows s) !! n.

End NavEvents.

(** ** Attaching a terminal to a socket (src/unnamed/part_000) *)

Module Attach.

(** [MessageEvent.data] of a WebSocket. *)
Inductive data :=
  | Text (s : string)
  | ArrayBuffer (bytes : list Byte.byte)
  | Blob.

(** The values that reach [term._attachSocketBuffer] and [term.write]. *)
Inductive value :=
  | Undefined
  | Null
  | Str (s : string)
  | Buffer (bytes : list Byte.byte).   (* the ArrayBuffer object itself *)

(** [if (v)]: the empty string is false, like [null] and [undefined]. *)
Definition truthy (v : value) : bool :=
  match v with
  | Undefined | Null => false
  | Str s => negb (String.eqb s "")
  | Buffer _ => true
  end.

(** [String(v)]. *)
Definition toString (v : value) : string :=
  match v with
  | Undefined => "undefined"
  | Null => "null"
  | Str s => s
  | Buffer _ => "[object ArrayBuffer]"
  end.

(** [a + b] where [a] is a string or an object: a concatenation. *)
Definition plus (a b : value) : value := Str (toString a +:+ toString b).

(** A socket is known by a number. *)
Definition socket := nat.

(** Every call of [attach] makes its own closures [_getMessage] and
    [_sendData] (lines 39 and 60): they are known by the number of the
    call, and the closures of two calls are two objects. *)
Definition call := nat.

(** A 'message' listener of a socket (line 67): the [_getMessage] of a
    call, which holds the [buffered] of that call. *)
Record messageListener := onMessage {
  msgSocket : socket;
  msgCall : call;
  msgBuffered : bool
}.

(** A 'data' listener of the terminal (line 70): the [_sendData] of a
    call, which holds the socket of that call. *)
Record dataListener := onData {
  dataCall : call;
  dataSocket : socket
}.

Record state := mkState {
  attachSocketBuffer : value;               (* term._attachSocketBuffer *)
  writes : list value;                      (* arguments of term.write so far *)
  flushTimers : nat;                        (* setTimeout(term._flushBuffer, 10) not yet run *)
  termSocket : option socket;               (* term.socket *)
  calls : nat;                              (* calls of attach so far *)
  messageListeners : list messageListener;  (* 'message' listeners of the sockets, oldest first *)
  dataListeners : list dataListener;        (* 'data' listeners of the terminal, oldest first *)
  readyState : socket -> Z;                 (* socket.readyState *)
  sent : list (socket * string)             (* socket.send(data) so far, with the socket *)
}.

(** A terminal that was never attached, with sockets in the states
    [readyState]. *)
Definition detached (readyState : socket -> Z) : state :=
  mkState Undefined [] 0 None 0 [] [] readyState [].

(** [term._getMessage] and [term._sendData] are the closures of the last
    call of [attach], and [undefined] before the first. *)
Definition lastCall (s : state) : option call :=
  match calls s with
  | O => None
  | S c => Some c
  end.

(** The 'message' listeners of socket [k], oldest first. *)
Definition listenersOf (k : socket) (s : state) : list messageListener :=
  filter (fun l => msgSocket l = k) (messageListeners s).

(** What a listener leaves: it returns, or it throws a string. *)
Inductive outcome :=
  | Handled (s : state)
  | Thrown (what : string) (s : state).

Definition after (o : outcome) : state :=
  match o with Handled s => s | Thrown _ s => s end.

(** [term.write(v)]. *)
Definition write (v : value) (s : state) : state :=
  mkState (attachSocketBuffer s) (writes s ++ [v]) (flushTimers s) (termSocket s)
          (calls s) (messageListeners s) (dataListeners s) (readyState s) (sent s).

(** Lines 23-26. *)
Definition _flushBuffer (s : state) : state :=
  let s1 := write (attachSocketBuffer s) s in
  mkState Null (writes s1) (flushTimers s1) (termSocket s1)
          (calls s1) (messageListeners s1) (dataListeners s1) (readyState s1) (sent s1).

(** Lines 28-35. *)
Definition _pushToBuffer (d : value) (s : state) : state :=
  if truthy (attachSocketBuffer s) then
    mkState (plus (attachSocketBuffer s) d) (writes s) (flushTimers s) (termSocket s)
            (calls s) (messageListeners s) (dataListeners s) (readyState s) (sent s)
  else
    mkState d (writes s) (S (flushTimers s)) (termSocket s)
            (calls s) (messageListeners s) (dataListeners s) (readyState s) (sent s).

(** Lines 60-65: the [_sendData] of a call of [attach] with socket [k]. *)
Definition _sendData (k : socket) (d : string) (s : state) : state :=
  if negb (readyState s k =? 1) then s
  else mkState (attachSocketBuffer s) (writes s) (flushTimers s) (termSocket s)
               (calls s) (messageListeners s) (dataListeners s) (readyState s)
               (sent s ++ [(k, d)]).

Section Host.

(** [TextDecoder.decode] of the host. *)
Variable decode : list Byte.byte -> string.

(** Lines 40-51: [str || ev.data], or the throw of line 49. *)
Definition received (d : data) : option value :=
  match d with
  | Text s => Some (Str s)
  | ArrayBuffer bytes =>
      let str := Str (decode bytes) in
      Some (if truthy str then str else Buffer bytes)
  | Blob => None
  end.

(** Lines 39-58: the [_getMessage] of a call of [attach] with
    [buffered]. *)
Definition _getMessage (buffered : bool) (ev : data) (s : state) : outcome :=
  match received ev with
  | None => Thrown "TODO: handle Blob?" s
  | Some v => Handled (if buffered then _pushToBuffer v s else write v s)
  end.

(** A 'message' event of socket [k]: every listener of the socket is
    called, in the order in which they were added; an exception that
    leaves one of them does not keep the next from being called. *)
Definition message (k : socket) (ev : data) (s : state) : state :=
  foldl (fun acc l => after (_getMessage (msgBuffered l) ev acc)) s (listenersOf k s).

(** Messages of socket [k] one after the other. *)
Definition messages (k : socket) (evs : list data) (s : state) : state :=
  foldl (fun acc ev => message k ev acc) s evs.

End Host.

(** Lines 19-22 and 67-71: [attach(term, socket, bidirectional, buffered)];
    [bidirectional] is [None] when it is left out. The closures of this
    call are added to the listeners that are there. The listeners of
    lines 73-74 call [term.detach], which is not in the source. *)
Definition attach (k : socket) (bidirectional : option bool) (buffered : bool)
    (s : state) : state :=
  mkState (attachSocketBuffer s) (writes s) (flushTimers s) (Some k)
          (S (calls s))
          (messageListeners s ++ [onMessage k (calls s) buffered])
          (if default true bidirectional
           then dataListeners s ++ [onData (calls s) k]
           else dataListeners s)
          (readyState s) (sent s).

(** A 'data' event of the terminal: every listener is called, in the
    order in which they were added. *)
Definition dataEvent (d : string) (s : state) : state :=
  foldl (fun acc l => _sendData (dataSocket l) d acc) s (dataListeners s).

Definition dataEvents (ds : list string) (s : state) : state :=
  foldl (fun acc d => dataEvent d acc) s ds.

(** A timer of line 33 fires. *)
Definition timeout (s : state) : state :=
  match flushTimers s with
  | O => s
  | S n =>
      _flushBuffer
        (mkState (attachSocketBuffer s) (writes s) n (termSocket s)
                 (calls s) (messageListeners s) (dataListeners s) (readyState s) (sent s))
  end.

(** [n] timers fire, one after the other. *)
Definition timeouts (n : nat) (s : state) : state := Nat.iter n timeout s.

(** Lines 84-94: [detach(term, socket)]; [given] is [None] when the
    socket is left out. [term.off] and [removeEventListener] take away
    the closure they are given, which is the one of the last call of
    [attach], and which is on a list once at most, as [attach] adds the
    closures of a call once: a listener that an earlier call added
    stays. *)
Definition detach (given : option socket) (s : state) : state :=
  let target := match given with Some k => Some k | None => termSocket s end in
  mkState (attachSocketBuffer s) (writes s) (flushTimers s) None (calls s)
          (match target, lastCall s with
           | Some k, Some c =>
               filter (fun l => ~ (msgSocket l = k /\ msgCall l = c)) (messageListeners s)
           | _, _ => messageListeners s
           end)
          (match lastCall s with
           | Some c => filter (fun l => dataCall l <> c) (dataListeners s)
           | None => dataListeners s
           end)
          (readyState s) (sent s).

(** The strings of [texts], joined. *)
Definition joined (texts : list string) : string :=
  foldr (fun t acc => t +:+ acc) "" texts.

(** The data [ds] as sent on socket [k]. *)
Definition sentOn (k : socket) (ds : list string) : list (socket * string) :=
  (fun d => (k, d)) <$> ds.

End Attach.

(** * Facts *)

Module JSFacts.

Lemma index_mirror {A} (l : list A) (i : nat) :
  JS.index (Some <$> l) (Some (Z.of_nat i)) = l !! i.
Proof.
  unfold JS.index. destruct (Z.ltb_spec (Z.of_nat i) 0); [lia|].
  rewrite Nat2Z.id, list_lookup_fmap. by destruct (l !! i).
Qed.

Lemma index_negative {A} (arr : list (option A)) (z : Z) :
  z < 0 -> JS.index arr (Some z) = None.
Proof. intros H. unfold JS.index. by destruct (Z.ltb_spec z 0); [|lia]. Qed.

Lemma index_past_end {A} (arr : list (option A)) (z : Z) :
  Z.of_nat (length arr) <= z -> JS.index arr (Some z) = None.
Proof.
  intros H. unfold JS.index. destruct (Z.ltb_spec z 0); [done|].
  rewrite lookup_ge_None_2; [done | lia].
Qed.

Lemma store_push {A} (l : list A) (x : A) :
  JS.store (Some <$> l) (length l) x = Some <$> (l ++ [x]).
Proof.
  unfold JS.store. rewrite length_fmap.
  destruct (Nat.ltb_spec (length l) (length l)); [lia|].
  rewrite Nat.sub_diag, fmap_app. reflexivity.
Qed.

Lemma pop_mirror {A} (l : list A) (x : A) :
  JS.pop (Some <$> (l ++ [x])) = (Some x, Some <$> l).
Proof.
  unfold JS.pop. rewrite fmap_app. simpl.
  by rewrite last_snoc, removelast_last.
Qed.

End JSFacts.

Module LiveFacts.
Import Live.

Lemma append_empty (a : string) : a +:+ "" = a.
Proof.
  induction a as [|c a IH]; [reflexivity|].
  change (String c (a +:+ "") = String c a). by rewrite IH.
Qed.

Lemma append_assoc (a b c : string) : (a +:+ b) +:+ c = a +:+ (b +:+ c).
Proof.
  induction a as [|x a IH]; [reflexivity|].
  change (String x ((a +:+ b) +:+ c) = String x (a +:+ (b +:+ c))). by rewrite IH.
Qed.

Lemma textContent_snoc (ps : list piece) (p : piece) :
  textContent (ps ++ [p]) = written (textContent ps) p.
Proof. unfold textContent. by rewrite foldl_snoc. Qed.

(** Writes that are not [innerHTML += '&nbsp;'] add their text at the
    end and leave the text before them as it is. *)
Lemma textContent_literal (ps added : list piece) :
  Forall (fun p => p <> Nbsp) added ->
  textContent (ps ++ added) = textContent ps +:+ textContent added.
Proof.
  induction added as [|p added IH] using rev_ind; intros H.
  - by rewrite app_nil_r, append_empty.
  - apply Forall_app in H as [H Hp]. apply Forall_cons in Hp as [Hp _].
    rewrite app_assoc, !textContent_snoc, IH by done.
    destruct p; [done | |]; simpl; apply append_assoc.
Qed.

Lemma spaces_app (a b : string) : spaces (a +:+ b) = (spaces a + spaces b)%nat.
Proof.
  induction a as [|c a IH]; [reflexivity|].
  change (spaces (String c (a +:+ b)) = (spaces (String c a) + spaces b)%nat).
  simpl. rewrite IH. lia.
Qed.

Lemma spaces_dropNulls (t : string) : spaces (dropNulls t) = spaces t.
Proof.
  induction t as [|c t IH]; [reflexivity|]. simpl.
  destruct (Ascii.eqb_spec c "000") as [->|_]; simpl; by rewrite IH.
Qed.

Lemma normalizeNewlines_cons (c : ascii) (rest : string) :
  normalizeNewlines (String c rest) =
    if Ascii.eqb c "013" then
      match rest with
      | String d rest' =>
          if Ascii.eqb d "010" then String "010" (normalizeNewlines rest')
          else String "010" (normalizeNewlines rest)
      | EmptyString => String "010" EmptyString
      end
    else String c (normalizeNewlines rest).
Proof. reflexivity. Qed.

Lemma spaces_cons (c : ascii) (rest : string) :
  spaces (String c rest) = ((if Ascii.eqb c " " then 1 else 0) + spaces rest)%nat.
Proof. reflexivity. Qed.

Lemma spaces_normalizeNewlines (t : string) : spaces (normalizeNewlines t) = spaces t.
Proof.
  assert (H : forall n t, (String.length t <= n)%nat ->
              spaces (normalizeNewlines t) = spaces t).
  { clear t. induction n as [|n IH]; intros [|c t] Hn; try reflexivity; simpl in Hn; [lia|].
    rewrite normalizeNewlines_cons.
    destruct (Ascii.eqb_spec c "013") as [->|_].
    - destruct t as [|d t]; [reflexivity|]. simpl in Hn.
      destruct (Ascii.eqb_spec d "010") as [->|_].
      + rewrite !spaces_cons. rewrite IH by lia. reflexivity.
      + rewrite (spaces_cons "010"), (spaces_cons "013"), IH by (simpl; lia). reflexivity.
    - rewrite !spaces_cons, IH by lia. reflexivity. }
  by apply (H (String.length t)).
Qed.

(** Parsing the text again neither adds nor removes a space. *)
Lemma spaces_reparsed (t : string) : spaces (reparsed t) = spaces t.
Proof. unfold reparsed. by rewrite spaces_dropNulls, spaces_normalizeNewlines. Qed.

Lemma notices_snoc (ps : list piece) (p : piece) :
  notices (ps ++ [p]) = (notices ps + (if isNotice p then 1 else 0))%nat.
Proof.
  unfold notices. rewrite filter_app, length_app. f_equal.
  destruct p; reflexivity.
Qed.

Section Platform.

Variable isMac : bool.

(** [reattach] only schedules a timer. *)
Lemma reattach_fields (s : state) :
  liveRegion (reattach isMac s) = liveRegion s /\
  liveRegionLineCount (reattach isMac s) = liveRegionLineCount s /\
  charsToConsume (reattach isMac s) = charsToConsume s.
Proof.
  unfold reattach. destruct isMac; [|done].
  destruct (negb _ && negb _); done.
Qed.

(** Past the ceiling [_onChar] does nothing at all. *)
Lemma onChar_latched (char : string) (s : state) :
  (MAX_ROWS_TO_READ < liveRegionLineCount s)%nat -> _onChar isMac char s = s.
Proof.
  intros H. unfold _onChar.
  destruct (Nat.ltb_spec (liveRegionLineCount s) (MAX_ROWS_TO_READ + 1)); [|done].
  unfold MAX_ROWS_TO_READ in *. lia.
Qed.

Lemma onChars_latched (chars : list string) (s : state) :
  (MAX_ROWS_TO_READ < liveRegionLineCount s)%nat -> onChars isMac chars s = s.
Proof.
  intros H. unfold onChars. induction chars as [|c chars IH]; simpl; [done|].
  by rewrite onChar_latched.
Qed.

(** What one [_onChar] does to the three fields that matter, below the
    ceiling. *)
Lemma onChar_open (char : string) (s : state) :
  (liveRegionLineCount s <= MAX_ROWS_TO_READ)%nat ->
  let echoed := match charsToConsume s with
                | k :: _ => String.eqb k char
                | [] => false
                end in
  let n := if String.eqb char LF then S (liveRegionLineCount s)
           else liveRegionLineCount s in
  liveRegion (_onChar isMac char s) =
    liveRegion s ++ (if echoed then [] else [write char])
                 ++ (if String.eqb char LF && (n =? MAX_ROWS_TO_READ + 1)%nat
                     then [Notice] else []) /\
  liveRegionLineCount (_onChar isMac char s) = n /\
  charsToConsume (_onChar isMac char s) = tail (charsToConsume s).
Proof.
  intros H. unfold _onChar.
  destruct (Nat.ltb_spec (liveRegionLineCount s) (MAX_ROWS_TO_READ + 1));
    [|unfold MAX_ROWS_TO_READ in *; lia].
  destruct (reattach_fields (countLine char (announceChar char s))) as (-> & -> & ->).
  unfold countLine, announceChar.
  destruct (charsToConsume s) as [|k rest] eqn:Hq; simpl;
    [|destruct (String.eqb k char); simpl];
    destruct (String.eqb char LF); simpl;
    try destruct (_ =? _)%nat; simpl;
    rewrite ?app_nil_r, <- ?app_assoc, ?Hq; done.
Qed.

Lemma notices_write_free (l : list piece) (char : string) (echoed : bool) :
  notices (l ++ (if echoed then [] else [write char])) = notices l.
Proof.
  destruct echoed; [by rewrite app_nil_r|].
  rewrite notices_snoc. unfold write. destruct (String.eqb char SPACE); simpl; lia.
Qed.

Lemma onChar_settled (char : string) (s : state) :
  settled s -> settled (_onChar isMac char s).
Proof.
  intros [Hle Hn].
  destruct (Nat.ltb_spec MAX_ROWS_TO_READ (liveRegionLineCount s)) as [Hlt|Hge].
  - rewrite onChar_latched by done. split; [done|].
    rewrite Hn. by destruct (Nat.ltb_spec MAX_ROWS_TO_READ (liveRegionLineCount s)); [|lia].
  - destruct (onChar_open char s Hge) as (Hl & Hc & _).
    unfold settled. rewrite Hl, Hc. clear Hl Hc.
    rewrite app_assoc. unfold MAX_ROWS_TO_READ in *.
    destruct (Nat.ltb_spec 20 (liveRegionLineCount s)) as [?|_] in Hn; [lia|].
    destruct (String.eqb char LF); cbn [andb].
    + destruct (Nat.eqb_spec (S (liveRegionLineCount s)) (20 + 1)) as [E|E].
      * rewrite notices_snoc, notices_write_free, Hn. cbn [isNotice].
        destruct (Nat.ltb_spec 20 (S (liveRegionLineCount s))); [|lia].
        split; lia.
      * rewrite app_nil_r, notices_write_free, Hn.
        destruct (Nat.ltb_spec 20 (S (liveRegionLineCount s))); [lia|].
        split; [lia|done].
    + rewrite app_nil_r, notices_write_free, Hn.
      destruct (Nat.ltb_spec 20 (liveRegionLineCount s)); [lia|].
      split; [lia|done].
Qed.

Lemma onChars_settled (chars : list string) (s : state) :
  settled s -> settled (onChars isMac chars s).
Proof.
  unfold onChars. revert s. induction chars as [|c chars IH]; simpl; [done|].
  intros s H. apply IH, onChar_settled, H.
Qed.

Lemma linefeeds_count (n : nat) (s : state) :
  (liveRegionLineCount s + n <= MAX_ROWS_TO_READ + 1)%nat ->
  liveRegionLineCount (onChars isMac (replicate n LF) s) = (liveRegionLineCount s + n)%nat.
Proof.
  unfold onChars. revert s. induction n as [|n IH]; intros s H; simpl; [lia|].
  unfold MAX_ROWS_TO_READ in *.
  assert (Hs : (liveRegionLineCount s <= MAX_ROWS_TO_READ)%nat)
    by (unfold MAX_ROWS_TO_READ; lia).
  destruct (onChar_open LF s Hs) as (_ & Hc & _). simpl in Hc.
  rewrite IH; rewrite Hc; lia.
Qed.


(** C4: in any run of [_onChar] since the live region was last cleared,
    the line counter stays at most 21, it is above the ceiling of 20
    exactly when the notice has been appended, which then happened once,
    and above the ceiling no character event changes anything; 21 line
    feeds reach that state, and a clear brings the counter back to 0. *)
Theorem overflow_notice_once (s0 : state) (chars : list string) :
  liveRegionLineCount s0 = 0%nat ->
  notices (liveRegion s0) = 0%nat ->
  let s := onChars isMac chars s0 in
  let full := onChars isMac (replicate 21 LF) s0 in
  (liveRegionLineCount s <= MAX_ROWS_TO_READ + 1)%nat /\
  notices (liveRegion s) =
    (if (MAX_ROWS_TO_READ <? liveRegionLineCount s)%nat then 1 else 0)%nat /\
  ((MAX_ROWS_TO_READ < liveRegionLineCount s)%nat ->
   forall more, onChars isMac more s = s) /\
  liveRegionLineCount full = 21%nat /\
  notices (liveRegion full) = 1%nat /\
  (forall more, onChars isMac more full = full) /\
  liveRegionLineCount (_clearLiveRegion isMac full) = 0%nat /\
  liveRegion (_clearLiveRegion isMac full) = [].
Proof.
  intros Hc Hn s full.
  assert (H0 : settled s0) by (split; rewrite ?Hc, ?Hn; [unfold MAX_ROWS_TO_READ; lia | done]).
  destruct (onChars_settled chars s0 H0) as [Hle Hnot].
  assert (Hfull : liveRegionLineCount full = 21%nat).
  { unfold full. rewrite linefeeds_count; rewrite Hc; [done|]. unfold MAX_ROWS_TO_READ. lia. }
  destruct (onChars_settled (replicate 21 LF) s0 H0) as [_ Hnf].
  fold full in Hnf. rewrite Hfull in Hnf.
  repeat split; try done.
  - intros Hlt more. by apply onChars_latched.
  - intros more. apply onChars_latched. rewrite Hfull. unfold MAX_ROWS_TO_READ. lia.
Qed.

(** C5: with no keystroke pending beforehand, [_onKey c] followed by
    [_onChar c] leaves the live region as [_onKey] left it, and followed
    by [_onChar d] for another character [d] it appends [d]; an [_onChar]
    takes at most one keystroke from the front of the queue, and below
    the ceiling, with an empty queue, it appends its character. *)
Theorem echo_suppression (s : state) (c d : string) :
  charsToConsume s = [] ->
  d <> c ->
  let typed := _onKey isMac c s in
  liveRegion (_onChar isMac c typed) = liveRegion typed /\
  liveRegion (_onChar isMac d typed) = liveRegion typed ++ [write d] /\
  charsToConsume (_onChar isMac c typed) = [] /\
  (forall s' char,
     charsToConsume (_onChar isMac char s') =
       if (liveRegionLineCount s' <=? MAX_ROWS_TO_READ)%nat
       then tail (charsToConsume s') else charsToConsume s') /\
  (forall s' char,
     (liveRegionLineCount s' <= MAX_ROWS_TO_READ)%nat ->
     charsToConsume s' = [] ->
     exists notice,
       liveRegion (_onChar isMac char s') = liveRegion s' ++ [write char] ++ notice).
Proof.
  intros Hq Hd typed.
  assert (Hopen : (liveRegionLineCount typed <= MAX_ROWS_TO_READ)%nat)
    by (simpl; unfold MAX_ROWS_TO_READ; lia).
  assert (Hfront : charsToConsume typed = [c]) by (simpl; by rewrite Hq).
  split; [|split; [|split; [|split]]].
  - destruct (onChar_open c typed Hopen) as (-> & _ & _).
    rewrite Hfront, String.eqb_refl. simpl.
    destruct (String.eqb c LF); simpl; by rewrite ?app_nil_r.
  - destruct (onChar_open d typed Hopen) as (-> & _ & _).
    rewrite Hfront. apply String.eqb_neq in Hd. rewrite eqb_sym, Hd. simpl.
    destruct (String.eqb d LF); simpl; by rewrite ?app_nil_r.
  - destruct (onChar_open c typed Hopen) as (_ & _ & ->). by rewrite Hfront.
  - intros s' char.
    destruct (Nat.leb_spec (liveRegionLineCount s') MAX_ROWS_TO_READ) as [Hle|Hgt].
    + by destruct (onChar_open char s' Hle) as (_ & _ & ->).
    + by rewrite onChar_latched.
  - intros s' char Hle He.
    destruct (onChar_open char s' Hle) as (-> & _ & _). rewrite He.
    eexists. reflexivity.
Qed.

(** C9: below the ceiling, [_onChar] of a space with an empty queue, or
    with a front keystroke that is not a space, appends the no-break
    space and not a space: the write is [innerHTML += '&nbsp;'], the text
    read back is the text before, parsed again, followed by U+00A0, and
    it holds as many spaces as before. A character that is not a space
    never adds the no-break space: what [_onChar] adds for it is the
    character itself as text (and the notice), after the text that was
    there, which is left as it is. *)
Theorem space_is_nbsp (s : state) :
  (liveRegionLineCount s <= MAX_ROWS_TO_READ)%nat ->
  head (charsToConsume s) <> Some SPACE ->
  liveRegion (_onChar isMac SPACE s) = liveRegion s ++ [Nbsp] /\
  textContent (liveRegion (_onChar isMac SPACE s)) =
    reparsed (textContent (liveRegion s)) +:+ NBSP /\
  spaces (textContent (liveRegion (_onChar isMac SPACE s))) =
    spaces (textContent (liveRegion s)) /\
  NBSP <> SPACE /\
  (forall s' char, char <> SPACE ->
     exists added,
       liveRegion (_onChar isMac char s') = liveRegion s' ++ added /\
       Forall (fun p => p = Lit char \/ p = Notice) added /\
       textContent (liveRegion (_onChar isMac char s')) =
         textContent (liveRegion s') +:+ textContent added).
Proof.
  intros Hle Hfront.
  assert (Hl : liveRegion (_onChar isMac SPACE s) = liveRegion s ++ [Nbsp]).
  { destruct (onChar_open SPACE s Hle) as (-> & _ & _).
    change (String.eqb SPACE LF) with false. change (write SPACE) with Nbsp.
    cbn [andb]. rewrite app_nil_r.
    destruct (charsToConsume s) as [|k rest]; [done|].
    destruct (String.eqb_spec k SPACE) as [->|_]; [by simpl in Hfront | done]. }
  split; [exact Hl|]. rewrite Hl, textContent_snoc. split; [reflexivity|].
  split; [simpl; rewrite spaces_app, spaces_reparsed; simpl; lia|].
  split; [done|].
  intros s' char Hchar.
  assert (Hadded : exists added,
    liveRegion (_onChar isMac char s') = liveRegion s' ++ added /\
    Forall (fun p => p = Lit char \/ p = Notice) added).
  { destruct (Nat.leb_spec (liveRegionLineCount s') MAX_ROWS_TO_READ) as [Hle'|Hgt].
    - destruct (onChar_open char s' Hle') as (-> & _ & _).
      eexists. split; [reflexivity|].
      apply Forall_app. split.
      + destruct (match charsToConsume s' with [] => false | k :: _ => String.eqb k char end);
          [constructor|].
        constructor; [|constructor]. left. unfold write.
        by destruct (String.eqb_spec char SPACE).
      + destruct (_ && _); constructor; [by right | constructor].
    - rewrite onChar_latched by done. exists []. by rewrite app_nil_r. }
  destruct Hadded as (added & Hadd & Hall).
  exists added. split; [exact Hadd|]. split; [exact Hall|].
  rewrite Hadd. apply textContent_literal.
  eapply Forall_impl; [exact Hall|]. by intros p [->| ->].
Qed.

(** C10: below the ceiling, [_onChar] of a line feed that only echoes the
    front keystroke appends no character and still counts a line, so the
    notice comes with the 21st of them: after 21 line feeds typed and
    echoed back, the live region holds the notice and nothing else. *)
Theorem suppressed_linefeed_counts (s : state) (rest : list string) :
  (liveRegionLineCount s <= MAX_ROWS_TO_READ)%nat ->
  charsToConsume s = LF :: rest ->
  let s' := _onChar isMac LF s in
  let echoed := onChars isMac (replicate 21 LF) (Nat.iter 21 (_onKey isMac LF) init) in
  liveRegionLineCount s' = S (liveRegionLineCount s) /\
  charsToConsume s' = rest /\
  liveRegion s' = liveRegion s ++
    (if (liveRegionLineCount s =? MAX_ROWS_TO_READ)%nat then [Notice] else []) /\
  liveRegion echoed = [Notice] /\
  liveRegionLineCount echoed = 21%nat.
Proof.
  intros Hle Hq s' echoed.
  destruct (onChar_open LF s Hle) as (Hl & Hc & Ht).
  rewrite Hq in Hl, Ht. simpl in Hl, Hc, Ht.
  repeat split; try done.
  - destruct isMac; vm_compute; reflexivity.
  - destruct isMac; vm_compute; reflexivity.
Qed.

End Platform.

(** Twenty-one line feeds on a fresh live region. *)
Lemma overflow_notice_once_witness :
  let full := onChars false (replicate 21 LF) init in
  liveRegionLineCount full = 21%nat /\ notices (liveRegion full) = 1%nat.
Proof.
  destruct (overflow_notice_once false init [] eq_refl eq_refl)
    as (_ & _ & _ & H1 & H2 & _).
  split; [exact H1 | exact H2].
Defined.

Lemma echo_suppression_witness :
  liveRegion (_onChar false "a" (_onKey false "a" init)) = [] /\
  liveRegion (_onChar false "b" (_onKey false "a" init)) = [Lit "b"].
Proof.
  destruct (echo_suppression false init "a" "b" eq_refl) as (H1 & H2 & _).
  - discriminate.
  - split; [exact H1 | exact H2].
Defined.

(** A space after a carriage return, on a live region that was just
    cleared: the text read back holds a line feed and U+00A0. *)
Lemma space_is_nbsp_witness :
  let s := _onChar true (String "013" EmptyString) (_clearLiveRegion true init) in
  liveRegion (_onChar true SPACE s) = [Lit (String "013" EmptyString); Nbsp] /\
  textContent (liveRegion (_onChar true SPACE s)) = LF +:+ NBSP.
Proof.
  destruct (space_is_nbsp true
              (_onChar true (String "013" EmptyString) (_clearLiveRegion true init)))
    as (H1 & H2 & _).
  - vm_compute. lia.
  - discriminate.
  - split; [exact H1 | exact H2].
Defined.

Lemma suppressed_linefeed_counts_witness :
  let s := _onKey false LF init in
  liveRegionLineCount (_onChar false LF s) = 1%nat /\
  liveRegion (_onChar false LF s) = [].
Proof.
  destruct (suppressed_linefeed_counts false (_onKey false LF init) []) as (H1 & _ & H3 & _).
  - vm_compute. lia.
  - reflexivity.
  - split; [exact H1 | exact H3].
Defined.

End LiveFacts.

Module RowsFacts.
Import Dom Rows.
#[local] Arguments JS.index : simpl never.
#[local] Arguments JS.store : simpl never.
#[local] Arguments JS.pop : simpl never.

Lemma filter_other_fresh (c : node) (l : list node) :
  Forall (fun n => (n < c)%nat) l -> filter (fun m => m <> c) l = l.
Proof.
  induction 1 as [|x l Hx _ IH]; [done|].
  rewrite filter_cons_True by lia. by rewrite IH.
Qed.

Lemma filter_other_last (x : node) (l : list node) :
  NoDup (l ++ [x]) -> filter (fun m => m <> x) (l ++ [x]) = l.
Proof.
  intros H. apply NoDup_app in H as (_ & Hd & _).
  rewrite filter_app, filter_cons_False, filter_nil, app_nil_r by (intros E; by apply E).
  induction l as [|y l IH]; [done|].
  rewrite filter_cons_True.
  - rewrite IH; [done|]. intros z Hz. apply Hd. by right.
  - intros ->. apply (Hd x); [left | left].
Qed.

(** One more row at the end: lines 104-105 on mirrored rows. *)
Lemma addRow_mirrored (s : state) :
  mirrored s ->
  exists s', addRow (length (children s)) s = JS.Returned tt s' /\
    mirrored s' /\
    children s' = children s ++ [created s] /\
    created s' = S (created s) /\
    terminalRows s' = terminalRows s.
Proof.
  intros (Hrows & Hnd & Hlt).
  unfold addRow, JS.bind, _createAccessibilityTreeNode, JS.modify, JS.get; simpl.
  rewrite Hrows, JSFacts.store_push, JSFacts.index_mirror.
  rewrite lookup_app_r, Nat.sub_diag by lia. simpl.
  unfold JS.modify, setChildren; simpl.
  rewrite JSFacts.store_push, (filter_other_fresh _ _ Hlt).
  eexists; split; [reflexivity|]. simpl. repeat split; try done.
  - apply NoDup_app. repeat split; [done | | apply NoDup_singleton].
    intros x Hx ->%list_elem_of_singleton.
    rewrite Forall_forall in Hlt. specialize (Hlt _ Hx). lia.
  - apply Forall_app. split.
    + eapply Forall_impl; [exact Hlt|]. simpl. lia.
    + constructor; [simpl; lia | constructor].
Qed.

Lemma growRows_mirrored (fuel : nat) (s : state) :
  mirrored s ->
  (Z.to_nat (terminalRows s) - length (children s) <= fuel)%nat ->
  exists s', growRows fuel (length (children s)) s = JS.Returned tt s' /\
    mirrored s' /\
    children s' = children s ++
      seq (created s) (Z.to_nat (terminalRows s) - length (children s)) /\
    created s' =
      (created s + (Z.to_nat (terminalRows s) - length (children s)))%nat /\
    terminalRows s' = terminalRows s.
Proof.
  revert s. induction fuel as [|fuel IH]; intros s Hm Hfuel.
  - simpl. destruct (Z.ltb_spec (Z.of_nat (length (children s))) (terminalRows s)); [lia|].
    exists s. replace (Z.to_nat (terminalRows s) - length (children s))%nat with 0%nat by lia.
    simpl. rewrite app_nil_r, Nat.add_0_r. done.
  - simpl. destruct (Z.ltb_spec (Z.of_nat (length (children s))) (terminalRows s)).
    + destruct (addRow_mirrored s Hm) as (s1 & Hadd & Hm1 & Hc1 & Hn1 & Hr1).
      unfold JS.bind at 1. rewrite Hadd.
      assert (Hlen : S (length (children s)) = length (children s1))
        by (rewrite Hc1, length_app; simpl; lia).
      rewrite Hlen.
      destruct (IH s1 Hm1) as (s' & Hg & Hm' & Hc' & Hn' & Hr'); [lia|].
      exists s'. split; [exact Hg|]. split; [exact Hm'|].
      rewrite Hc', Hn', Hr', <- Hlen, Hc1, Hn1, Hr1.
      replace (Z.to_nat (terminalRows s) - length (children s))%nat
        with (S (Z.to_nat (terminalRows s) - S (length (children s))))%nat by lia.
      simpl. rewrite <- app_assoc. simpl. repeat split; lia.
    + exists s. replace (Z.to_nat (terminalRows s) - length (children s))%nat with 0%nat by lia.
      simpl. rewrite app_nil_r, Nat.add_0_r. done.
Qed.

Lemma shrinkRows_mirrored (fuel : nat) (rows : Z) (s : state) :
  mirrored s -> 0 <= rows ->
  (length (children s) - Z.to_nat rows <= fuel)%nat ->
  exists s', shrinkRows fuel rows s = JS.Returned tt s' /\
    mirrored s' /\
    children s' = take (Z.to_nat rows) (children s) /\
    created s' = created s /\
    terminalRows s' = terminalRows s.
Proof.
  revert s. induction fuel as [|fuel IH]; intros s Hm Hrows Hfuel;
    pose proof Hm as (Hmir & Hnd & Hlt); simpl; rewrite Hmir, length_fmap;
    destruct (Z.gtb_spec (Z.of_nat (length (children s))) rows) as [Hgt|Hle];
    try lia;
    try (exists s; rewrite take_ge by lia; done).
  assert (Hne : children s <> []) by (intros E; rewrite E in Hgt; simpl in Hgt; lia).
  destruct (exists_last Hne) as (cs & c0 & Hc). rewrite Hc in Hnd, Hlt, Hfuel, Hgt.
  unfold JS.bind, popRow.
  rewrite Hmir, Hc, !JSFacts.pop_mirror. unfold removeChild. simpl.
  rewrite Hc, bool_decide_eq_true_2 by (apply elem_of_app; right; apply list_elem_of_singleton; reflexivity).
  unfold setChildren, setRowElements; simpl. rewrite Hc.
  rewrite (filter_other_last _ _ Hnd).
  set (s1 := mkState _ _ _ _ _ _).
  assert (Hm1 : mirrored s1).
  { repeat split; simpl; [by apply NoDup_app in Hnd as (? & _) | by apply Forall_app in Hlt as (? & _)]. }
  rewrite length_app in Hfuel, Hgt. simpl in Hfuel, Hgt.
  destruct (IH s1 Hm1 Hrows) as (s' & Hs & Hm' & Hc' & Hn' & Hr'); [simpl; lia|].
  exists s'. split; [exact Hs|]. split; [exact Hm'|].
  rewrite Hc', Hn', Hr'. simpl.
  rewrite take_app_le by lia. done.
Qed.

Lemma sizeRows_mirrored (fuel i : nat) (s : state) :
  rowElements s = Some <$> children s ->
  (Z.to_nat (terminalRows s) <= length (children s))%nat ->
  (Z.to_nat (terminalRows s) - i <= fuel)%nat ->
  exists s', sizeRows fuel i s = JS.Returned tt s' /\
    children s' = children s /\
    rowElements s' = rowElements s /\
    created s' = created s /\
    terminalRows s' = terminalRows s.
Proof.
  revert i s. induction fuel as [|fuel IH]; intros i s Hmir Hlen Hfuel; simpl;
    destruct (Z.ltb_spec (Z.of_nat i) (terminalRows s)) as [Hlt|Hge];
    try lia; try (by exists s).
  rewrite Hmir, JSFacts.index_mirror.
  destruct (lookup_lt_is_Some_2 (children s) i) as [n Hn]; [lia|].
  rewrite Hn, <- Hmir.
  set (s1 := setNodes _ s).
  destruct (IH (S i) s1) as (s' & Hs & ? & ? & ? & ?); try done; [simpl; lia|].
  by exists s'.
Qed.

Lemma onResize_mirrored (cols r : Z) (s : state) :
  mirrored s -> 0 <= r -> terminalRows s = r ->
  exists s', _onResize cols r s = JS.Returned tt s' /\
    mirrored s' /\
    children s' = take (Z.to_nat r) (children s) ++
      seq (created s) (Z.to_nat r - length (children s)) /\
    created s' = (created s + (Z.to_nat r - length (children s)))%nat /\
    terminalRows s' = r.
Proof.
  intros Hm Hr Hrows. unfold _onResize, JS.bind at 1, JS.get.
  destruct (growRows_mirrored (Z.to_nat (terminalRows s)) s Hm) as
    (s1 & Hg & Hm1 & Hc1 & Hn1 & Hr1); [lia|].
  unfold JS.bind at 1. rewrite Hg. unfold JS.bind at 1.
  destruct (shrinkRows_mirrored (S (length (rowElements s1))) r s1 Hm1 Hr) as
    (s2 & Hs & Hm2 & Hc2 & Hn2 & Hr2).
  { destruct Hm1 as (-> & _). rewrite length_fmap. lia. }
  unfold JS.bind at 1. rewrite Hs.
  destruct Hm2 as (Hmir2 & Hnd2 & Hlt2).
  assert (Hlen2 : length (children s2) = Z.to_nat r).
  { rewrite Hc2, Hc1, length_take, length_app, length_seq. lia. }
  destruct (sizeRows_mirrored (Z.to_nat (terminalRows s2)) 0 s2 Hmir2) as
    (s3 & Hd & Hc3 & He3 & Hn3 & Hr3); [lia | lia |].
  unfold _refreshRowsDimensions. rewrite Hd.
  exists s3. split; [done|]. split.
  { repeat split; rewrite ?Hc3, ?He3, ?Hn3; done. }
  rewrite Hc3, Hn3, Hr3, Hc2, Hn2, Hr2, Hc1, Hn1, Hr1, Hrows.
  repeat split; try done.
  destruct (decide (length (children s) <= Z.to_nat r)%nat).
  - rewrite take_ge by (rewrite length_app, length_seq; lia).
    by rewrite (take_ge (children s)) by lia.
  - replace (Z.to_nat r - length (children s))%nat with 0%nat by lia.
    simpl. rewrite !app_nil_r. done.
Qed.

(** [addRow] throws nothing but a [TypeError] and leaves the terminal's
    row count alone. *)
Lemma addRow_outcome (i : nat) (s : state) :
  match addRow i s with
  | JS.Returned _ s' => terminalRows s' = terminalRows s
  | JS.Threw e _ => e = JS.TypeError
  end.
Proof.
  unfold addRow, JS.bind, _createAccessibilityTreeNode, JS.modify, JS.get, appendChild.
  cbn [rowElements setRowElements].
  destruct (JS.index _ _); reflexivity.
Qed.

(** The loops of [_onResize] and of [_refreshRowsDimensions] never stop
    for want of fuel. *)
Lemma growRows_fuel (fuel i : nat) (s : state) :
  (Z.to_nat (terminalRows s) - i <= fuel)%nat ->
  forall s', growRows fuel i s <> JS.Threw JS.OutOfFuel s'.
Proof.
  revert i s. induction fuel as [|fuel IH]; intros i s Hfuel s'; simpl;
    destruct (Z.ltb_spec (Z.of_nat i) (terminalRows s)); try lia; try done.
  unfold JS.bind. pose proof (addRow_outcome i s) as Hadd.
  destruct (addRow i s) as [[] s1|e s1].
  - apply IH. rewrite Hadd. lia.
  - rewrite Hadd. done.
Qed.

Lemma shrinkRows_fuel (fuel : nat) (rows : Z) (s : state) :
  (length (rowElements s) < fuel)%nat ->
  forall s', shrinkRows fuel rows s <> JS.Threw JS.OutOfFuel s'.
Proof.
  revert s. induction fuel as [|fuel IH]; intros s Hfuel s'; [lia|]. simpl.
  destruct (Z.of_nat (length (rowElements s)) >? rows); [|done].
  unfold JS.bind, popRow, JS.pop. cbn [fst snd].
  destruct (rowElements s) as [|x0 l] eqn:Hrows using rev_ind; [done|].
  clear IHl. rewrite last_snoc, removelast_last.
  destruct x0 as [n|]; [|done]. cbn [mjoin option_join removeChild].
  destruct (bool_decide _); [|done].
  apply IH. cbn [rowElements setChildren setRowElements].
  rewrite length_app in Hfuel. simpl in Hfuel. lia.
Qed.

Lemma sizeRows_fuel (fuel i : nat) (s : state) :
  (Z.to_nat (terminalRows s) - i <= fuel)%nat ->
  forall s', sizeRows fuel i s <> JS.Threw JS.OutOfFuel s'.
Proof.
  revert i s. induction fuel as [|fuel IH]; intros i s Hfuel s'; simpl;
    destruct (Z.ltb_spec (Z.of_nat i) (terminalRows s)); try lia; try done.
  destruct (JS.index _ _); [|done].
  apply IH. simpl. lia.
Qed.

(** On any state whatever [_onResize] returns or throws as the source
    does: the bounds given to its loops are never what stops it. *)
Lemma onResize_fuel (cols rows : Z) (s s' : state) :
  _onResize cols rows s <> JS.Threw JS.OutOfFuel s'.
Proof.
  unfold _onResize, JS.bind, JS.get.
  destruct (growRows _ _ s) as [[] s1|e s1] eqn:Hg.
  - destruct (shrinkRows _ _ s1) as [[] s2|e s2] eqn:Hs.
    + apply sizeRows_fuel. lia.
    + intros [= -> ->]. by eapply shrinkRows_fuel in Hs; [|lia].
  - intros [= -> ->]. by eapply growRows_fuel in Hg; [|lia].
Qed.

(** The constructor leaves mirrored rows, one for each terminal row. *)
Lemma construct_mirrored (rows : Z) (cellHeight : number) :
  0 <= rows ->
  exists s, construct rows cellHeight = JS.Returned tt s /\
    mirrored s /\
    children s = seq 0 (Z.to_nat rows) /\
    terminalRows s = rows.
Proof.
  intros Hrows. unfold construct.
  set (s0 := mkState _ _ _ _ _ _).
  assert (Hm0 : mirrored s0) by (repeat split; constructor).
  destruct (growRows_mirrored (Z.to_nat rows) s0 Hm0) as (s1 & Hg & Hm1 & Hc1 & Hn1 & Hr1);
    [simpl; lia|].
  simpl in Hg, Hc1, Hn1, Hr1. rewrite Nat.sub_0_r in Hc1.
  unfold JS.bind. rewrite Hg.
  destruct Hm1 as (Hmir1 & Hnd1 & Hlt1).
  destruct (sizeRows_mirrored (Z.to_nat (terminalRows s1)) 0 s1 Hmir1)
    as (s2 & Hd & Hc2 & He2 & Hn2 & Hr2);
    [rewrite Hc1, length_seq; lia | lia |].
  unfold _refreshRowsDimensions. rewrite Hd.
  exists s2. split; [done|]. split.
  { repeat split; rewrite ?Hc2, ?He2, ?Hn2; done. }
  by rewrite Hc2, Hr2, Hc1, Hr1.
Qed.

(** C6: when the rows mirror the container and the terminal has [r]
    rows, [_onResize] returns with exactly [r] rows: the first rows are
    the old ones in their old order, cut after [r], and every row past
    the old ones is an element created by this call, added at the end. *)
Theorem resize_length (cols r : Z) (s : state) :
  mirrored s -> 0 <= r -> terminalRows s = r ->
  exists s',
    _onResize cols r s = JS.Returned tt s' /\
    mirrored s' /\
    Z.of_nat (length (rowElements s')) = r /\
    rowElements s' =
      take (Z.to_nat r) (rowElements s) ++
      (Some <$> seq (created s) (Z.to_nat r - length (rowElements s))) /\
    terminalRows s' = r.
Proof.
  intros Hm Hr Hrows.
  destruct (onResize_mirrored cols r s Hm Hr Hrows) as (s' & Hres & Hm' & Hc & Hn & Ht).
  exists s'. split; [exact Hres|]. split; [exact Hm'|].
  destruct Hm as (Hmir & _). destruct Hm' as (Hmir' & _).
  rewrite Hmir', Hmir, Hc, !length_fmap, fmap_app, fmap_take.
  repeat split; try done.
  rewrite length_app, length_take, length_seq. lia.
Qed.

(** C7 as amended: after a shrink from [n] rows to [m] and a resize back
    to [n], the rows below [m] hold the elements they held before, and each
    row from [m] on holds an element created by the second resize, which
    is none of the elements of before. *)
Theorem shrink_regrow_keeps_prefix (cols n m : Z) (s : state) :
  mirrored s -> terminalRows s = n ->
  Z.of_nat (length (rowElements s)) = n -> 0 <= m <= n ->
  exists s1 s2,
    resize cols m s = JS.Returned tt s1 /\
    resize cols n s1 = JS.Returned tt s2 /\
    Z.of_nat (length (rowElements s2)) = n /\
    rowElements s2 =
      take (Z.to_nat m) (rowElements s) ++
      (Some <$> seq (created s) (Z.to_nat n - Z.to_nat m)) /\
    (forall i, 0 <= i < m ->
       JS.index (rowElements s2) (Some i) = JS.index (rowElements s) (Some i)) /\
    (forall i, m <= i < n ->
       exists e, JS.index (rowElements s2) (Some i) = Some e /\
         (created s <= e)%nat /\ Some e ∉ rowElements s).
Proof.
  intros Hm Hrows Hlen Hmn.
  assert (Hm0 : mirrored (setTerminalRows m s)) by exact Hm.
  destruct (onResize_mirrored cols m _ Hm0) as (s1 & Hr1 & Hm1 & Hc1 & Hn1 & Ht1);
    [lia | done |].
  simpl in Hc1, Hn1.
  assert (Hm1' : mirrored (setTerminalRows n s1)) by exact Hm1.
  destruct (onResize_mirrored cols n _ Hm1') as (s2 & Hr2 & Hm2 & Hc2 & Hn2 & Ht2);
    [lia | done |].
  simpl in Hc2, Hn2.
  pose proof Hm as (Hmir & Hnd & Hlt). destruct Hm2 as (Hmir2 & _).
  rewrite Hmir, length_fmap in Hlen.
  assert (Hkept : children s1 = take (Z.to_nat m) (children s)).
  { rewrite Hc1. replace (Z.to_nat m - length (children s))%nat with 0%nat by lia.
    simpl. by rewrite app_nil_r. }
  assert (Hsame : created s1 = created s) by lia.
  assert (Hlen1 : length (children s1) = Z.to_nat m)
    by (rewrite Hkept, length_take; lia).
  assert (Hrows2 : rowElements s2 =
    take (Z.to_nat m) (rowElements s) ++
    (Some <$> seq (created s) (Z.to_nat n - Z.to_nat m))).
  { rewrite Hmir2, Hc2, Hmir, Hsame, Hlen1, <- fmap_take, <- fmap_app.
    do 2 f_equal. rewrite Hkept. apply take_ge. rewrite length_take. lia. }
  exists s1, s2. split; [exact Hr1|]. split; [exact Hr2|].
  split; [|split; [exact Hrows2|split]].
  - rewrite Hrows2, Hmir, length_app, length_take, !length_fmap, length_seq. lia.
  - intros i Hi. rewrite Hrows2. unfold JS.index.
    destruct (Z.ltb_spec i 0); [done|].
    rewrite lookup_app_l by (rewrite length_take, Hmir, length_fmap; lia).
    rewrite lookup_take_lt by lia. done.
  - intros i Hi. exists (created s + (Z.to_nat i - Z.to_nat m))%nat.
    split; [|split; [lia|]].
    + rewrite Hrows2. unfold JS.index.
      destruct (Z.ltb_spec i 0); [lia|].
      rewrite lookup_app_r by (rewrite length_take, Hmir, length_fmap; lia).
      rewrite length_take, Hmir, length_fmap, list_lookup_fmap.
      replace (Z.to_nat i - Z.to_nat m `min` length (children s))%nat
        with (Z.to_nat i - Z.to_nat m)%nat by lia.
      rewrite lookup_seq_lt by lia. done.
    + rewrite Hmir. intros (e & He & Hin)%list_elem_of_fmap. injection He as <-.
      rewrite Forall_forall in Hlt. specialize (Hlt _ Hin). simpl in Hlt. lia.
Qed.

(** Two rows, constructed with the second element created second. *)
Lemma resize_length_witness :
  exists s', _onResize 80 3 (setTerminalRows 3 (JS.final (construct 2 (whole 17)))) =
             JS.Returned tt s' /\
    rowElements s' = [Some 0%nat; Some 1%nat; Some 2%nat].
Proof.
  destruct (resize_length 80 3 (setTerminalRows 3 (JS.final (construct 2 (whole 17)))))
    as (s' & Hres & _ & _ & Hrows & _).
  - mirrored_by_computation.
  - lia.
  - reflexivity.
  - exists s'. split; [exact Hres | exact Hrows].
Defined.

Lemma shrink_regrow_keeps_prefix_witness :
  exists s1 s2,
    resize 80 1 (JS.final (construct 2 (whole 17))) = JS.Returned tt s1 /\
    resize 80 2 s1 = JS.Returned tt s2 /\
    rowElements s2 = [Some 0%nat; Some 2%nat].
Proof.
  destruct (shrink_regrow_keeps_prefix 80 2 1 (JS.final (construct 2 (whole 17))))
    as (s1 & s2 & H1 & H2 & _ & Hrows & _).
  - mirrored_by_computation.
  - reflexivity.
  - reflexivity.
  - lia.
  - exists s1, s2. split; [exact H1|]. split; [exact H2 | exact Hrows].
Defined.

(** C7 as stated fails: two rows shrunk to one and grown back to two;
    the second row is then another element than before. *)
Lemma shrink_regrow_new_element :
  let s0 := JS.final (construct 2 (whole 17)) in
  let s2 := JS.final (resize 80 2 (JS.final (resize 80 1 s0))) in
  Z.of_nat (length (rowElements s0)) = 2 /\
  Z.of_nat (length (rowElements s2)) = 2 /\
  ~ (forall i, 0 <= i < 2 ->
       JS.index (rowElements s2) (Some i) = JS.index (rowElements s0) (Some i)).
Proof.
  split; [reflexivity|]. split; [reflexivity|].
  intros H. specialize (H 1 ltac:(lia)). vm_compute in H. discriminate.
Qed.

End RowsFacts.

Module NavFacts.
Import Dom Nav.

Lemma unselect_rowElements (s : state) :
  Rows.rowElements (rows (unselect s)) = Rows.rowElements (rows s) /\
  Rows.terminalRows (rows (unselect s)) = Rows.terminalRows (rows s) /\
  scrollRequests (unselect s) = scrollRequests s /\
  ydisp (unselect s) = ydisp s.
Proof. unfold unselect. by destruct (querySelected s) as [[]|]. Qed.

(** What [_navigateToElement] does with a row that is no row of the
    array and that does not lead to a scroll: it records the row, then
    fails on [selectedElement.id]. *)
Lemma navigate_outside (row : Z) (s : state) :
  JS.index (Rows.rowElements (rows s)) (Some row) = None ->
  (row < 0 -> ydisp s <= 0) ->
  _navigateToElement (Some row) s =
    JS.Threw JS.TypeError (setFocusedRow (Some row) (unselect s)).
Proof.
  intros Hout Hscroll. unfold _navigateToElement.
  assert (Hgo : negative (Some row) && (ydisp s >? 0) = false).
  { unfold negative. destruct (Z.ltb_spec row 0); [|done].
    destruct (Z.gtb_spec (ydisp s) 0); [lia | done]. }
  rewrite Hgo. cbn [rows setFocusedRow].
  destruct (unselect_rowElements s) as (-> & _). by rewrite Hout.
Qed.

(** What [_navigateToElement] does with a row of the array when no
    scroll is due: it moves the identifier to that row's element. *)
Lemma navigate_inside (row : Z) (element : node) (s : state) :
  JS.index (Rows.rowElements (rows s)) (Some row) = Some element ->
  0 <= row ->
  _navigateToElement (Some row) s =
    JS.Returned tt
      (setRows (Rows.setNodes (alter (setId (Some (activeItemId s))) element))
         (setFocusedRow (Some row) (unselect s))).
Proof.
  intros Hin Hrow. unfold _navigateToElement.
  assert (Hgo : negative (Some row) && (ydisp s >? 0) = false).
  { unfold negative. by destruct (Z.ltb_spec row 0); [lia|]. }
  rewrite Hgo. cbn [rows setFocusedRow].
  destruct (unselect_rowElements s) as (-> & _). rewrite Hin.
  do 3 f_equal. unfold unselect. by destruct (querySelected s) as [[]|].
Qed.

Lemma focusContainer_fields (s : state) :
  navigationModeFocusedRow (focusContainer s) = navigationModeFocusedRow s /\
  rows (focusContainer s) = rows s.
Proof. unfold focusContainer. by destruct (_ && _). Qed.

Section Platform.

Variable isMac : bool.

(** Away from the two ends the arrows move the focus by one row and the
    event is handled; at the top, with lines scrolled out above, arrow-up
    asks the terminal to scroll back one line and the focus stays. *)
Lemma arrow_keys_inside (s : state) (row : Z) :
  isNavigationModeActive s = true ->
  navigationModeFocusedRow s = Some row ->
  Rows.rowElements (rows s) = Some <$> Rows.children (rows s) ->
  Z.of_nat (length (Rows.children (rows s))) = Rows.terminalRows (rows s) ->
  0 <= row < Rows.terminalRows (rows s) ->
  (row + 1 < Rows.terminalRows (rows s) ->
   exists s', keyup isMac 40 s = JS.Returned true s' /\
     navigationModeFocusedRow s' = Some (row + 1) /\
     Rows.rowElements (rows s') = Rows.rowElements (rows s)) /\
  (0 < row ->
   exists s', keyup isMac 38 s = JS.Returned true s' /\
     navigationModeFocusedRow s' = Some (row - 1) /\
     Rows.rowElements (rows s') = Rows.rowElements (rows s)) /\
  (row = 0 -> 0 < ydisp s ->
   keyup isMac 38 s =
     JS.Returned true (focusContainer (scrollLines (-1) s))).
Proof.
  intros Hactive Hrow Hmir Hlen Hin.
  assert (Hat : forall r, 0 <= r < Rows.terminalRows (rows s) ->
    exists element, JS.index (Rows.rowElements (rows s)) (Some r) = Some element).
  { intros r Hr. rewrite Hmir, <- (Z2Nat.id r), JSFacts.index_mirror by lia.
    apply lookup_lt_is_Some_2. lia. }
  split; [|split].
  - intros Hnext. destruct (Hat (row + 1)) as [element He]; [lia|].
    unfold keyup. rewrite Hactive.
    unfold onKeyUp, _onKey, _onArrowDown, JS.bind at 1 2, JS.get. cbn [Z.eqb Pos.eqb].
    unfold JS.bind at 1. rewrite Hrow. cbn [plus fmap option_fmap option_map].
    rewrite (navigate_inside _ element) by (done || lia).
    eexists. split; [reflexivity|].
    destruct (focusContainer_fields
      (setRows (Rows.setNodes (alter (setId (Some (activeItemId s))) element))
         (setFocusedRow (Some (row + 1)) (unselect s)))) as (-> & ->).
    split; [reflexivity|]. cbn. apply unselect_rowElements.
  - intros Hprev. destruct (Hat (row - 1)) as [element He]; [lia|].
    unfold keyup. rewrite Hactive.
    unfold onKeyUp, _onKey, _onArrowUp, JS.bind at 1 2, JS.get. cbn [Z.eqb Pos.eqb].
    unfold JS.bind at 1. rewrite Hrow. cbn [plus fmap option_fmap option_map].
    replace (row + -1) with (row - 1) by lia.
    rewrite (navigate_inside _ element) by (done || lia).
    eexists. split; [reflexivity|].
    destruct (focusContainer_fields
      (setRows (Rows.setNodes (alter (setId (Some (activeItemId s))) element))
         (setFocusedRow (Some (row - 1)) (unselect s)))) as (-> & ->).
    split; [reflexivity|]. cbn. apply unselect_rowElements.
  - intros -> Hy.
    unfold keyup. rewrite Hactive.
    unfold onKeyUp, _onKey, _onArrowUp, JS.bind at 1 2, JS.get. cbn [Z.eqb Pos.eqb].
    unfold JS.bind at 1. rewrite Hrow. cbn [plus fmap option_fmap option_map Z.add].
    unfold _navigateToElement. cbn [negative Z.ltb Z.compare andb].
    destruct (Z.gtb_spec (ydisp s) 0); [|lia]. reflexivity.
Qed.

(** C1: what the code does at the top. In navigation mode, with row 0
    focused and the viewport at the top of the buffer, the [keyup] of
    arrow-up throws a [TypeError] instead of returning [true]; it has
    asked for no scroll, and it leaves -1 as the focused row. *)
Theorem arrow_up_at_top_throws (s : state) :
  isNavigationModeActive s = true ->
  navigationModeFocusedRow s = Some 0 ->
  ydisp s = 0 ->
  exists s',
    keyup isMac 38 s = JS.Threw JS.TypeError s' /\
    navigationModeFocusedRow s' = Some (-1) /\
    scrollRequests s' = scrollRequests s.
Proof.
  intros Hactive Hrow Hy.
  unfold keyup. rewrite Hactive.
  unfold onKeyUp, _onKey, _onArrowUp, JS.bind at 1 2, JS.get. cbn [Z.eqb Pos.eqb].
  unfold JS.bind at 1. rewrite Hrow. cbn [plus fmap option_fmap option_map Z.add].
  rewrite navigate_outside; [| by apply JSFacts.index_negative | lia].
  eexists. split; [reflexivity|]. split; [reflexivity|].
  apply unselect_rowElements.
Qed.

(** C3: what the code does at the bottom. In navigation mode, with the
    last of the terminal's rows focused, the [keyup] of arrow-down throws
    a [TypeError]; it leaves the number of rows as the focused row, which
    is outside the range of the rows. *)
Theorem arrow_down_at_bottom_leaves_range (s : state) :
  isNavigationModeActive s = true ->
  Z.of_nat (length (Rows.rowElements (rows s))) = Rows.terminalRows (rows s) ->
  navigationModeFocusedRow s = Some (Rows.terminalRows (rows s) - 1) ->
  exists s',
    keyup isMac 40 s = JS.Threw JS.TypeError s' /\
    navigationModeFocusedRow s' = Some (Rows.terminalRows (rows s')) /\
    ~ focusedInRange s'.
Proof.
  intros Hactive Hlen Hrow.
  unfold keyup. rewrite Hactive.
  unfold onKeyUp, _onKey, _onArrowDown, JS.bind at 1 2, JS.get. cbn [Z.eqb Pos.eqb].
  unfold JS.bind at 1. rewrite Hrow. cbn [plus fmap option_fmap option_map].
  replace (Rows.terminalRows (rows s) - 1 + 1) with (Rows.terminalRows (rows s)) by lia.
  rewrite navigate_outside; [| apply JSFacts.index_past_end; lia | lia].
  destruct (unselect_rowElements s) as (_ & Hrows & _).
  eexists. split; [reflexivity|].
  unfold focusedInRange. cbn [navigationModeFocusedRow setFocusedRow rows].
  rewrite Hrows. split; [reflexivity | lia].
Qed.

End Platform.

(** The run behind C3, event by event: two arrows down on two rows. *)
Example two_arrows_down :
  navigationModeFocusedRow (keyups false [40; 40] twoRows) = Some 2 /\
  Rows.terminalRows (rows (keyups false [40; 40] twoRows)) = 2 /\
  JS.returns (keyup false 40 (keyups false [40] twoRows)) = false.
Proof. repeat split. Qed.

(** The run behind C1: one arrow up on the first row, nothing scrolled. *)
Example one_arrow_up :
  navigationModeFocusedRow twoRows = Some 0 /\
  navigationModeFocusedRow (keyups false [38] twoRows) = Some (-1) /\
  JS.returns (keyup false 38 twoRows) = false.
Proof. repeat split. Qed.

Lemma arrow_up_at_top_throws_witness :
  exists s', keyup false 38 twoRows = JS.Threw JS.TypeError s' /\
    navigationModeFocusedRow s' = Some (-1).
Proof.
  destruct (arrow_up_at_top_throws false twoRows) as (s' & H1 & H2 & _);
    [reflexivity | reflexivity | reflexivity |].
  exists s'. split; [exact H1 | exact H2].
Defined.

Lemma arrow_down_at_bottom_leaves_range_witness :
  exists s', keyup false 40 (JS.final (keyup false 40 twoRows)) = JS.Threw JS.TypeError s' /\
    ~ focusedInRange s'.
Proof.
  destruct (arrow_down_at_bottom_leaves_range false (JS.final (keyup false 40 twoRows)))
    as (s' & H1 & _ & H3); [reflexivity | reflexivity | reflexivity |].
  exists s'. split; [exact H1 | exact H3].
Defined.

End NavFacts.

Module LifecycleFacts.
Import Dom Lifecycle.

(** C2 as amended: the first [dispose] returns, having detached the root
    from the terminal's element, disposed of every subscription once and
    set its fields to [null]; a second [dispose] calls [removeChild] of
    the terminal's element with [null] and then throws a [TypeError],
    whether or not that call is rejected; it disposes of no subscription
    again and writes no field. *)
Theorem dispose_twice (checked : bool) (others : list node)
    (root container live : node) (rows : list (option node)) :
  let s0 := constructed others root container live rows in
  exists s1 s2,
    dispose checked s0 = JS.Returned tt s1 /\
    calls s1 = firstCalls root /\
    s1 = mkState (filter (fun m => m <> root) (others ++ [root]))
                 None None None None None None (firstCalls root) /\
    dispose checked s1 = JS.Threw JS.TypeError s2 /\
    calls s2 = calls s1 ++ [RemoveChild None] /\
    filter isDispose (calls s2) = filter isDispose (calls s1) /\
    s2 = record (RemoveChild None) s1.
Proof.
  intros s0.
  assert (Hin : bool_decide (root ∈ others ++ [root]) = true).
  { apply bool_decide_eq_true_2, elem_of_app. right. by apply list_elem_of_singleton. }
  eexists _, _.
  split.
  { unfold dispose, JS.bind at 1, JS.get. unfold JS.bind at 1.
    unfold elementRemoveChild. cbn [s0 constructed accessibilityTreeRoot elementChildren record].
    rewrite Hin. reflexivity. }
  split; [reflexivity|]. split; [reflexivity|].
  split.
  { unfold dispose, JS.bind at 1, JS.get. unfold JS.bind at 1.
    destruct checked; reflexivity. }
  split; [reflexivity|]. split; [reflexivity|]. reflexivity.
Qed.

(** C2 as stated fails: on a manager disposed once, whose tree held one
    row, a second [dispose] throws and has called the terminal's element,
    in a browser and with a stand-in that accepts any argument alike. *)
Lemma second_dispose_throws :
  let s1 := JS.final (dispose true (constructed [] 0%nat 1%nat 2%nat [Some 3%nat])) in
  let s1' := JS.final (dispose false (constructed [] 0%nat 1%nat 2%nat [Some 3%nat])) in
  ~ (JS.returns (dispose true s1) = true /\
     calls (JS.final (dispose true s1)) = calls s1) /\
  JS.returns (dispose true s1) = false /\
  calls (JS.final (dispose true s1)) <> calls s1 /\
  JS.returns (dispose false s1') = false /\
  calls (JS.final (dispose false s1')) <> calls s1'.
Proof.
  repeat split; try reflexivity.
  - intros [H _]. vm_compute in H. discriminate.
  - intros H. vm_compute in H. discriminate.
  - intros H. vm_compute in H. discriminate.
Qed.

End LifecycleFacts.

Module DebounceFacts.
Import Debounce.

(** While the flush is pending and not yet due, a request widens the
    range and changes nothing else. *)
Lemma refresh_pending (t d lo hi start end_ : Z) (s : state) :
  deadline s = Some d -> range s = Some (lo, hi) -> t < d ->
  refresh t (Some start) (Some end_) s =
    mkState (rows s) (Some (Z.min lo start, Z.max hi end_)) (Some d)
            (scheduled s) (flushes s).
Proof.
  intros Hd Hr Ht. unfold refresh, elapse. rewrite Hd.
  destruct (Z.leb_spec d t); [lia|]. by rewrite Hd, Hr.
Qed.

Lemma refreshAll_cons (t start end_ : Z) (requests : list (Z * Z * Z)) (s : state) :
  refreshAll ((t, start, end_) :: requests) s =
    refreshAll requests (refresh t (Some start) (Some end_) s).
Proof. reflexivity. Qed.

Lemma refreshAll_pending (requests : list (Z * Z * Z)) (d lo hi : Z) (s : state) :
  deadline s = Some d -> range s = Some (lo, hi) ->
  Forall (fun q => q.1.1 < d) requests ->
  refreshAll requests s =
    mkState (rows s) (Some (lowest requests lo, highest requests hi)) (Some d)
            (scheduled s) (flushes s).
Proof.
  revert lo hi s. induction requests as [|[[t a] b] requests IH]; intros lo hi s Hd Hr Hall.
  - destruct s; simpl in *. by rewrite Hd, Hr.
  - apply Forall_cons in Hall as [Ht Hall]. simpl in Ht.
    rewrite refreshAll_cons, (refresh_pending t d lo hi a b s Hd Hr Ht).
    rewrite (IH (Z.min lo a) (Z.max hi b)); done.
Qed.

(** C8: on a debouncer with nothing pending, a request at [t0] followed
    by any requests before [t0 + 10] schedules one flush; when the delay
    has passed, that one flush has written the range from the lowest
    start to the highest end, and nothing is pending. The requests
    (0,2), (1,4), (5,5) give the range (0,5). *)
Theorem refreshes_coalesce (s0 : state) (t0 start end_ : Z)
    (more : list (Z * Z * Z)) (t : Z) :
  deadline s0 = None -> range s0 = None ->
  Forall (fun q => t0 <= q.1.1 < t0 + DELAY) more ->
  t0 + DELAY <= t ->
  let pending := refreshAll ((t0, start, end_) :: more) s0 in
  let s := elapse t pending in
  scheduled pending = S (scheduled s0) /\
  flushes pending = flushes s0 /\
  flushes s = flushes s0 ++ [(lowest more start, highest more end_)] /\
  scheduled s = S (scheduled s0) /\
  deadline s = None /\ range s = None /\
  (lowest [(1, 1, 4); (2, 5, 5)] 0, highest [(1, 1, 4); (2, 5, 5)] 2) = (0, 5).
Proof.
  intros Hd Hr Hall Ht pending s.
  assert (Hfirst : refresh t0 (Some start) (Some end_) s0 =
    mkState (rows s0) (Some (start, end_)) (Some (t0 + DELAY))
            (S (scheduled s0)) (flushes s0)).
  { unfold refresh, elapse. rewrite Hd. cbn zeta. rewrite Hd, Hr. reflexivity. }
  assert (Hp : pending =
    mkState (rows s0) (Some (lowest more start, highest more end_))
            (Some (t0 + DELAY)) (S (scheduled s0)) (flushes s0)).
  { unfold pending. rewrite refreshAll_cons, Hfirst.
    rewrite (refreshAll_pending more (t0 + DELAY) start end_); [done | done | done |].
    eapply Forall_impl; [exact Hall|]. simpl. lia. }
  unfold s. rewrite Hp. unfold elapse. cbn [deadline].
  destruct (Z.leb_spec (t0 + DELAY) t); [|lia].
  repeat split.
Qed.

Lemma refreshes_coalesce_witness :
  flushes (elapse 10 (refreshAll [(0, 0, 2); (1, 1, 4); (2, 5, 5)] (idle 24))) = [(0, 5)] /\
  scheduled (elapse 10 (refreshAll [(0, 0, 2); (1, 1, 4); (2, 5, 5)] (idle 24))) = 1%nat.
Proof.
  destruct (refreshes_coalesce (idle 24) 0 0 2 [(1, 1, 4); (2, 5, 5)] 10)
    as (_ & _ & H1 & H2 & _).
  - reflexivity.
  - reflexivity.
  - repeat constructor; simpl; unfold DELAY; lia.
  - unfold DELAY. lia.
  - split; [exact H1 | exact H2].
Defined.

End DebounceFacts.

Module LiveEventFacts.
Import Live LiveEvents.

Lemma append_nonempty (a b : string) : a <> "" -> a +:+ b <> "".
Proof. destruct a; [done|]. intros _. discriminate. Qed.

Lemma append_nonempty_r (a b : string) : b <> "" -> a +:+ b <> "".
Proof.
  destruct a; [done|]. intros _.
  change (String a (a0 +:+ b) <> ""). discriminate.
Qed.

(** A live region that holds text still holds text after more writes. *)
Lemma textContent_nonempty (ps added : list piece) :
  textContent ps <> "" -> textContent (ps ++ added) <> "".
Proof.
  induction added as [|p added IH] using rev_ind; intros H.
  - by rewrite app_nil_r.
  - rewrite app_assoc, LiveFacts.textContent_snoc.
    destruct p; simpl.
    + by apply append_nonempty_r.
    + by apply append_nonempty, IH.
    + by apply append_nonempty, IH.
Qed.

Lemma linefeeds_cons (char : string) (chars : list string) :
  linefeeds (char :: chars) =
    ((if String.eqb char LF then 1 else 0) + linefeeds chars)%nat.
Proof.
  unfold linefeeds. destruct (String.eqb_spec char LF) as [->|Hne].
  - by rewrite filter_cons_True.
  - by rewrite filter_cons_False.
Qed.

Section Platform.

Variable isMac : bool.

Lemma onKeys_snoc (keys : list string) (keyChar : string) (s : state) :
  onKeys isMac (keys ++ [keyChar]) s = _onKey isMac keyChar (onKeys isMac keys s).
Proof. unfold onKeys. by rewrite foldl_snoc. Qed.

Lemma onKeys_queue (keys : list string) (s : state) :
  charsToConsume (onKeys isMac keys s) = charsToConsume s ++ keys.
Proof.
  induction keys as [|k keys IH] using rev_ind.
  - by rewrite app_nil_r.
  - rewrite onKeys_snoc. simpl. by rewrite IH, app_assoc.
Qed.

(** Characters that each echo the front keystroke: nothing is written,
    the line feeds among them are counted. *)
Lemma echo_run (keys rest : list string) (s : state) :
  charsToConsume s = keys ++ rest ->
  (liveRegionLineCount s + linefeeds keys <= MAX_ROWS_TO_READ)%nat ->
  liveRegion (onChars isMac keys s) = liveRegion s /\
  liveRegionLineCount (onChars isMac keys s) =
    (liveRegionLineCount s + linefeeds keys)%nat /\
  charsToConsume (onChars isMac keys s) = rest.
Proof.
  revert s. induction keys as [|k keys IH]; intros s Hq Hn.
  - simpl. rewrite Hq. unfold linefeeds. simpl. repeat split; lia || done.
  - rewrite linefeeds_cons in Hn.
    assert (Hopen : (liveRegionLineCount s <= MAX_ROWS_TO_READ)%nat) by lia.
    destruct (LiveFacts.onChar_open isMac k s Hopen) as (Hl & Hc & Ht).
    rewrite Hq in Hl, Ht. simpl in Hl, Ht. rewrite String.eqb_refl in Hl.
    assert (Hl' : liveRegion (_onChar isMac k s) = liveRegion s).
    { rewrite Hl. unfold MAX_ROWS_TO_READ in Hn.
      destruct (String.eqb k LF); cbn [andb app]; [|by rewrite app_nil_r].
      destruct (Nat.eqb_spec (S (liveRegionLineCount s)) 21);
        [lia | by rewrite app_nil_r]. }
    change (onChars isMac (k :: keys) s) with (onChars isMac keys (_onChar isMac k s)).
    destruct (IH (_onChar isMac k s)) as (IH1 & IH2 & IH3); [done | |].
    { rewrite Hc. destruct (String.eqb k LF); lia. }
    rewrite IH1, IH2, IH3, Hl', Hc, linefeeds_cons.
    repeat split. destruct (String.eqb k LF); lia.
Qed.

(** X1: keys typed on an empty queue and echoed back in the order they
    were typed are never announced: the live region stays empty, the
    queue is used up, and the counter holds the number of line feeds. *)
Theorem typed_keys_echoed_in_order (s : state) (keys : list string) :
  charsToConsume s = [] ->
  keys <> [] ->
  (linefeeds keys <= MAX_ROWS_TO_READ)%nat ->
  let echoed := onChars isMac keys (onKeys isMac keys s) in
  liveRegion echoed = [] /\
  charsToConsume echoed = [] /\
  liveRegionLineCount echoed = linefeeds keys.
Proof.
  intros Hq Hne Hn echoed.
  destruct (exists_last Hne) as (front & k & ->).
  assert (Htyped : liveRegion (onKeys isMac (front ++ [k]) s) = [] /\
                   liveRegionLineCount (onKeys isMac (front ++ [k]) s) = 0%nat)
    by (rewrite onKeys_snoc; done).
  destruct Htyped as (Hl & Hc).
  destruct (echo_run (front ++ [k]) [] (onKeys isMac (front ++ [k]) s))
    as (H1 & H2 & H3).
  - by rewrite onKeys_queue, Hq, app_nil_r.
  - rewrite Hc. lia.
  - unfold echoed. rewrite H1, H2, H3, Hl, Hc. done.
Qed.

(** X2: the oldest pending keystroke is the one compared: with an older
    keystroke [x] still pending, the echo of a key just typed is
    announced, and the key stays in the queue behind what [x] left. *)
Theorem stale_keystroke_shifts_echo (s : state) (x a : string) (pending : list string) :
  charsToConsume s = x :: pending ->
  x <> a ->
  liveRegion (_onChar isMac a (_onKey isMac a s)) = [write a] /\
  charsToConsume (_onChar isMac a (_onKey isMac a s)) = pending ++ [a].
Proof.
  intros Hq Hx.
  assert (Hopen : (liveRegionLineCount (_onKey isMac a s) <= MAX_ROWS_TO_READ)%nat)
    by (simpl; unfold MAX_ROWS_TO_READ; lia).
  destruct (LiveFacts.onChar_open isMac a _ Hopen) as (-> & _ & ->).
  simpl. rewrite Hq. simpl. apply String.eqb_neq in Hx. rewrite Hx. simpl.
  split; [|done].
  destruct (String.eqb a LF); simpl; by rewrite ?app_nil_r.
Qed.

Lemma onTab_succ (n : nat) (s : state) :
  _onTab isMac (S n) s = _onChar isMac SPACE (_onTab isMac n s).
Proof. reflexivity. Qed.

(** X3: below the ceiling, a tab of [n] spaces takes [n] keystrokes off
    the queue, writes one no-break space for each of its spaces that did
    not meet a space keystroke, and counts no line. *)
Theorem tab_writes_nbsp (n : nat) (s : state) :
  (liveRegionLineCount s <= MAX_ROWS_TO_READ)%nat ->
  liveRegion (_onTab isMac n s) =
    liveRegion s ++
    replicate (n - length (filter (fun k => k = SPACE) (take n (charsToConsume s)))) Nbsp /\
  charsToConsume (_onTab isMac n s) = drop n (charsToConsume s) /\
  liveRegionLineCount (_onTab isMac n s) = liveRegionLineCount s.
Proof.
  intros Hopen. induction n as [|n (IH1 & IH2 & IH3)].
  - simpl. rewrite drop_0, app_nil_r. done.
  - rewrite onTab_succ.
    assert (Hopen' : (liveRegionLineCount (_onTab isMac n s) <= MAX_ROWS_TO_READ)%nat)
      by (rewrite IH3; exact Hopen).
    destruct (LiveFacts.onChar_open isMac SPACE _ Hopen') as (-> & -> & ->).
    change (String.eqb SPACE LF) with false. cbn [andb]. rewrite app_nil_r.
    change (write SPACE) with Nbsp.
    rewrite IH1, IH2, IH3, <- app_assoc.
    split; [|split; [|done]].
    + f_equal.
      pose proof (length_filter (fun k => k = SPACE) (take n (charsToConsume s))) as Hle.
      rewrite length_take in Hle.
      destruct (charsToConsume s !! n) as [k|] eqn:Hk.
      * rewrite (drop_S _ _ _ Hk), (take_S_r _ _ _ Hk), filter_app, length_app.
        destruct (String.eqb_spec k SPACE) as [->|Hne].
        -- rewrite filter_cons_True, app_nil_r by done. simpl.
           replace (S n - (length (filter (λ k, k = SPACE) (take n (charsToConsume s))) + 1))%nat
             with (n - length (filter (λ k, k = SPACE) (take n (charsToConsume s))))%nat by lia.
           done.
        -- rewrite filter_cons_False by done. simpl. rewrite Nat.add_0_r.
           replace (S n - length (filter (λ k, k = SPACE) (take n (charsToConsume s))))%nat
             with (n - length (filter (λ k, k = SPACE) (take n (charsToConsume s))) + 1)%nat by lia.
           by rewrite replicate_add.
      * apply lookup_ge_None in Hk.
        rewrite (drop_ge _ n), (take_ge _ n), (take_ge _ (S n)) by lia.
        rewrite take_ge in Hle by lia.
        replace (S n - length (filter (λ k, k = SPACE) (charsToConsume s)))%nat
          with (n - length (filter (λ k, k = SPACE) (charsToConsume s)) + 1)%nat by lia.
        by rewrite replicate_add.
    + destruct (charsToConsume s !! n) as [k|] eqn:Hk.
      * by rewrite (drop_S _ _ _ Hk).
      * apply lookup_ge_None in Hk. by rewrite !drop_ge by lia.
Qed.

Lemma onTab_settled (n : nat) (s : state) :
  settled s -> settled (_onTab isMac n s).
Proof.
  intros H. induction n as [|n IH]; [done|].
  rewrite onTab_succ. by apply LiveFacts.onChar_settled.
Qed.

Lemma handle_settled (e : event) (s : state) :
  settled s -> settled (handle isMac e s).
Proof.
  intros H. destruct e; simpl.
  - split; simpl; [unfold MAX_ROWS_TO_READ; lia | done].
  - by apply LiveFacts.onChar_settled.
  - by apply LiveFacts.onChar_settled.
  - by apply onTab_settled.
  - split; simpl; [unfold MAX_ROWS_TO_READ; lia | done].
  - split; simpl; [unfold MAX_ROWS_TO_READ; lia | done].
  - unfold runReattach. by destruct (reattachTimers s).
Qed.

(** X4: whatever events reach the live region, in whatever order, the
    line counter never passes 21, and the notice is in the live region
    once when the counter is 21 and not at all below. *)
Theorem events_keep_settled (events : list event) (s : state) :
  settled s -> settled (handleAll isMac events s).
Proof.
  unfold handleAll. revert s. induction events as [|e events IH]; intros s H; [done|].
  simpl. apply IH, handle_settled, H.
Qed.

End Platform.

(** What lines 129-154 do to the live region: they add to its content
    and leave its place in the tree and the timers alone. *)
Lemma written_fields (char : string) (s : state) :
  exists added,
    liveRegion (countLine char (announceChar char s)) = liveRegion s ++ added /\
    liveAttached (countLine char (announceChar char s)) = liveAttached s /\
    reattachTimers (countLine char (announceChar char s)) = reattachTimers s.
Proof.
  unfold countLine, announceChar.
  destruct (charsToConsume s) as [|k rest]; [|destruct (negb (String.eqb k char))];
    destruct (String.eqb char LF); try destruct (_ =? _)%nat; simpl;
    try (by eexists; rewrite <- ?app_assoc; split; [reflexivity|]);
    by exists []; rewrite app_nil_r.
Qed.

Lemma onChar_pending (char : string) (s : state) :
  reattachPending s -> reattachPending (_onChar true char s).
Proof.
  intros H. unfold _onChar. destruct (_ <? _)%nat; [|done].
  unfold reattach, reattachPending.
  destruct (negb _ && negb _) eqn:E; [simpl; lia|].
  intros Hout Htext. apply andb_false_iff in E as [E|E].
  - apply negb_false_iff, String.eqb_eq in E. done.
  - rewrite Hout in E. done.
Qed.

Lemma onTab_pending (n : nat) (s : state) :
  reattachPending s -> reattachPending (_onTab true n s).
Proof.
  intros H. induction n as [|n IH]; [done|].
  rewrite onTab_succ. by apply onChar_pending.
Qed.

(** X5: on a Mac, whatever events the terminal sends, a live region that
    holds text while it is out of the tree has a timer pending that
    puts it back: no output of the terminal stays unannounced. *)
Theorem mac_reattach_pending (events : list event) (s : state) :
  Forall (fun e => fromTerminal e = true) events ->
  reattachPending s ->
  reattachPending (handleAll true events s).
Proof.
  unfold handleAll. revert s.
  induction events as [|e events IH]; intros s Hall H; [done|].
  apply Forall_cons in Hall as [He Hall]. simpl. apply IH; [done|].
  destruct e; simpl; try done.
  - intros _ Htext. by simpl in Htext.
  - by apply onChar_pending.
  - by apply onChar_pending.
  - by apply onTab_pending.
  - intros _ Htext. by simpl in Htext.
  - unfold runReattach, reattachPending. destruct (reattachTimers s); [done|].
    simpl. done.
Qed.

(** X6: on a Mac, [announce] of a text leaves the live region out of the
    tree with that text and schedules nothing; it is the next character
    from the terminal, whichever it is, that schedules the timer. *)
Theorem mac_announce_detached (text : string) (s : state) :
  text <> "" ->
  let announced := announce true text s in
  liveAttached announced = false /\
  textContent (liveRegion announced) = text /\
  reattachTimers announced = reattachTimers s /\
  (reattachTimers s = 0%nat -> ~ reattachPending announced) /\
  forall char, reattachTimers (_onChar true char announced) = S (reattachTimers s).
Proof.
  intros Htext announced.
  split; [reflexivity|]. split; [reflexivity|]. split; [reflexivity|].
  split.
  { intros H0 H. unfold reattachPending in H. simpl in H.
    specialize (H eq_refl Htext). lia. }
  intros char. unfold _onChar.
  change (liveRegionLineCount announced) with 0%nat. cbn [Nat.ltb Nat.leb MAX_ROWS_TO_READ Nat.add].
  destruct (written_fields char announced) as (added & Hl & Ha & Ht).
  unfold reattach. rewrite Hl, Ha, Ht.
  change (liveRegion announced) with [Lit text].
  change (liveAttached announced) with false.
  assert (Hne : textContent ([Lit text] ++ added) <> "").
  { apply textContent_nonempty. exact Htext. }
  apply String.eqb_neq in Hne. rewrite Hne. reflexivity.
Qed.

Lemma handle_attached (e : event) (s : state) :
  reattachTimers s = 0%nat ->
  liveAttached (handle false e s) = liveAttached s /\
  reattachTimers (handle false e s) = 0%nat.
Proof.
  intros H.
  assert (Hchar : forall char s0, reattachTimers s0 = 0%nat ->
    liveAttached (_onChar false char s0) = liveAttached s0 /\
    reattachTimers (_onChar false char s0) = 0%nat).
  { intros char s0 H0. unfold _onChar. destruct (_ <? _)%nat; [|done].
    destruct (written_fields char s0) as (_ & _ & Ha & Ht).
    unfold reattach. by rewrite Ha, Ht. }
  destruct e; simpl; try done; try by apply Hchar.
  - induction spaceCount as [|n [IH1 IH2]]; [done|].
    rewrite onTab_succ. destruct (Hchar SPACE _ IH2) as [H1 H2].
    by rewrite H1, H2, IH1.
  - unfold runReattach. by rewrite H.
Qed.

(** X7: off the Mac the live region never leaves the tree and no timer
    is ever scheduled, whatever the events. *)
Theorem other_platforms_stay_attached (events : list event) (s : state) :
  reattachTimers s = 0%nat ->
  liveAttached (handleAll false events s) = liveAttached s /\
  reattachTimers (handleAll false events s) = 0%nat.
Proof.
  unfold handleAll. revert s.
  induction events as [|e events IH]; intros s H; [done|].
  simpl. destruct (handle_attached e s H) as [H1 H2].
  destruct (IH _ H2) as [IH1 IH2]. by rewrite IH1, IH2, H1.
Qed.

Lemma typed_keys_echoed_in_order_witness :
  liveRegion (onChars true ["l"; "s"; LF] (onKeys true ["l"; "s"; LF] init)) = [] /\
  liveRegionLineCount (onChars true ["l"; "s"; LF] (onKeys true ["l"; "s"; LF] init)) = 1%nat.
Proof.
  destruct (typed_keys_echoed_in_order true init ["l"; "s"; LF]) as (H1 & _ & H3).
  - reflexivity.
  - discriminate.
  - vm_compute. lia.
  - split; [exact H1 | exact H3].
Defined.

Lemma stale_keystroke_shifts_echo_witness :
  liveRegion (_onChar false "a" (_onKey false "a" (_onKey false "x" init))) = [Lit "a"].
Proof.
  destruct (stale_keystroke_shifts_echo false (_onKey false "x" init) "x" "a" []) as (H & _).
  - reflexivity.
  - discriminate.
  - exact H.
Defined.

Lemma tab_writes_nbsp_witness :
  liveRegion (_onTab false 4 (_onKey false " " init)) = [Nbsp; Nbsp; Nbsp].
Proof.
  destruct (tab_writes_nbsp false 4 (_onKey false " " init)) as (H & _).
  - vm_compute. lia.
  - exact H.
Defined.

Lemma events_keep_settled_witness :
  settled (handleAll true [Key "a"; Tab 2; Linefeed; Announce "x"; Blur; ReattachTimer] init).
Proof.
  apply (events_keep_settled true). split; [vm_compute; lia | reflexivity].
Defined.

Lemma mac_reattach_pending_witness :
  reattachPending (handleAll true [Key "a"; Char "b"; Blur; Tab 2] init).
Proof.
  apply mac_reattach_pending.
  - repeat constructor.
  - intros H. discriminate H.
Defined.

Lemma mac_announce_detached_witness :
  liveAttached (announce true "Entered line navigation mode" init) = false /\
  reattachTimers (announce true "Entered line navigation mode" init) = 0%nat.
Proof.
  destruct (mac_announce_detached "Entered line navigation mode" init) as (H1 & _ & H3 & _).
  - discriminate.
  - split; [exact H1 | exact H3].
Defined.

Lemma other_platforms_stay_attached_witness :
  liveAttached (handleAll false [Key "a"; Char "b"; Announce "x"; ReattachTimer] init) = true.
Proof.
  pose proof (other_platforms_stay_attached
    [Key "a"; Char "b"; Announce "x"; ReattachTimer] init eq_refl) as [H _].
  exact H.
Defined.

End LiveEventFacts.

Module RowRunFacts.
Import Dom Rows RowRuns.
#[local] Arguments JS.index : simpl never.
#[local] Arguments JS.store : simpl never.
#[local] Arguments JS.pop : simpl never.

Lemma index_mirror_Z {A} (l : list A) (i : Z) :
  0 <= i -> JS.index (Some <$> l) (Some i) = l !! Z.to_nat i.
Proof. intros Hi. by rewrite <- (Z2Nat.id i) at 1 by done; rewrite JSFacts.index_mirror. Qed.

Lemma addRow_step (s : state) :
  mirrored s ->
  addRow (length (children s)) s =
    JS.Returned tt
      (mkState (<[created s := setRole "menuitem" div]> (nodes s)) (S (created s))
               (children s ++ [created s]) (Some <$> (children s ++ [created s]))
               (terminalRows s) (actualCellHeight s)).
Proof.
  intros (Hrows & Hnd & Hlt).
  unfold addRow, JS.bind, _createAccessibilityTreeNode, JS.modify, JS.get; simpl.
  rewrite Hrows, JSFacts.store_push, JSFacts.index_mirror.
  rewrite lookup_app_r, Nat.sub_diag by lia. simpl.
  unfold JS.modify, setChildren; simpl.
  by rewrite JSFacts.store_push, (RowsFacts.filter_other_fresh _ _ Hlt).
Qed.

(** The elements of a run of [growRows]: the ones created by it are
    fresh menu items, the others are as before. *)
Lemma growRows_nodes (fuel : nat) (s s' : state) :
  mirrored s ->
  growRows fuel (length (children s)) s = JS.Returned tt s' ->
  (created s <= created s')%nat /\
  actualCellHeight s' = actualCellHeight s /\
  forall n, nodes s' !! n =
    if decide (created s <= n < created s')%nat
    then Some (setRole "menuitem" div) else nodes s !! n.
Proof.
  revert s. induction fuel as [|fuel IH]; intros s Hm; simpl;
    destruct (Z.ltb_spec (Z.of_nat (length (children s))) (terminalRows s)) as [Hlt|Hge];
    try done;
    try (intros [= <-]; split; [lia|]; split; [done|]; intros n;
         by destruct (decide _); [lia|]).
  unfold JS.bind at 1. rewrite (addRow_step s Hm).
  set (s1 := mkState _ _ _ _ _ _).
  assert (Hm1 : mirrored s1).
  { destruct (RowsFacts.addRow_mirrored s Hm) as (s1' & Hadd & Hm1 & _).
    rewrite (addRow_step s Hm) in Hadd. by injection Hadd as <-. }
  replace (S (length (children s))) with (length (children s1))
    by (simpl; rewrite length_app; simpl; lia).
  intros Hrun. destruct (IH s1 Hm1 Hrun) as (Hle & Hh & Hn). simpl in Hle, Hh.
  split; [lia|]. split; [done|]. intros n. rewrite Hn. simpl.
  destruct (decide (n = created s)) as [->|Hne].
  - rewrite lookup_insert_eq. repeat destruct (decide _); done || lia.
  - rewrite lookup_insert_ne by done. repeat destruct (decide _); done || lia.
Qed.

(** [shrinkRows] touches no element. *)
Lemma shrinkRows_nodes (fuel : nat) (rows : Z) (s : state) :
  nodes (JS.final (shrinkRows fuel rows s)) = nodes s /\
  actualCellHeight (JS.final (shrinkRows fuel rows s)) = actualCellHeight s.
Proof.
  revert s. induction fuel as [|fuel IH]; intros s; simpl;
    destruct (Z.of_nat (length (rowElements s)) >? rows); try done.
  unfold JS.bind, popRow. cbn [fst snd].
  destruct (JS.pop (rowElements s)) as [[n|] arr]; cbn [fst snd removeChild]; [|done].
  destruct (bool_decide _); [|done].
  destruct (IH (setChildren (filter (λ m : node, m ≠ n))
                  (setRowElements (λ _, arr) s))) as [IH1 IH2].
  destruct (shrinkRows fuel rows _); simpl in *; done.
Qed.

(** A run of the loop of [_refreshRowsDimensions] from row [i] on
    mirrored rows: it stops with a [TypeError] at the first row that is
    missing, and up to there it has set the heights. *)
Lemma sizeRows_run (fuel i : nat) (s : state) :
  rowElements s = Some <$> children s ->
  NoDup (children s) ->
  (Z.to_nat (terminalRows s) - i <= fuel)%nat ->
  exists s',
    sizeRows fuel i s =
      (if (Z.of_nat i <? terminalRows s) &&
          (Z.of_nat (length (children s)) <? terminalRows s)
       then JS.Threw JS.TypeError s' else JS.Returned tt s') /\
    children s' = children s /\ rowElements s' = rowElements s /\
    created s' = created s /\ terminalRows s' = terminalRows s /\
    actualCellHeight s' = actualCellHeight s /\
    (forall j n, children s !! j = Some n ->
       nodes s' !! n =
         if decide ((i <= j)%nat /\ Z.of_nat j < terminalRows s)
         then setHeight (actualCellHeight s) <$> nodes s !! n
         else nodes s !! n) /\
    (forall n, n ∉ children s -> nodes s' !! n = nodes s !! n).
Proof.
  revert i s. induction fuel as [|fuel IH]; intros i s Hmir Hnd Hfuel; simpl;
    destruct (Z.ltb_spec (Z.of_nat i) (terminalRows s)) as [Hlt|Hge]; try lia;
    try (exists s; cbn [andb]; repeat split; try done;
         intros j n _; by destruct (decide _); [lia|]).
  rewrite Hmir, JSFacts.index_mirror. cbn [andb].
  destruct (children s !! i) as [n|] eqn:Hi.
  - rewrite <- Hmir.
    set (s1 := setNodes _ s).
    destruct (IH (S i) s1) as (s' & Hrun & Hc & He & Hn & Hr & Hh & Hin & Hout);
      [done | done | simpl; lia |].
    simpl in Hrun, Hc, He, Hn, Hr, Hh, Hin, Hout.
    assert (Hlen : (i < length (children s))%nat) by (by eapply lookup_lt_Some).
    destruct (Z.ltb_spec (Z.of_nat (S i)) (terminalRows s)) as [H1|H1];
      destruct (Z.ltb_spec (Z.of_nat (length (children s))) (terminalRows s)) as [H2|H2];
      try lia; cbn [andb] in Hrun; exists s';
      (split; [exact Hrun|]); repeat split; try done.
    all: try (intros j m Hj; rewrite (Hin j m Hj);
      destruct (decide (j = i)) as [->|Hne];
      [ assert (m = n) as -> by congruence; rewrite lookup_alter_eq;
        repeat destruct (decide _); done || lia
      | assert (m <> n) by (intros ->; by pose proof (NoDup_lookup _ _ _ _ Hnd Hj Hi));
        rewrite lookup_alter_ne by done;
        repeat destruct (decide _); done || lia ]).
    all: intros m Hm; rewrite (Hout m Hm); apply lookup_alter_ne;
      intros ->; apply Hm; by eapply list_elem_of_lookup_2.
  - apply lookup_ge_None in Hi.
    destruct (Z.ltb_spec (Z.of_nat (length (children s))) (terminalRows s)); [|lia].
    exists s. repeat split; try done.
    intros j n Hj. apply lookup_lt_Some in Hj. by destruct (decide _); [lia|].
Qed.

(** A run of the loop of [_renderRows] from row [i] on mirrored rows:
    it stops with a [TypeError] at the first row that is missing, and up
    to there it has written the lines. *)
Lemma writeRows_run (fuel : nat) (ydisp : Z) (line : Z -> string) (i end_ : Z)
    (s : state) :
  rowElements s = Some <$> children s ->
  NoDup (children s) ->
  0 <= i ->
  (Z.to_nat (end_ - i + 1) <= fuel)%nat ->
  exists s',
    writeRows fuel ydisp line i end_ s =
      (if (i <=? end_) && (Z.of_nat (length (children s)) <=? end_)
       then JS.Threw JS.TypeError s' else JS.Returned tt s') /\
    children s' = children s /\ rowElements s' = rowElements s /\
    created s' = created s /\ terminalRows s' = terminalRows s /\
    (forall j n, children s !! j = Some n ->
       nodes s' !! n =
         if decide (i <= Z.of_nat j <= end_)
         then setLine (line (ydisp + Z.of_nat j)) <$> nodes s !! n
         else nodes s !! n) /\
    (forall n, n ∉ children s -> nodes s' !! n = nodes s !! n).
Proof.
  revert i s. induction fuel as [|fuel IH]; intros i s Hmir Hnd Hi Hfuel; simpl;
    destruct (Z.leb_spec i end_) as [Hle|Hgt]; try lia;
    try (exists s; cbn [andb]; repeat split; try done;
         intros j n _; by destruct (decide _); [lia|]).
  rewrite Hmir, index_mirror_Z by done. cbn [andb].
  destruct (children s !! Z.to_nat i) as [n|] eqn:Hn.
  - rewrite <- Hmir.
    set (s1 := setNodes _ s).
    destruct (IH (i + 1) s1) as (s' & Hrun & Hc & He & Hcr & Hr & Hin & Hout);
      [done | done | lia | lia |].
    simpl in Hrun, Hc, He, Hcr, Hr, Hin, Hout.
    assert (Hlen : (Z.to_nat i < length (children s))%nat) by (by eapply lookup_lt_Some).
    destruct (Z.leb_spec (i + 1) end_) as [H1|H1];
      destruct (Z.leb_spec (Z.of_nat (length (children s))) end_) as [H2|H2];
      try lia; cbn [andb] in Hrun; exists s';
      (split; [exact Hrun|]); repeat split; try done.
    all: try (intros j m Hj; rewrite (Hin j m Hj);
      destruct (decide (j = Z.to_nat i)) as [->|Hne];
      [ assert (m = n) as -> by congruence; rewrite lookup_alter_eq, Z2Nat.id by done;
        repeat destruct (decide _); done || lia
      | assert (m <> n) by (intros ->; by pose proof (NoDup_lookup _ _ _ _ Hnd Hj Hn));
        rewrite lookup_alter_ne by done;
        repeat destruct (decide _); done || lia ]).
    all: intros m Hm; rewrite (Hout m Hm); apply lookup_alter_ne;
      intros ->; apply Hm; by eapply list_elem_of_lookup_2.
  - apply lookup_ge_None in Hn.
    destruct (Z.leb_spec (Z.of_nat (length (children s))) end_); [|lia].
    exists s. repeat split; try done.
    intros j n Hj. apply lookup_lt_Some in Hj. by destruct (decide _); [lia|].
Qed.

(** The element of a row of mirrored rows. *)
Lemma rowElement_mirrored (s : state) (i : Z) :
  rowElements s = Some <$> children s -> 0 <= i ->
  rowElement s i = children s !! Z.to_nat i ≫= fun n => nodes s !! n.
Proof.
  intros Hmir Hi. unfold rowElement.
  by rewrite Hmir, index_mirror_Z.
Qed.

Lemma rowElement_negative (s : state) (i : Z) : i < 0 -> rowElement s i = None.
Proof. intros Hi. unfold rowElement. by rewrite JSFacts.index_negative. Qed.

(** From the elements to the rows: what a loop did to the element of
    each child, it did to each row. *)
Lemma rows_of_nodes (s s' : state) (P : Z -> Prop) `{!forall i, Decision (P i)}
    (f : Z -> Element -> Element) :
  rowElements s = Some <$> children s ->
  children s' = children s -> rowElements s' = rowElements s ->
  (forall j n, children s !! j = Some n ->
     nodes s' !! n =
       if decide (P (Z.of_nat j)) then f (Z.of_nat j) <$> nodes s !! n
       else nodes s !! n) ->
  forall i, rowElement s' i =
    if decide (P i) then f i <$> rowElement s i else rowElement s i.
Proof.
  intros Hmir Hc He Hin i.
  destruct (Z.lt_ge_cases i 0) as [Hneg|Hpos].
  { rewrite !rowElement_negative by done. by destruct (decide _). }
  rewrite !rowElement_mirrored by (done || congruence). rewrite Hc.
  destruct (children s !! Z.to_nat i) as [n|] eqn:Hn; simpl;
    [|by destruct (decide _)].
  rewrite (Hin _ _ Hn), Z2Nat.id by done. done.
Qed.

(** X8: on mirrored rows and a range inside them, [_renderRows] returns:
    every row of the range holds the line of the buffer at [ydisp] plus
    its index, as text and as label, and every other row is as before. *)
Theorem renderRows_writes (ydisp : Z) (line : Z -> string) (start end_ : Z)
    (s : state) :
  mirrored s -> 0 <= start -> end_ < Z.of_nat (length (rowElements s)) ->
  exists s',
    _renderRows ydisp line start end_ s = JS.Returned tt s' /\
    rowElements s' = rowElements s /\ children s' = children s /\
    forall i, rowElement s' i =
      if decide (start <= i <= end_)
      then setLine (line (ydisp + i)) <$> rowElement s i
      else rowElement s i.
Proof.
  intros (Hmir & Hnd & _) Hstart Hend. rewrite Hmir, length_fmap in Hend.
  destruct (writeRows_run (Z.to_nat (end_ - start + 1)) ydisp line start end_ s)
    as (s' & Hrun & Hc & He & _ & _ & Hin & _); [done | done | done | lia |].
  destruct (Z.leb_spec (Z.of_nat (length (children s))) end_); [lia|].
  rewrite andb_false_r in Hrun.
  exists s'. split; [exact Hrun|]. split; [done|]. split; [done|].
  apply (rows_of_nodes s s' (fun i => start <= i <= end_)
           (fun i => setLine (line (ydisp + i)))); done.
Qed.

(** X9: when the range reaches past the last mirrored row, [_renderRows]
    throws a [TypeError], and not before it has written the rows of the
    range that exist. *)
Theorem renderRows_past_end (ydisp : Z) (line : Z -> string) (start end_ : Z)
    (s : state) :
  mirrored s -> 0 <= start <= end_ -> Z.of_nat (length (rowElements s)) <= end_ ->
  exists s',
    _renderRows ydisp line start end_ s = JS.Threw JS.TypeError s' /\
    rowElements s' = rowElements s /\
    forall i, rowElement s' i =
      if decide (start <= i)
      then setLine (line (ydisp + i)) <$> rowElement s i
      else rowElement s i.
Proof.
  intros (Hmir & Hnd & _) Hstart Hend. rewrite Hmir, length_fmap in Hend.
  destruct (writeRows_run (Z.to_nat (end_ - start + 1)) ydisp line start end_ s)
    as (s' & Hrun & Hc & He & _ & _ & Hin & _); [done | done | lia | lia |].
  destruct (Z.leb_spec (Z.of_nat (length (children s))) end_); [|lia].
  destruct (Z.leb_spec start end_); [|lia]. cbn [andb] in Hrun.
  exists s'. split; [exact Hrun|]. split; [done|].
  intros i.
  rewrite (rows_of_nodes s s' (fun i => start <= i <= end_)
           (fun i => setLine (line (ydisp + i))) Hmir Hc He Hin i).
  destruct (decide (start <= i <= end_)), (decide (start <= i)); try done; try lia.
  assert (Hnone : rowElement s i = None); [|by rewrite Hnone].
  rewrite rowElement_mirrored by (done || lia).
  rewrite lookup_ge_None_2; [done | lia].
Qed.

(** [_refreshRowsDimensions] on mirrored rows that are at least as many
    as the terminal's. *)
Lemma sized_rows (s : state) :
  mirrored s -> terminalRows s <= Z.of_nat (length (children s)) ->
  exists s',
    _refreshRowsDimensions s = JS.Returned tt s' /\
    rowElements s' = rowElements s /\ children s' = children s /\
    created s' = created s /\ terminalRows s' = terminalRows s /\
    actualCellHeight s' = actualCellHeight s /\
    forall i, rowElement s' i =
      if decide (0 <= i < terminalRows s)
      then setHeight (actualCellHeight s) <$> rowElement s i
      else rowElement s i.
Proof.
  intros (Hmir & Hnd & _) Hlen.
  destruct (sizeRows_run (Z.to_nat (terminalRows s)) 0 s)
    as (s' & Hrun & Hc & He & Hcr & Hr & Hh & Hin & _); [done | done | lia |].
  destruct (Z.ltb_spec (Z.of_nat (length (children s))) (terminalRows s)); [lia|].
  rewrite andb_false_r in Hrun.
  exists s'. split; [exact Hrun|]. repeat (split; [done|]).
  apply (rows_of_nodes s s' (fun i => 0 <= i < terminalRows s)
           (fun _ => setHeight (actualCellHeight s))); try done.
  intros j n Hj. rewrite (Hin j n Hj).
  repeat destruct (decide _); done || lia.
Qed.

(** The loop of lines 103-106 on mirrored rows: the rows it adds are
    fresh menu items, the others are as before. *)
Lemma grown_rows (s : state) :
  mirrored s ->
  exists s',
    growRows (Z.to_nat (terminalRows s)) (length (children s)) s = JS.Returned tt s' /\
    mirrored s' /\
    children s' = children s ++
      seq (created s) (Z.to_nat (terminalRows s) - length (children s)) /\
    terminalRows s' = terminalRows s /\
    actualCellHeight s' = actualCellHeight s /\
    forall i, rowElement s' i =
      if decide (Z.of_nat (length (children s)) <= i < terminalRows s)
      then Some (setRole "menuitem" div) else rowElement s i.
Proof.
  intros Hm.
  destruct (RowsFacts.growRows_mirrored (Z.to_nat (terminalRows s)) s Hm)
    as (s' & Hrun & Hm' & Hc & Hcr & Hr); [lia|].
  destruct (growRows_nodes _ s s' Hm Hrun) as (_ & Hh & Hn).
  exists s'. repeat (split; [done|]).
  intros i. pose proof Hm as (Hmir & _ & Hlt). pose proof Hm' as (Hmir' & _).
  destruct (Z.lt_ge_cases i 0) as [Hneg|Hpos].
  { rewrite !rowElement_negative by done. by destruct (decide _); [lia|]. }
  rewrite !rowElement_mirrored by done. rewrite Hc.
  destruct (decide (Z.of_nat (length (children s)) <= i < terminalRows s)) as [Hin|Hout].
  - rewrite lookup_app_r by lia. rewrite lookup_seq_lt by lia. simpl.
    rewrite Hn. destruct (decide _); [done | lia].
  - destruct (decide (Z.to_nat i < length (children s))%nat) as [Hold|Hpast].
    + rewrite lookup_app_l by done.
      destruct (lookup_lt_is_Some_2 (children s) (Z.to_nat i) Hold) as [n Hi].
      rewrite Hi. simpl. rewrite Hn.
      rewrite Forall_forall in Hlt.
      pose proof (Hlt n (list_elem_of_lookup_2 _ _ _ Hi)) as Hfresh. simpl in Hfresh.
      destruct (decide _); [lia | done].
    + rewrite lookup_app_r by lia. rewrite lookup_seq_ge by lia.
      rewrite lookup_ge_None_2 by lia. done.
Qed.

(** A row just created, once sized, is a blank row. *)
Lemma setHeight_blank (n : number) :
  setHeight n (setRole "menuitem" div) = blankRow n.
Proof. unfold setHeight, blankRow. by destruct (px n). Qed.

(** An assignment that is ignored leaves the row as it is. *)
Lemma setHeight_ignored (n : number) (row : option Element) :
  px n = None -> setHeight n <$> row = row.
Proof. intros H. unfold setHeight. rewrite H. by destruct row. Qed.

(** X10: on mirrored rows that are at least as many as the terminal's,
    [_refreshRowsDimensions] returns, and nothing but the height of the
    rows of the terminal has changed: each has the renderer's cell
    height in px when that is a length, and the height it had when it is
    not, as with [null] before the first measurement, where no row
    changes at all. *)
Theorem refreshRowsDimensions_sets_heights (s : state) :
  mirrored s -> terminalRows s <= Z.of_nat (length (rowElements s)) ->
  exists s',
    _refreshRowsDimensions s = JS.Returned tt s' /\
    rowElements s' = rowElements s /\ children s' = children s /\
    (forall i, rowElement s' i =
       if decide (0 <= i < terminalRows s)
       then setHeight (actualCellHeight s) <$> rowElement s i
       else rowElement s i) /\
    (forall h i row, px (actualCellHeight s) = Some h -> 0 <= i < terminalRows s ->
       rowElement s' i = Some row -> height row = Some h) /\
    (px (actualCellHeight s) = None -> forall i, rowElement s' i = rowElement s i).
Proof.
  intros Hm Hlen. pose proof Hm as (Hmir & _). rewrite Hmir, length_fmap in Hlen.
  destruct (sized_rows s Hm Hlen) as (s' & Hrun & He & Hc & _ & _ & _ & Hrows).
  exists s'. repeat (split; [done|]). split.
  - intros h i row Hpx Hi. rewrite Hrows. destruct (decide _); [|lia].
    unfold setHeight. rewrite Hpx.
    destruct (rowElement s i); [|done]. by intros [= <-].
  - intros Hpx i. rewrite Hrows. destruct (decide _); [|done].
    by apply setHeight_ignored.
Qed.

(** X11: when the terminal has more rows than are mirrored, as between a
    change of its row count and the resize event, [_refreshRowsDimensions]
    throws a [TypeError] after it has gone through the rows that exist:
    each has the cell height in px when that is a length, and is as it
    was when it is not. *)
Theorem refreshRowsDimensions_missing_row (s : state) :
  mirrored s -> Z.of_nat (length (rowElements s)) < terminalRows s ->
  exists s',
    _refreshRowsDimensions s = JS.Threw JS.TypeError s' /\
    rowElements s' = rowElements s /\
    (forall i, rowElement s' i =
       setHeight (actualCellHeight s) <$> rowElement s i) /\
    (forall h i row, px (actualCellHeight s) = Some h ->
       rowElement s' i = Some row -> height row = Some h) /\
    (px (actualCellHeight s) = None -> forall i, rowElement s' i = rowElement s i).
Proof.
  intros (Hmir & Hnd & _) Hlen. rewrite Hmir, length_fmap in Hlen.
  destruct (sizeRows_run (Z.to_nat (terminalRows s)) 0 s)
    as (s' & Hrun & Hc & He & _ & _ & _ & Hin & _); [done | done | lia |].
  destruct (Z.ltb_spec (Z.of_nat (length (children s))) (terminalRows s)); [|lia].
  destruct (Z.ltb_spec (Z.of_nat 0) (terminalRows s)); [|lia]. cbn [andb] in Hrun.
  exists s'. split; [exact Hrun|]. split; [done|].
  assert (Hrows : forall i, rowElement s' i =
            setHeight (actualCellHeight s) <$> rowElement s i).
  { intros i.
    rewrite (rows_of_nodes s s' (fun i => 0 <= i < terminalRows s)
             (fun _ => setHeight (actualCellHeight s)) Hmir Hc He).
    - destruct (decide _); [done|].
      destruct (Z.lt_ge_cases i 0); [by rewrite rowElement_negative|].
      rewrite rowElement_mirrored by done. rewrite lookup_ge_None_2; [done | lia].
    - intros j n Hj. rewrite (Hin j n Hj).
      repeat destruct (decide _); done || lia. }
  split; [exact Hrows|]. split.
  - intros h i row Hpx. rewrite Hrows. unfold setHeight. rewrite Hpx.
    destruct (rowElement s i); [|done]. by intros [= <-].
  - intros Hpx i. rewrite Hrows. by apply setHeight_ignored.
Qed.

(** X12: the constructor, for a terminal of [rows] rows, returns with
    [rows] mirrored rows; row [i] is the element created [i]-th, a menu
    item with neither text, label nor identifier; its height is the cell
    height in px when that is a length, and it has none when it is not,
    as with [null] before the first measurement. *)
Theorem construct_rows (rows : Z) (cellHeight : number) :
  0 <= rows ->
  exists s,
    construct rows cellHeight = JS.Returned tt s /\
    mirrored s /\
    rowElements s = Some <$> seq 0 (Z.to_nat rows) /\
    forall i, rowElement s i =
      if decide (0 <= i < rows) then Some (blankRow cellHeight) else None.
Proof.
  intros Hrows. unfold construct.
  set (s0 := mkState _ _ _ _ _ _).
  assert (Hm0 : mirrored s0) by (repeat split; constructor).
  destruct (grown_rows s0 Hm0) as (s1 & Hg & Hm1 & Hc1 & Hr1 & Hh1 & Hrow1).
  simpl in Hg, Hc1, Hr1, Hh1, Hrow1. rewrite Nat.sub_0_r in Hc1.
  unfold JS.bind. rewrite Hg.
  destruct (sized_rows s1 Hm1) as (s2 & Hd & He2 & Hc2 & Hcr2 & Hr2 & Hh2 & Hrow2).
  { rewrite Hc1, length_seq. lia. }
  rewrite Hd. exists s2. split; [done|].
  pose proof Hm1 as (Hmir1 & Hnd1 & Hlt1).
  split; [by repeat split; rewrite ?He2, ?Hc2, ?Hcr2|].
  split; [by rewrite He2, Hmir1, Hc1|].
  intros i. rewrite Hrow2, Hrow1, Hr1, Hh1.
  destruct (decide (0 <= i < rows)).
  - destruct (decide _); [|lia]. simpl. by rewrite setHeight_blank.
  - destruct (decide _); [lia|].
    destruct (Z.lt_ge_cases i 0); [by rewrite rowElement_negative|].
    by rewrite rowElement_mirrored.
Qed.

(** X13: a resize to [r] rows keeps the text, the label and the
    identifier of every row that stays, and its height too unless the
    cell height in px is a length, which it then gets; every row that it
    adds is a menu item with that height, or none, and nothing else;
    past [r] there is no row. *)
Theorem resize_keeps_contents (cols r : Z) (s : state) :
  mirrored s -> 0 <= r -> terminalRows s = r ->
  exists s',
    _onResize cols r s = JS.Returned tt s' /\
    forall i, rowElement s' i =
      if decide (0 <= i < r) then
        if decide (i < Z.of_nat (length (rowElements s)))
        then setHeight (actualCellHeight s) <$> rowElement s i
        else Some (blankRow (actualCellHeight s))
      else None.
Proof.
  intros Hm Hr Hrows. pose proof Hm as (Hmir & _).
  unfold _onResize, JS.bind at 1, JS.get.
  destruct (grown_rows s Hm) as (s1 & Hg & Hm1 & Hc1 & Hr1 & Hh1 & Hrow1).
  unfold JS.bind at 1. rewrite Hg. unfold JS.bind at 1.
  destruct (RowsFacts.shrinkRows_mirrored (S (length (rowElements s1))) r s1 Hm1 Hr) as
    (s2 & Hs & Hm2 & Hc2 & Hn2 & Hr2).
  { destruct Hm1 as (-> & _). rewrite length_fmap. lia. }
  unfold JS.bind at 1. rewrite Hs.
  destruct (shrinkRows_nodes (S (length (rowElements s1))) r s1) as [Hnodes2 Hh2].
  rewrite Hs in Hnodes2, Hh2. simpl in Hnodes2, Hh2.
  assert (Hlen2 : length (children s2) = Z.to_nat r).
  { rewrite Hc2, Hc1, length_take, length_app, length_seq. lia. }
  destruct (sized_rows s2 Hm2) as (s3 & Hd & He3 & Hc3 & _ & _ & _ & Hrow3); [lia|].
  rewrite Hd. exists s3. split; [done|].
  intros i. rewrite Hrow3, Hr2, Hr1, Hrows, Hh2, Hh1.
  rewrite Hmir, length_fmap.
  destruct (Z.lt_ge_cases i 0) as [Hneg|Hpos].
  { rewrite rowElement_negative by done. by destruct (decide _); [lia|]. }
  pose proof Hm1 as (Hmir1 & _). pose proof Hm2 as (Hmir2 & _).
  assert (Hrow2 : rowElement s2 i =
    if decide (i < r) then rowElement s1 i else None).
  { rewrite !rowElement_mirrored by done. rewrite Hc2, Hnodes2.
    destruct (decide (i < r)).
    - by rewrite lookup_take_lt by lia.
    - by rewrite lookup_take_ge by lia. }
  rewrite Hrow2, Hrow1, Hrows.
  destruct (decide (0 <= i < r)) as [Hin|Hout].
  - destruct (decide (i < r)); [|lia].
    destruct (decide (i < Z.of_nat (length (children s)))).
    + destruct (decide _); [lia | done].
    + destruct (decide _); [|lia]. simpl. by rewrite setHeight_blank.
  - by destruct (decide (i < r)); [lia|].
Qed.

(** X14: resize events with row counts that are not negative, one after
    the other on mirrored rows, all return; the rows stay mirrored, they
    are as many as the last count says, and the rows below every count
    hold at the end the elements they held at the start. *)
Theorem resizes_compose (cols : Z) (counts : list Z) (s : state) :
  mirrored s -> Forall (fun r => 0 <= r) counts ->
  exists s',
    resizes cols counts s = JS.Returned tt s' /\
    mirrored s' /\
    Z.of_nat (length (rowElements s')) =
      default (Z.of_nat (length (rowElements s))) (last counts) /\
    (created s <= created s')%nat /\
    let kept := Z.to_nat (foldr Z.min (Z.of_nat (length (rowElements s))) counts) in
    take kept (rowElements s') = take kept (rowElements s).
Proof.
  revert s. induction counts as [|r counts IH]; intros s Hm Hall.
  - exists s. repeat split; try done; apply Hm.
  - apply Forall_cons in Hall as [Hr Hall].
    assert (Hm0 : mirrored (setTerminalRows r s)) by exact Hm.
    destruct (RowsFacts.onResize_mirrored cols r _ Hm0 Hr eq_refl)
      as (s1 & Hres & Hm1 & Hc1 & Hn1 & Ht1).
    simpl in Hc1, Hn1.
    destruct (IH s1 Hm1 Hall) as (s' & Hrun & Hm' & Hlen & Hcr & Hkept).
    exists s'. split.
    { simpl. unfold JS.bind at 1, resize, JS.bind at 1, JS.modify. by rewrite Hres. }
    split; [done|].
    pose proof Hm as (Hmir & _). pose proof Hm1 as (Hmir1 & _).
    assert (Hlen1 : length (rowElements s1) = Z.to_nat r).
    { rewrite Hmir1, Hc1, length_fmap, length_app, length_take, length_seq. lia. }
    split.
    { rewrite Hlen, Hlen1. destruct counts as [|r' counts]; [simpl; lia|].
      change (last (r :: r' :: counts)) with (last (r' :: counts)).
      destruct (last (r' :: counts)) eqn:E; [done|]. by apply last_None in E. }
    split; [lia|].
    simpl in *. rewrite Hlen1, Z2Nat.id in Hkept by done.
    set (m1 := foldr Z.min r counts) in *.
    set (m := foldr Z.min (Z.of_nat (length (rowElements s))) counts).
    assert (Hm1r : m1 <= r).
    { unfold m1. clear. induction counts; simpl; lia. }
    assert (Hmin : Z.min r m <= m1 /\ Z.min r m <= Z.of_nat (length (rowElements s))).
    { unfold m, m1. clear. induction counts; simpl; lia. }
    rewrite Hmir, length_fmap in Hmin.
    assert (Hcut : forall X : list (option node),
      take (Z.to_nat (Z.min r m)) X =
      take (Z.to_nat (Z.min r m)) (take (Z.to_nat m1) X))
      by (intros X; rewrite take_take; f_equal; lia).
    rewrite (Hcut (rowElements s')), Hkept, <- Hcut.
    rewrite Hmir1, Hc1, Hmir, <- !fmap_take. f_equal.
    rewrite take_app_le by (rewrite length_take; lia).
    rewrite take_take. f_equal. lia.
Qed.

Lemma renderRows_writes_witness :
  exists s', _renderRows 5 (fun _ => "$ ls") 0 1 twoBlank = JS.Returned tt s' /\
    rowElement s' 1 = Some (mkElement (Some "menuitem") "$ ls" (Some "$ ls") (px (whole 17)) None).
Proof.
  destruct (renderRows_writes 5 (fun _ => "$ ls") 0 1 twoBlank) as (s' & H & _ & _ & Hrow).
  - mirrored_by_computation.
  - lia.
  - vm_compute. reflexivity.
  - exists s'. split; [exact H|]. by rewrite (Hrow 1).
Defined.

Lemma renderRows_past_end_witness :
  exists s', _renderRows 0 (fun _ => "x") 1 2 twoBlank = JS.Threw JS.TypeError s' /\
    rowElement s' 1 = Some (mkElement (Some "menuitem") "x" (Some "x") (px (whole 17)) None).
Proof.
  destruct (renderRows_past_end 0 (fun _ => "x") 1 2 twoBlank) as (s' & H & _ & Hrow).
  - mirrored_by_computation.
  - lia.
  - vm_compute. discriminate.
  - exists s'. split; [exact H|]. by rewrite (Hrow 1).
Defined.

(** The cell height changes from 17 px to 18.5 px. *)
Lemma refreshRowsDimensions_sets_heights_witness :
  exists s', _refreshRowsDimensions (setCellHeight (Finite (QArith_base.Qmake 37 2)) twoBlank) =
               JS.Returned tt s' /\
    rowElement s' 1 = Some (blankRow (Finite (QArith_base.Qmake 37 2))).
Proof.
  destruct (refreshRowsDimensions_sets_heights
              (setCellHeight (Finite (QArith_base.Qmake 37 2)) twoBlank))
    as (s' & H & _ & _ & Hrow & _).
  - mirrored_by_computation.
  - vm_compute. discriminate.
  - exists s'. split; [exact H|]. by rewrite (Hrow 1).
Defined.

(** Three rows asked of two, with a cell height that is [null]. *)
Lemma refreshRowsDimensions_missing_row_witness :
  exists s', _refreshRowsDimensions (setCellHeight Null (setTerminalRows 3 twoBlank)) =
               JS.Threw JS.TypeError s' /\
    rowElement s' 1 = Some (blankRow (whole 17)).
Proof.
  destruct (refreshRowsDimensions_missing_row (setCellHeight Null (setTerminalRows 3 twoBlank)))
    as (s' & H & _ & Hrow & _).
  - mirrored_by_computation.
  - vm_compute. reflexivity.
  - exists s'. split; [exact H|]. by rewrite (Hrow 1).
Defined.

(** Two rows before the renderer has measured: they have no height. *)
Lemma construct_rows_witness :
  exists s, construct 2 Null = JS.Returned tt s /\
    rowElement s 1 = Some (mkElement (Some "menuitem") "" None None None).
Proof.
  destruct (construct_rows 2 Null) as (s & H & _ & _ & Hrow); [lia|].
  exists s. split; [exact H|]. by rewrite (Hrow 1).
Defined.

Lemma resize_keeps_contents_witness :
  exists s', _onResize 80 3 (setTerminalRows 3 twoBlank) = JS.Returned tt s' /\
    rowElement s' 2 = Some (blankRow (whole 17)).
Proof.
  destruct (resize_keeps_contents 80 3 (setTerminalRows 3 twoBlank)) as (s' & H & Hrow).
  - mirrored_by_computation.
  - lia.
  - reflexivity.
  - exists s'. split; [exact H|]. by rewrite (Hrow 2).
Defined.

Lemma resizes_compose_witness :
  exists s', resizes 80 [3; 1; 4] twoBlank = JS.Returned tt s' /\
    Z.of_nat (length (rowElements s')) = 4 /\
    take 1 (rowElements s') = [Some 0%nat].
Proof.
  destruct (resizes_compose 80 [3; 1; 4] twoBlank) as (s' & H & _ & Hlen & _ & Hkept).
  - mirrored_by_computation.
  - repeat constructor; lia.
  - exists s'. split; [exact H|]. split; [exact Hlen | exact Hkept].
Defined.

End RowRunFacts.

Module NavEventFacts.
Import Dom Nav NavEvents.
#[local] Arguments JS.index : simpl never.

Lemma sameButId_refl (s : state) : sameButId s s.
Proof. by repeat split. Qed.

Lemma sameButId_trans (s1 s2 s3 : state) :
  sameButId s1 s2 -> sameButId s2 s3 -> sameButId s1 s3.
Proof.
  intros (A1 & A2 & A3 & A4 & A5 & A6) (B1 & B2 & B3 & B4 & B5 & B6).
  repeat split; try congruence.
Qed.

(** Writing the identifier of one element leaves the rows the same but
    for identifiers. *)
Lemma sameButId_setId (i : option string) (n : node) (s : state) :
  sameButId s (setRows (Rows.setNodes (alter (setId i) n)) s).
Proof.
  repeat split. intros m. simpl.
  destruct (decide (m = n)) as [->|Hne].
  - rewrite lookup_alter_eq. by destruct (Rows.nodes (rows s) !! n).
  - by rewrite lookup_alter_ne.
Qed.

Lemma sameButId_unselect (s : state) : sameButId s (unselect s).
Proof.
  unfold unselect.
  destruct (querySelected s) as [[]|]; [by repeat split | | by repeat split | by repeat split].
  apply sameButId_setId.
Qed.

Lemma unselect_fields (s : state) :
  isNavigationModeActive (unselect s) = isNavigationModeActive s /\
  containerIsMenu (unselect s) = containerIsMenu s /\
  focus (unselect s) = focus s /\
  live (unselect s) = live s /\
  y (unselect s) = y s /\
  activeItemId (unselect s) = activeItemId s /\
  rendered (unselect s) = rendered s /\
  inDocument (unselect s) = inDocument s.
Proof. unfold unselect. by destruct (querySelected s) as [[]|]. Qed.

(** When the rows are found, the query gives the first row that carries
    the identifier, if there is one. *)
Lemma querySelected_found (s : state) :
  rowsFound s ->
  querySelected s =
    match find (hasId s) (Rows.children (rows s)) with
    | Some n => Some (Row n)
    | None => if (0 <? idsAfter s)%nat then Some After else None
    end.
Proof. intros [Hdoc Hbefore]. unfold querySelected. by rewrite Hdoc, Hbefore. Qed.

Lemma unselect_found (s : state) : rowsFound s -> rowsFound (unselect s).
Proof.
  intros H. pose proof H as [Hdoc Hbefore]. unfold unselect.
  rewrite (querySelected_found s H).
  destruct (find _ _); [done|]. by destruct (_ <? _)%nat.
Qed.

(** After lines 328-331 no row carries the identifier, if at most one
    did and the rows are found. *)
Lemma unselect_unselected (s : state) :
  rowsFound s -> atMostOneSelected s -> unselected (unselect s).
Proof.
  intros Hfound Hone n Hn. rewrite (proj1 (sameButId_unselect s)) in Hn.
  unfold unselect. rewrite (querySelected_found s Hfound).
  destruct (find (hasId s) (Rows.children (rows s))) as [m|] eqn:Hfind.
  - apply find_some in Hfind as [Hm Hid]. apply list_elem_of_In in Hm.
    unfold hasId. simpl. destruct (decide (n = m)) as [->|Hne].
    + rewrite lookup_alter_eq. by destruct (Rows.nodes (rows s) !! m).
    + rewrite lookup_alter_ne by done.
      destruct (hasId s n) eqn:Hidn; [|exact Hidn].
      by specialize (Hone n m Hn Hm Hidn Hid).
  - assert (Hno : hasId s n = false)
      by (apply (find_none _ _ Hfind); by apply list_elem_of_In).
    by destruct (_ <? _)%nat.
Qed.

Lemma unselected_atMostOne (s : state) : unselected s -> atMostOneSelected s.
Proof. intros Hun n m Hn _ Hid. by rewrite (Hun n Hn) in Hid. Qed.

(** Giving the identifier to one element when no row carries it. *)
Lemma select_only (element : node) (s : state) :
  unselected s ->
  forall n, n ∈ Rows.children (rows s) ->
    hasId (setRows (Rows.setNodes (alter (setId (Some (activeItemId s))) element)) s) n = true ->
    n = element.
Proof.
  intros Hun n Hn. unfold hasId. simpl.
  destruct (decide (n = element)) as [->|Hne]; [done|].
  rewrite lookup_alter_ne by done. intros Hid.
  specialize (Hun n Hn). unfold hasId in Hun. by rewrite Hun in Hid.
Qed.

(** What [_navigateToElement] leaves, in each of its three ways out:
    the rows but for identifiers. *)
Lemma navigate_same (row : option Z) (s : state) :
  sameButId s (JS.final (_navigateToElement row s)) /\
  isNavigationModeActive (JS.final (_navigateToElement row s)) = isNavigationModeActive s.
Proof.
  unfold _navigateToElement.
  destruct (negative row && (ydisp s >? 0)); [by repeat split|].
  pose proof (sameButId_unselect s) as Hsame.
  destruct (unselect_fields s) as (Hactive & _).
  cbn [rows setFocusedRow].
  destruct (JS.index _ row) as [element|]; cbn [JS.final].
  - split; [|exact Hactive].
    eapply sameButId_trans; [exact Hsame|].
    apply (sameButId_setId _ element (setFocusedRow row (unselect s))).
  - split; [exact Hsame | exact Hactive].
Qed.

(** And, when the rows are found, at most one row with the identifier. *)
Lemma navigate_final (row : option Z) (s : state) :
  rowsFound s -> atMostOneSelected s ->
  rowsFound (JS.final (_navigateToElement row s)) /\
  atMostOneSelected (JS.final (_navigateToElement row s)).
Proof.
  intros Hfound Hone. unfold _navigateToElement.
  destruct (negative row && (ydisp s >? 0)); [by split|].
  pose proof (unselect_unselected s Hfound Hone) as Hun.
  pose proof (unselect_found s Hfound) as Hfound'.
  cbn [rows setFocusedRow].
  destruct (JS.index _ row) as [element|]; cbn [JS.final].
  - split; [exact Hfound'|].
    intros n m Hn Hm Hidn Hidm.
    pose proof (select_only element (setFocusedRow row (unselect s)) Hun n Hn Hidn).
    pose proof (select_only element (setFocusedRow row (unselect s)) Hun m Hm Hidm).
    congruence.
  - split; [exact Hfound' | by apply unselected_atMostOne].
Qed.

Lemma atMostOne_focusContainer (s : state) :
  atMostOneSelected s -> atMostOneSelected (focusContainer s).
Proof. intros H. unfold focusContainer. destruct (_ && _); exact H. Qed.

Lemma found_focusContainer (s : state) : rowsFound s -> rowsFound (focusContainer s).
Proof. intros H. unfold focusContainer. destruct (_ && _); exact H. Qed.

Lemma sameButId_focusContainer (s : state) : sameButId s (focusContainer s).
Proof. unfold focusContainer. destruct (_ && _); by repeat split. Qed.

Lemma sameButId_focusTextarea (s : state) : sameButId s (focusTextarea s).
Proof. unfold focusTextarea. destruct (rendered s); by repeat split. Qed.

Lemma arrow_same (d : Z) (s : state) :
  let o := (let* s0 := JS.get in
            let* _ := _navigateToElement (plus (navigationModeFocusedRow s0) d) in
            let* _ := JS.modify focusContainer in
            JS.ret true) s in
  sameButId s (JS.final o).
Proof.
  intros o. subst o. unfold JS.bind, JS.get, JS.modify, JS.ret.
  destruct (navigate_same (plus (navigationModeFocusedRow s) d) s) as (H2 & _).
  destruct (_navigateToElement _ s) as [[] s1|e s1]; simpl in *; [|done].
  eapply sameButId_trans; [exact H2 | apply sameButId_focusContainer].
Qed.

Lemma arrow_final (d : Z) (s : state) :
  rowsFound s -> atMostOneSelected s ->
  let o := (let* s0 := JS.get in
            let* _ := _navigateToElement (plus (navigationModeFocusedRow s0) d) in
            let* _ := JS.modify focusContainer in
            JS.ret true) s in
  rowsFound (JS.final o) /\ atMostOneSelected (JS.final o).
Proof.
  intros Hfound Hone o. subst o. unfold JS.bind, JS.get, JS.modify, JS.ret.
  destruct (navigate_final (plus (navigationModeFocusedRow s) d) s Hfound Hone) as (H1 & H2).
  destruct (_navigateToElement _ s) as [[] s1|e s1]; simpl in *; [|by split].
  split; [by apply found_focusContainer | by apply atMostOne_focusContainer].
Qed.

Section Platform.

Variable isMac : bool.

(** [leave] returns, whatever the page. *)
Lemma leave_same (s : state) :
  exists s', leave isMac s = JS.Returned tt s' /\
    sameButId s s' /\
    isNavigationModeActive s' = false /\
    containerIsMenu s' = false /\
    Live.textContent (Live.liveRegion (live s')) = LEFT /\
    navigationModeFocusedRow s' = navigationModeFocusedRow s /\
    focus s' = (if rendered s then Textarea else focus s).
Proof.
  eexists. split; [reflexivity|].
  set (s1 := setMenu false (setLive (Live.announce isMac LEFT) (setActive false s))).
  pose proof (sameButId_unselect s1) as Hsame.
  destruct (unselect_fields s1) as (Ha & Hm & Hf & Hl & _ & _ & Hr & _).
  split.
  { eapply sameButId_trans; [exact Hsame | apply sameButId_focusTextarea]. }
  unfold focusTextarea. rewrite Hr. change (rendered s1) with (rendered s).
  destruct (rendered s); cbn; rewrite ?Ha, ?Hm, ?Hf, ?Hl;
    repeat split; unfold unselect; by destruct (querySelected s1) as [[]|].
Qed.

(** When the rows are found, [leave] takes the identifier off. *)
Lemma leave_final (s : state) :
  rowsFound s -> atMostOneSelected s ->
  rowsFound (JS.final (leave isMac s)) /\ unselected (JS.final (leave isMac s)).
Proof.
  intros Hfound Hone.
  set (s1 := setMenu false (setLive (Live.announce isMac LEFT) (setActive false s))).
  assert (Hfound1 : rowsFound s1) by exact Hfound.
  assert (Hone1 : atMostOneSelected s1) by exact Hone.
  pose proof (unselect_unselected s1 Hfound1 Hone1) as Hun.
  pose proof (unselect_found s1 Hfound1) as Hf.
  change (JS.final (leave isMac s)) with (focusTextarea (unselect s1)).
  unfold focusTextarea. by destruct (rendered _).
Qed.

Lemma handle_same (e : event) (s : state) : sameButId s (handle isMac e s).
Proof.
  destruct e as [|keyCode|keyCode]; simpl.
  - unfold enter. do 5 (unfold JS.bind at 1; cbn [JS.modify JS.get]).
    set (s1 := focusContainer _).
    assert (Hsame1 : sameButId s s1).
    { unfold s1. eapply sameButId_trans; [|apply sameButId_focusContainer]. by repeat split. }
    destruct (navigate_same (Some (y s1)) s1) as (H2 & _).
    by eapply sameButId_trans.
  - unfold keyup. destruct (isNavigationModeActive s); [|apply sameButId_refl].
    unfold onKeyUp, _onKey.
    destruct (keyCode =? 27).
    { destruct (leave_same s) as (s' & Hl & Hsame & _).
      unfold _onEscape, JS.bind, JS.ret. by rewrite Hl. }
    destruct (keyCode =? 38).
    { pose proof (arrow_same (-1) s) as H2.
      fold _onArrowUp in H2. unfold JS.bind, JS.ret.
      by destruct (_onArrowUp s) as [b s'|err s']. }
    destruct (keyCode =? 40).
    { pose proof (arrow_same 1 s) as H2.
      fold _onArrowDown in H2. unfold JS.bind, JS.ret.
      by destruct (_onArrowDown s) as [b s'|err s']. }
    apply sameButId_refl.
  - unfold keydown. destruct (isNavigationModeActive s) eqn:Ha; simpl; apply sameButId_refl.
Qed.

Lemma handle_final (e : event) (s : state) :
  rowsFound s -> atMostOneSelected s ->
  rowsFound (handle isMac e s) /\ atMostOneSelected (handle isMac e s).
Proof.
  intros Hfound Hone. destruct e as [|keyCode|keyCode]; simpl.
  - unfold enter. do 5 (unfold JS.bind at 1; cbn [JS.modify JS.get]).
    set (s1 := focusContainer _).
    assert (Hfound1 : rowsFound s1) by (by apply found_focusContainer).
    assert (Hone1 : atMostOneSelected s1) by (by apply atMostOne_focusContainer).
    by apply navigate_final.
  - unfold keyup. destruct (isNavigationModeActive s); [|by split].
    unfold onKeyUp, _onKey.
    destruct (keyCode =? 27).
    { destruct (leave_final s Hfound Hone) as (Hf & Hun).
      destruct (leave_same s) as (s' & Hl & _).
      unfold _onEscape, JS.bind, JS.ret. rewrite Hl in *. simpl in *.
      split; [done | by apply unselected_atMostOne]. }
    destruct (keyCode =? 38).
    { pose proof (arrow_final (-1) s Hfound Hone) as [H1 H2].
      fold _onArrowUp in H1, H2. unfold JS.bind, JS.ret.
      destruct (_onArrowUp s) as [b s'|err s']; simpl in *; by split. }
    destruct (keyCode =? 40).
    { pose proof (arrow_final 1 s Hfound Hone) as [H1 H2].
      fold _onArrowDown in H1, H2. unfold JS.bind, JS.ret.
      destruct (_onArrowDown s) as [b s'|err s']; simpl in *; by split. }
    simpl. by split.
  - unfold keydown. by destruct (isNavigationModeActive s) eqn:Ha; simpl.
Qed.

(** X15: with the identifier that the constructor made, the rows in the
    document, and no element before them that carries the identifier,
    whatever is done in navigation mode, entering, leaving, keys up and
    keys down in any order, at most one row carries the identifier;
    exceptions on the way change nothing to that. *)
Theorem at_most_one_row_selected (events : list event) (s : state) :
  ownIdentifier s -> inDocument s = true -> idsBefore s = 0%nat ->
  atMostOneSelected s -> atMostOneSelected (handleAll isMac events s).
Proof.
  intros _ Hdoc Hbefore. assert (Hfound : rowsFound s) by (by split). clear Hdoc Hbefore.
  unfold handleAll. revert s Hfound.
  induction events as [|e events IH]; intros s Hfound H; [done|].
  simpl. destruct (handle_final e s Hfound H). by apply IH.
Qed.

(** X16: the navigation mode never creates, removes or moves a row, and
    it writes nothing into an element but its identifier: text, label,
    role and height of every element are what they were. *)
Theorem navigation_only_writes_id (events : list event) (s : state) :
  atMostOneSelected s -> sameButId s (handleAll isMac events s).
Proof.
  intros _. unfold handleAll. revert s. induction events as [|e events IH]; intros s.
  - apply sameButId_refl.
  - simpl. eapply sameButId_trans; [apply handle_same | by apply IH].
Qed.

(** One arrow, up or down, that lands on a row. *)
Lemma arrow_step (up : bool) (s : state) (row : Z) (element : node) :
  isNavigationModeActive s = true ->
  navigationModeFocusedRow s = Some row ->
  let target := if up then row - 1 else row + 1 in
  JS.index (Rows.rowElements (rows s)) (Some target) = Some element ->
  0 <= target ->
  keyup isMac (if up then 38 else 40) s =
    JS.Returned true
      (focusContainer
         (setRows (Rows.setNodes (alter (setId (Some (activeItemId s))) element))
            (setFocusedRow (Some target) (unselect s)))).
Proof.
  intros Hactive Hrow target Hin Hpos. unfold keyup. rewrite Hactive.
  unfold onKeyUp, _onKey. destruct up; cbn [Z.eqb Pos.eqb];
    unfold _onArrowUp, _onArrowDown, JS.bind, JS.get; rewrite Hrow;
    cbn [plus fmap option_fmap option_map];
    replace (row + -1) with (row - 1) by lia;
    by rewrite (NavFacts.navigate_inside _ element).
Qed.

(** The rows are mirrored, as many as the terminal's, and the mode is
    active. *)
Lemma walk (up : bool) (n : nat) (s : state) (row : Z) :
  isNavigationModeActive s = true ->
  Rows.rowElements (rows s) = Some <$> Rows.children (rows s) ->
  Z.of_nat (length (Rows.children (rows s))) = Rows.terminalRows (rows s) ->
  navigationModeFocusedRow s = Some row ->
  0 <= row < Rows.terminalRows (rows s) ->
  (if up then 0 <= row - Z.of_nat n else row + Z.of_nat n < Rows.terminalRows (rows s)) ->
  let s' := keyups isMac (replicate n (if up then 38 else 40)) s in
  isNavigationModeActive s' = true /\
  Rows.rowElements (rows s') = Rows.rowElements (rows s) /\
  Rows.children (rows s') = Rows.children (rows s) /\
  Rows.terminalRows (rows s') = Rows.terminalRows (rows s) /\
  navigationModeFocusedRow s' =
    Some (if up then row - Z.of_nat n else row + Z.of_nat n).
Proof.
  revert s row. induction n as [|n IH]; intros s row Hactive Hmir Hlen Hrow Hin Hfar.
  - simpl. repeat split; try done. rewrite Hrow. f_equal. destruct up; lia.
  - set (target := if up then row - 1 else row + 1).
    assert (Htarget : 0 <= target < Rows.terminalRows (rows s))
      by (unfold target; destruct up; lia).
    destruct (lookup_lt_is_Some_2 (Rows.children (rows s)) (Z.to_nat target))
      as [element He]; [lia|].
    assert (Hindex : JS.index (Rows.rowElements (rows s)) (Some target) = Some element).
    { rewrite Hmir, <- (Z2Nat.id target) by lia. by rewrite JSFacts.index_mirror. }
    pose proof (arrow_step up s row element Hactive Hrow Hindex (proj1 Htarget)) as Hstep.
    unfold keyups. cbn [replicate foldl]. rewrite Hstep. cbn [JS.final].
    fold (keyups isMac (replicate n (if up then 38 else 40))).
    set (s1 := focusContainer _).
    destruct (unselect_fields s) as (Ha & _).
    destruct (NavFacts.unselect_rowElements s) as (Hre & Htr & _).
    destruct (sameButId_unselect s) as (Hch & _).
    assert (H1 : isNavigationModeActive s1 = true /\
                 Rows.rowElements (rows s1) = Rows.rowElements (rows s) /\
                 Rows.children (rows s1) = Rows.children (rows s) /\
                 Rows.terminalRows (rows s1) = Rows.terminalRows (rows s) /\
                 navigationModeFocusedRow s1 = Some target).
    { unfold s1, focusContainer. destruct (_ && _); cbn;
        rewrite ?Ha, ?Hre, ?Hch, ?Htr; done. }
    destruct H1 as (A1 & A2 & A3 & A4 & A5).
    destruct (IH s1 target) as (B1 & B2 & B3 & B4 & B5);
      try (rewrite ?A2, ?A3, ?A4; done).
    { rewrite A4. unfold target. destruct up; lia. }
    cbv zeta in *. unfold keyups in *.
    rewrite B2, B3, B4, B5, A2, A3, A4. repeat split; try done.
    f_equal. unfold target. destruct up; lia.
Qed.

(** X17: on mirrored rows, in navigation mode, [n] arrows down that stay
    above the last row move the focus down by [n] rows, and [n] arrows up
    from there bring it back; every one of these events is handled and
    the rows stay as they are. *)
Theorem arrows_down_then_up (n : nat) (s : state) (row : Z) :
  isNavigationModeActive s = true ->
  Rows.rowElements (rows s) = Some <$> Rows.children (rows s) ->
  Z.of_nat (length (Rows.children (rows s))) = Rows.terminalRows (rows s) ->
  navigationModeFocusedRow s = Some row ->
  0 <= row ->
  row + Z.of_nat n < Rows.terminalRows (rows s) ->
  let down := keyups isMac (replicate n 40) s in
  let back := keyups isMac (replicate n 38) down in
  navigationModeFocusedRow down = Some (row + Z.of_nat n) /\
  navigationModeFocusedRow back = Some row /\
  isNavigationModeActive back = true /\
  Rows.rowElements (rows back) = Rows.rowElements (rows s).
Proof.
  intros Hactive Hmir Hlen Hrow Hpos Hfar down back.
  destruct (walk false n s row) as (A1 & A2 & A3 & A4 & A5); try done; [lia|].
  fold down in A1, A2, A3, A4, A5.
  destruct (walk true n down (row + Z.of_nat n)) as (B1 & B2 & B3 & B4 & B5);
    try (rewrite ?A2, ?A3, ?A4; done); try (rewrite ?A4; lia).
  fold back in B1, B2, B3, B4, B5.
  split; [done|]. split; [rewrite B5; f_equal; lia|]. split; [done|]. congruence.
Qed.


(** X19: a key-down in navigation mode is reported handled, whatever the
    key, and changes nothing; a key-up of a key that is not Escape or an
    arrow is reported not handled and changes nothing; out of navigation
    mode both listeners report not handled and change nothing. *)
Theorem other_keys (keyCode : Z) (s : state) :
  keydown keyCode s = JS.Returned (isNavigationModeActive s) s /\
  (isNavigationModeActive s = false -> keyup isMac keyCode s = JS.Returned false s) /\
  (keyCode <> 27 -> keyCode <> 38 -> keyCode <> 40 ->
   keyup isMac keyCode s = JS.Returned false s).
Proof.
  split; [|split].
  - unfold keydown, onKeyDown, _onKey, JS.bind, JS.ret.
    by destruct (isNavigationModeActive s).
  - intros H. unfold keyup. by rewrite H.
  - intros H1 H2 H3. unfold keyup, onKeyUp.
    destruct (Z.eqb_spec keyCode 27); [done|].
    destruct (Z.eqb_spec keyCode 38); [done|].
    destruct (Z.eqb_spec keyCode 40); [done|].
    by destruct (isNavigationModeActive s).
Qed.

(** Outside the document the query finds no row, and no element loses
    the identifier. *)
Lemma unselect_outside (s : state) :
  inDocument s = false -> rows (unselect s) = rows s.
Proof.
  intros Hdoc. unfold unselect, querySelected. rewrite Hdoc.
  destruct (_ <? _)%nat; [done|]. by destruct (_ <? _)%nat.
Qed.

(** X27: with the identifier that the constructor made, when the rows
    are not in the document, as when the terminal's element is detached
    or in a shadow tree, [document.querySelector] does not find the row
    that carries the identifier, and nothing takes it off: after an arrow down that lands on a row, the element that
    carried the identifier and the element of that row both carry it,
    and after Escape the element that carried it still does. *)
Theorem outside_document_id_stays (s : state) (row : Z) (from to : node) :
  ownIdentifier s ->
  inDocument s = false ->
  isNavigationModeActive s = true ->
  navigationModeFocusedRow s = Some row ->
  0 <= row ->
  JS.index (Rows.rowElements (rows s)) (Some (row + 1)) = Some to ->
  is_Some (Rows.nodes (rows s) !! to) ->
  hasId s from = true ->
  let down := JS.final (keyup isMac 40 s) in
  let left := JS.final (keyup isMac 27 s) in
  keyup isMac 40 s = JS.Returned true down /\
  hasId down from = true /\ hasId down to = true /\
  keyup isMac 27 s = JS.Returned true left /\
  hasId left from = true.
Proof.
  intros _ Hdoc Hactive Hrow Hpos Hto [e He] Hfrom down left.
  pose proof (arrow_step false s row to Hactive Hrow Hto) as Hstep.
  cbn zeta in Hstep. specialize (Hstep ltac:(lia)).
  unfold down. rewrite Hstep. cbn [JS.final].
  split; [reflexivity|].
  assert (Hnodes : forall n,
    hasId (focusContainer
             (setRows (Rows.setNodes (alter (setId (Some (activeItemId s))) to))
                (setFocusedRow (Some (row + 1)) (unselect s)))) n =
    if decide (n = to) then true else hasId s n).
  { intros n. unfold focusContainer, hasId.
    destruct (unselect_fields s) as (_ & _ & _ & _ & _ & Hid & _).
    destruct (_ && _); cbn; rewrite (unselect_outside s Hdoc), ?Hid;
      (destruct (decide (n = to)) as [->|Hne];
       [rewrite lookup_alter_eq, He; cbn; by apply bool_decide_eq_true_2
       | by rewrite lookup_alter_ne]). }
  rewrite !Hnodes.
  split; [by destruct (decide _)|]. split; [by destruct (decide _); [|done]|].
  destruct (leave_same s) as (s' & Hleave & _).
  unfold left, keyup. rewrite Hactive.
  unfold onKeyUp, _onKey, _onEscape, JS.bind, JS.ret. cbn [Z.eqb Pos.eqb].
  rewrite Hleave. cbn [JS.final]. split; [reflexivity|].
  assert (Hs' : s' = JS.final (leave isMac s)) by (by rewrite Hleave).
  rewrite Hs'.
  set (s1 := setMenu false (setLive (Live.announce isMac LEFT) (setActive false s))).
  change (JS.final (leave isMac s)) with (focusTextarea (unselect s1)).
  destruct (unselect_fields s1) as (_ & _ & _ & _ & _ & Hid & _).
  unfold focusTextarea, hasId.
  destruct (rendered _); cbn; rewrite (unselect_outside s1 Hdoc), ?Hid; exact Hfrom.
Qed.

End Platform.

Lemma fresh_unselected : unselected fresh.
Proof.
  intros n Hn. change (n ∈ [0%nat; 1%nat]) in Hn.
  repeat (apply elem_of_cons in Hn as [->|Hn]; [reflexivity|]).
  by apply elem_of_nil in Hn.
Qed.

Lemma at_most_one_row_selected_witness :
  atMostOneSelected (handleAll false [Enter; KeyUp 40; KeyUp 40; KeyUp 27] fresh).
Proof.
  apply at_most_one_row_selected;
    [exists 7%N; split; [lia | reflexivity] | reflexivity | reflexivity
    | apply unselected_atMostOne, fresh_unselected].
Defined.

Lemma navigation_only_writes_id_witness :
  sameButId fresh (handleAll true [Enter; KeyUp 38; KeyDown 13; KeyUp 27] fresh).
Proof.
  apply navigation_only_writes_id, unselected_atMostOne, fresh_unselected.
Defined.

Lemma arrows_down_then_up_witness :
  navigationModeFocusedRow (keyups false [40] twoRows) = Some 1 /\
  navigationModeFocusedRow (keyups false [38] (keyups false [40] twoRows)) = Some 0.
Proof.
  destruct (arrows_down_then_up false 1 twoRows 0) as (H1 & H2 & _);
    [reflexivity | reflexivity | reflexivity | reflexivity | lia | vm_compute; reflexivity |].
  split; [exact H1 | exact H2].
Defined.


(** Two rows outside the document, the first one active: after an arrow
    down both carry the identifier. *)
Lemma outside_document_id_stays_witness :
  let s := setPage false true 0 0 twoRows in
  hasId (JS.final (keyup false 40 s)) 0%nat = true /\
  hasId (JS.final (keyup false 40 s)) 1%nat = true.
Proof.
  destruct (outside_document_id_stays false (setPage false true 0 0 twoRows) 0 0%nat 1%nat)
    as (_ & H1 & H2 & _).
  - exists 7%N. split; [lia | reflexivity].
  - reflexivity.
  - reflexivity.
  - reflexivity.
  - lia.
  - reflexivity.
  - by eexists.
  - reflexivity.
  - split; [exact H1 | exact H2].
Defined.

End NavEventFacts.

Module DisposeFacts.
Import Dom Lifecycle.

(** X20: when the root is not a child of the terminal's element and the
    element checks its argument, [dispose] throws the [NotFoundError] of
    [removeChild] before anything else: no subscription is disposed of
    and no field is released. *)
Theorem dispose_unattached_root (s : state) (root : node) :
  accessibilityTreeRoot s = Some root ->
  root ∉ elementChildren s ->
  dispose true s = JS.Threw JS.NotFoundError (record (RemoveChild (Some root)) s) /\
  filter isDispose (calls (JS.final (dispose true s))) = filter isDispose (calls s) /\
  disposables (JS.final (dispose true s)) = disposables s.
Proof.
  intros Hroot Hout.
  assert (Hrun : dispose true s =
    JS.Threw JS.NotFoundError (record (RemoveChild (Some root)) s)).
  { unfold dispose, JS.bind, JS.get, elementRemoveChild. rewrite Hroot.
    by rewrite bool_decide_eq_false_2. }
  rewrite Hrun. split; [done|]. simpl.
  rewrite filter_app. simpl. rewrite filter_cons_False by (simpl; auto).
  by rewrite filter_nil, app_nil_r.
Qed.

Lemma dispose_unattached_root_witness :
  dispose true (mkState [] (Some 0%nat) (Some 1%nat) (Some 2%nat) (Some [])
                        (Some managerDisposables) (Some navigationDisposables) []) =
  JS.Threw JS.NotFoundError
    (mkState [] (Some 0%nat) (Some 1%nat) (Some 2%nat) (Some [])
             (Some managerDisposables) (Some navigationDisposables)
             [RemoveChild (Some 0%nat)]).
Proof.
  destruct (dispose_unattached_root
    (mkState [] (Some 0%nat) (Some 1%nat) (Some 2%nat) (Some [])
             (Some managerDisposables) (Some navigationDisposables) []) 0%nat) as (H & _).
  - reflexivity.
  - apply not_elem_of_nil.
  - exact H.
Defined.

End DisposeFacts.

Module AttachFacts.
Import Attach.

Lemma joined_cons (t : string) (texts : list string) :
  joined (t :: texts) = t +:+ joined texts.
Proof. reflexivity. Qed.

Lemma truthy_Str (b : string) : b <> "" -> truthy (Str b) = true.
Proof. intros H. simpl. by apply negb_true_iff, String.eqb_neq. Qed.

Lemma timeouts_succ (n : nat) (s : state) :
  timeouts (S n) s = timeouts n (timeout s).
Proof. unfold timeouts. apply Nat.iter_succ_r. Qed.

Lemma timeouts_null (n : nat) (s : state) :
  attachSocketBuffer s = Null -> flushTimers s = n ->
  timeouts n s =
    mkState Null (writes s ++ replicate n Null) 0 (termSocket s)
            (calls s) (messageListeners s) (dataListeners s) (readyState s) (sent s).
Proof.
  revert s. induction n as [|n IH]; intros s Hb Hn.
  - destruct s; simpl in *; subst. by rewrite app_nil_r.
  - rewrite timeouts_succ. unfold timeout. rewrite Hn. unfold _flushBuffer, write. simpl.
    rewrite IH by done. simpl. rewrite Hb, <- app_assoc. done.
Qed.

Lemma dataEvents_cons (d : string) (ds : list string) (s : state) :
  dataEvents (d :: ds) s = dataEvents ds (dataEvent d s).
Proof. reflexivity. Qed.

(** One listener of the terminal's data: the data of a run of 'data'
    events all go the same way. *)
Lemma dataEvents_one (c : call) (k : socket) (ds : list string) (s : state) :
  dataListeners s = [onData c k] ->
  dataEvents ds s =
    mkState (attachSocketBuffer s) (writes s) (flushTimers s) (termSocket s)
            (calls s) (messageListeners s) (dataListeners s) (readyState s)
            (sent s ++ if readyState s k =? 1 then sentOn k ds else []).
Proof.
  revert s. induction ds as [|d ds IH]; intros s Hl.
  - simpl. destruct (_ =? _); rewrite app_nil_r; by destruct s.
  - rewrite dataEvents_cons. unfold dataEvent at 1. rewrite Hl at 1. cbn [foldl dataSocket].
    unfold _sendData. destruct (readyState s k =? 1) eqn:Hready; cbn [negb].
    + set (s1 := mkState _ _ _ _ _ _ _ _ _). rewrite (IH s1 Hl). unfold s1. simpl.
      rewrite Hready. unfold sentOn. simpl. by rewrite <- app_assoc.
    + rewrite (IH s Hl). by rewrite Hready.
Qed.

(** No listener: the data go nowhere. *)
Lemma dataEvents_none (ds : list string) (s : state) :
  dataListeners s = [] -> dataEvents ds s = s.
Proof.
  intros Hl. induction ds as [|d ds IH]; [done|].
  rewrite dataEvents_cons. unfold dataEvent at 1. by rewrite Hl.
Qed.

Section Host.

Variable decode : list Byte.byte -> string.

Lemma messages_cons (k : socket) (ev : data) (evs : list data) (s : state) :
  messages decode k (ev :: evs) s = messages decode k evs (message decode k ev s).
Proof. reflexivity. Qed.

(** A listener touches the buffer, the timers and the writes, and
    nothing else. *)
Lemma getMessage_fields (buffered : bool) (ev : data) (s : state) :
  let s' := after (_getMessage decode buffered ev s) in
  termSocket s' = termSocket s /\ calls s' = calls s /\
  messageListeners s' = messageListeners s /\ dataListeners s' = dataListeners s /\
  readyState s' = readyState s /\ sent s' = sent s.
Proof.
  unfold _getMessage. destruct (received decode ev); [|done].
  destruct buffered; [|done]. unfold _pushToBuffer. by destruct (truthy _).
Qed.

Lemma message_fields (k : socket) (ev : data) (s : state) :
  termSocket (message decode k ev s) = termSocket s /\
  calls (message decode k ev s) = calls s /\
  messageListeners (message decode k ev s) = messageListeners s /\
  dataListeners (message decode k ev s) = dataListeners s /\
  readyState (message decode k ev s) = readyState s /\
  sent (message decode k ev s) = sent s.
Proof.
  unfold message. generalize (listenersOf k s). intros ls. revert s.
  induction ls as [|l ls IH]; intros s; [done|]. cbn [foldl].
  destruct (IH (after (_getMessage decode (msgBuffered l) ev s)))
    as (-> & -> & -> & -> & -> & ->).
  apply getMessage_fields.
Qed.

Lemma message_listenersOf (k j : socket) (ev : data) (s : state) :
  listenersOf j (message decode k ev s) = listenersOf j s.
Proof. unfold listenersOf. by destruct (message_fields k ev s) as (_ & _ & -> & _). Qed.

(** One listener on the socket: it is the one that is called. *)
Lemma message_one (l : messageListener) (ev : data) (s : state) :
  listenersOf (msgSocket l) s = [l] ->
  message decode (msgSocket l) ev s = after (_getMessage decode (msgBuffered l) ev s).
Proof. intros Hl. unfold message. by rewrite Hl. Qed.

(** No listener on the socket: its messages reach nothing. *)
Lemma messages_none (k : socket) (evs : list data) (s : state) :
  listenersOf k s = [] -> messages decode k evs s = s.
Proof.
  intros Hl. induction evs as [|ev evs IH]; [done|].
  rewrite messages_cons. unfold message at 1. by rewrite Hl.
Qed.

(** Texts arriving at one buffering listener while the buffer holds
    text: each is appended. *)
Lemma texts_appended (l : messageListener) (texts : list string) (b : string) (s : state) :
  listenersOf (msgSocket l) s = [l] -> msgBuffered l = true ->
  attachSocketBuffer s = Str b -> b <> "" ->
  messages decode (msgSocket l) (Text <$> texts) s =
    mkState (Str (b +:+ joined texts)) (writes s) (flushTimers s) (termSocket s)
            (calls s) (messageListeners s) (dataListeners s) (readyState s) (sent s).
Proof.
  revert b s. induction texts as [|t texts IH]; intros b s Hl Hbuf Hb Hne.
  - simpl. rewrite LiveFacts.append_empty, <- Hb. by destruct s.
  - rewrite fmap_cons, messages_cons, (message_one l) by done.
    unfold _getMessage, received, _pushToBuffer.
    rewrite Hbuf, Hb, truthy_Str by done. cbn [after].
    rewrite (IH (b +:+ t)); [| done | done | done |].
    + simpl. by rewrite LiveFacts.append_assoc.
    + destruct b; [done | discriminate].
Qed.

(** Empty texts arriving at one buffering listener while the buffer
    holds nothing: each sets one more timer and leaves the buffer
    empty. *)
Lemma empty_texts (l : messageListener) (e : nat) (s : state) :
  listenersOf (msgSocket l) s = [l] -> msgBuffered l = true ->
  truthy (attachSocketBuffer s) = false ->
  messages decode (msgSocket l) (replicate e (Text "")) s =
    mkState (if e is O then attachSocketBuffer s else Str "") (writes s)
            (flushTimers s + e) (termSocket s)
            (calls s) (messageListeners s) (dataListeners s) (readyState s) (sent s).
Proof.
  revert s. induction e as [|e IH]; intros s Hl Hbuf Hb.
  - simpl. rewrite Nat.add_0_r. by destruct s.
  - cbn [replicate]. rewrite messages_cons, (message_one l) by done.
    unfold _getMessage, received, _pushToBuffer.
    rewrite Hbuf, Hb. cbn [after]. rewrite IH by done. simpl.
    f_equal; [by destruct e | lia].
Qed.

(** X21: with buffering on, and one listener on the socket, texts that
    arrive while a flush is pending are joined in the order of arrival:
    the first text, if it is not empty, sets the one timer, and when it
    fires the terminal is written once, with all of them. *)
Theorem buffered_texts_coalesce (l : messageListener) (first : string)
    (more : list string) (s : state) :
  listenersOf (msgSocket l) s = [l] ->
  msgBuffered l = true ->
  truthy (attachSocketBuffer s) = false ->
  flushTimers s = 0%nat ->
  first <> "" ->
  let pending := messages decode (msgSocket l) (Text <$> first :: more) s in
  writes pending = writes s /\
  flushTimers pending = 1%nat /\
  writes (timeout pending) = writes s ++ [Str (joined (first :: more))] /\
  attachSocketBuffer (timeout pending) = Null /\
  flushTimers (timeout pending) = 0%nat.
Proof.
  intros Hl Hbuf Hb Ht Hne pending.
  assert (Hp : pending =
    mkState (Str (first +:+ joined more)) (writes s) 1 (termSocket s)
            (calls s) (messageListeners s) (dataListeners s) (readyState s) (sent s)).
  { unfold pending. rewrite fmap_cons, messages_cons, (message_one l) by done.
    unfold _getMessage, received, _pushToBuffer.
    rewrite Hbuf, Hb, Ht. cbn [after]. by rewrite (texts_appended l more first). }
  rewrite Hp. repeat split.
Qed.

(** X22: an empty text is no text for line 29: with one buffering
    listener on the socket, while the buffer holds nothing, every empty
    text sets a timer of its own, and so does the first text that is not
    empty; the first flush writes everything, and each flush after it
    writes [null] to the terminal. *)
Theorem empty_texts_flush_null (l : messageListener) (e : nat) (first : string)
    (more : list string) (s : state) :
  listenersOf (msgSocket l) s = [l] ->
  msgBuffered l = true ->
  truthy (attachSocketBuffer s) = false ->
  flushTimers s = 0%nat ->
  first <> "" ->
  let pending :=
    messages decode (msgSocket l) (Text <$> replicate e "" ++ first :: more) s in
  flushTimers pending = S e /\
  attachSocketBuffer pending = Str (joined (first :: more)) /\
  writes (timeouts (S e) pending) =
    writes s ++ Str (joined (first :: more)) :: replicate e Null.
Proof.
  intros Hl Hbuf Hb Ht Hne pending.
  assert (Hp : pending =
    mkState (Str (first +:+ joined more)) (writes s) (S e) (termSocket s)
            (calls s) (messageListeners s) (dataListeners s) (readyState s) (sent s)).
  { unfold pending, messages. rewrite fmap_app, foldl_app, fmap_replicate.
    change (foldl (fun acc ev => message decode (msgSocket l) ev acc) s
              (replicate e (Text "")))
      with (messages decode (msgSocket l) (replicate e (Text "")) s).
    rewrite (empty_texts l e s Hl Hbuf Hb).
    set (s1 := mkState _ _ _ _ _ _ _ _ _).
    change (foldl (fun acc ev => message decode (msgSocket l) ev acc) s1
              (Text <$> first :: more))
      with (messages decode (msgSocket l) (Text <$> first :: more) s1).
    rewrite fmap_cons, messages_cons, (message_one l) by done.
    unfold _getMessage, received, _pushToBuffer.
    assert (Hb1 : truthy (attachSocketBuffer s1) = false) by (simpl; by destruct e).
    rewrite Hbuf, Hb1. cbn [after]. rewrite (texts_appended l more first); try done.
    simpl. by rewrite Ht. }
  rewrite Hp. split; [done|]. split; [done|].
  rewrite timeouts_succ. unfold timeout. simpl. unfold _flushBuffer, write. simpl.
  rewrite timeouts_null by done. simpl. by rewrite <- app_assoc.
Qed.

(** What listeners without buffering do with one message: each writes
    it, unless it is a blob. *)
Lemma unbuffered_run (ls : list messageListener) (ev : data) (s : state) :
  Forall (fun l => msgBuffered l = false) ls ->
  foldl (fun acc l => after (_getMessage decode (msgBuffered l) ev acc)) s ls =
    mkState (attachSocketBuffer s)
            (writes s ++ match received decode ev with
                         | Some v => replicate (length ls) v
                         | None => []
                         end)
            (flushTimers s) (termSocket s)
            (calls s) (messageListeners s) (dataListeners s) (readyState s) (sent s).
Proof.
  revert s. induction ls as [|l ls IH]; intros s Hall.
  - simpl. destruct (received decode ev); rewrite app_nil_r; by destruct s.
  - apply Forall_cons in Hall as [Hl Hall]. cbn [foldl]. rewrite IH by done.
    unfold _getMessage. rewrite Hl.
    destruct (received decode ev) as [v|]; [|done].
    simpl. by rewrite <- app_assoc.
Qed.

(** X23: with buffering off, every message is written to the terminal
    at once and in the order of arrival, once by every listener that the
    socket has, so twice when the terminal was attached to it twice; a
    blob apart, which is thrown away; nothing is buffered and no timer
    is set. *)
Theorem unbuffered_writes_in_order (k : socket) (evs : list data) (s : state) :
  Forall (fun l => msgBuffered l = false) (listenersOf k s) ->
  let s' := messages decode k evs s in
  writes s' =
    writes s ++ flat_map (replicate (length (listenersOf k s)))
                         (omap (received decode) evs) /\
  attachSocketBuffer s' = attachSocketBuffer s /\
  flushTimers s' = flushTimers s.
Proof.
  revert s. induction evs as [|ev evs IH]; intros s Hall.
  - simpl. by rewrite app_nil_r.
  - cbv zeta. rewrite messages_cons.
    destruct (IH (message decode k ev s)) as (H1 & H2 & H3).
    { by rewrite message_listenersOf. }
    cbv zeta in H1, H2, H3. rewrite H1, H2, H3, message_listenersOf.
    unfold message. rewrite (unbuffered_run _ ev s Hall). simpl.
    destruct (received decode ev) as [v|]; simpl.
    + by rewrite <- app_assoc.
    + by rewrite app_nil_r.
Qed.

(** X24: with one listener on the socket, a binary message whose
    decoding is the empty string is handed on as the ArrayBuffer itself:
    without buffering the terminal is written an object, and onto
    buffered text the words [[object ArrayBuffer]] are appended. A blob
    makes the listener throw, and the event changes nothing. *)
Theorem empty_binary_message (l : messageListener) (bytes : list Byte.byte)
    (s : state) :
  listenersOf (msgSocket l) s = [l] ->
  decode bytes = "" ->
  let s' := message decode (msgSocket l) (ArrayBuffer bytes) s in
  (msgBuffered l = false -> writes s' = writes s ++ [Buffer bytes]) /\
  (msgBuffered l = true ->
   forall b, attachSocketBuffer s = Str b -> b <> "" ->
     attachSocketBuffer s' = Str (b +:+ "[object ArrayBuffer]")) /\
  _getMessage decode (msgBuffered l) Blob s = Thrown "TODO: handle Blob?" s /\
  message decode (msgSocket l) Blob s = s.
Proof.
  intros Hl Hd s'. unfold s'. rewrite !(message_one l) by done.
  unfold _getMessage, received. rewrite Hd. cbn [truthy String.eqb negb after].
  split; [by intros ->|]. split; [|done].
  intros -> b Hb Hne. unfold _pushToBuffer. by rewrite Hb, truthy_Str.
Qed.

(** X25: on a terminal whose listeners are those of its last [attach],
    which buffers, [detach] stops the messages of the socket and the sending of data,
    and it leaves the timer alone: what was buffered before is still
    written when the timer fires, and nothing that comes after [detach]
    reaches the terminal or the socket. *)
Theorem detach_keeps_pending_flush (k : socket) (c : call) (given : option socket)
    (bidirectional : bool)
    (text : string) (evs : list data) (ds : list string) (s : state) :
  calls s = S c ->
  listenersOf k s = [onMessage k c true] ->
  dataListeners s = (if bidirectional then [onData c k] else []) ->
  termSocket s = Some k ->
  (given = None \/ given = Some k) ->
  truthy (attachSocketBuffer s) = false ->
  flushTimers s = 0%nat ->
  text <> "" ->
  let s1 := message decode k (Text text) s in
  let s2 := dataEvents ds (messages decode k evs (detach given s1)) in
  listenersOf k s2 = [] /\
  dataListeners s2 = [] /\
  sent s2 = sent s /\
  writes s2 = writes s /\
  writes (timeout s2) = writes s ++ [Str text].
Proof.
  intros Hcalls Hl Hdata Hsock Hgiven Hb Ht Hne s1 s2.
  assert (H1 : s1 =
    mkState (Str text) (writes s) 1 (termSocket s)
            (calls s) (messageListeners s) (dataListeners s) (readyState s) (sent s)).
  { unfold s1. rewrite (message_one (onMessage k c true)) by done.
    unfold _getMessage, received, _pushToBuffer. cbn [msgBuffered]. by rewrite Hb, Ht. }
  set (s3 := detach given s1) in *.
  assert (Hd : s3 =
    mkState (Str text) (writes s) 1 None (calls s)
            (filter (fun l => ~ (msgSocket l = k /\ msgCall l = c)) (messageListeners s))
            [] (readyState s) (sent s)).
  { unfold s3. rewrite H1. unfold detach, lastCall. simpl. rewrite Hsock, Hcalls.
    assert (Hnone : filter (fun l => dataCall l <> c) (dataListeners s) = []).
    { rewrite Hdata. destruct bidirectional; [|done].
      by rewrite filter_cons_False by (intros H; by apply H). }
    rewrite Hnone. by destruct Hgiven as [->| ->]. }
  assert (Hout : listenersOf k s3 = []).
  { rewrite Hd. unfold listenersOf in *. simpl.
    rewrite list_filter_filter.
    apply (f_equal (filter (fun l => ~ (msgSocket l = k /\ msgCall l = c)))) in Hl.
    rewrite list_filter_filter in Hl.
    rewrite filter_cons_False, filter_nil in Hl by (intros H; by apply H).
    rewrite <- Hl. apply list_filter_iff. intros l. tauto. }
  assert (Hnodata : dataListeners s3 = []) by (by rewrite Hd).
  assert (Hs2 : s2 = s3).
  { unfold s2. change (detach given s1) with s3.
    by rewrite (messages_none k evs s3 Hout), (dataEvents_none ds s3 Hnodata). }
  rewrite Hs2. split; [exact Hout|]. rewrite Hd. repeat split.
Qed.

(** X28: [detach] undoes the last [attach] and no other. After two
    calls of [attach] with the same socket, of which the first buffers
    nothing, and one [detach], the terminal is still written every
    message of the socket, once, and the socket is still sent the data
    of the terminal, once, when it is open. *)
Theorem detach_undoes_last_attach_only (k : socket) (buffered : bool)
    (evs : list data) (ds : list string) (ready : socket -> Z) :
  let twice := attach k None buffered (attach k None false (detached ready)) in
  let s := dataEvents ds (messages decode k evs (detach None twice)) in
  listenersOf k (detach None twice) = [onMessage k 0%nat false] /\
  writes s = omap (received decode) evs /\
  sent s = if ready k =? 1 then sentOn k ds else [].
Proof.
  intros twice s.
  assert (Hd : detach None twice =
    mkState Undefined [] 0 None 2 [onMessage k 0%nat false] [onData 0%nat k] ready []).
  { unfold twice, detach, attach, detached, lastCall. cbn.
    repeat case_decide; try done; exfalso; intuition congruence. }
  assert (Hl : listenersOf k (detach None twice) = [onMessage k 0%nat false]).
  { rewrite Hd. unfold listenersOf. cbn. by case_decide. }
  split; [exact Hl|].
  destruct (unbuffered_writes_in_order k evs (detach None twice)) as (Hw & _).
  { rewrite Hl. by repeat constructor. }
  cbv zeta in Hw. rewrite Hl in Hw. cbn [length] in Hw.
  assert (Hflat : forall vs : list value, flat_map (replicate 1) vs = vs).
  { induction vs as [|v vs IH]; [done|].
    change (flat_map (replicate 1) (v :: vs)) with (v :: flat_map (replicate 1) vs).
    by rewrite IH. }
  rewrite Hflat in Hw.
  assert (Hdl : dataListeners (messages decode k evs (detach None twice)) = [onData 0%nat k]).
  { clear. induction evs as [|ev evs IH] using rev_ind; [done|].
    unfold messages. rewrite foldl_snoc.
    destruct (message_fields k ev (messages decode k evs (detach None twice)))
      as (_ & _ & _ & Hx & _).
    unfold messages in Hx, IH. by rewrite Hx, IH. }
  assert (Hrs : forall evs', readyState (messages decode k evs' (detach None twice)) = ready /\
                             sent (messages decode k evs' (detach None twice)) = []).
  { clear. induction evs' as [|ev evs' IH] using rev_ind; [done|].
    unfold messages. rewrite foldl_snoc.
    destruct (message_fields k ev (messages decode k evs' (detach None twice)))
      as (_ & _ & _ & _ & Hr & Hs).
    unfold messages in Hr, Hs, IH. by rewrite Hr, Hs. }
  destruct (Hrs evs) as [Hr Hs].
  unfold s. rewrite (dataEvents_one 0%nat k ds _ Hdl). simpl.
  rewrite Hw, Hr, Hs. by rewrite Hd.
Qed.

End Host.

(** X26: after [attach] on a terminal that was never attached, what the
    terminal emits as data reaches the socket, in order, when
    [bidirectional] is left out or true and the socket is open (state
    1); while the socket is in another state the data are dropped, they
    are not kept for later; with [bidirectional] false nothing is ever
    sent. *)
Theorem attached_data_sent (k : socket) (bidirectional : option bool) (buffered : bool)
    (ds : list string) (readyState : socket -> Z) :
  sent (dataEvents ds (attach k bidirectional buffered (detached readyState))) =
    if default true bidirectional && (readyState k =? 1) then sentOn k ds else [].
Proof.
  destruct (default true bidirectional) eqn:Hb.
  - rewrite (dataEvents_one 0%nat k); [done|].
    unfold attach. simpl. by rewrite Hb.
  - rewrite dataEvents_none; [done|]. unfold attach. simpl. by rewrite Hb.
Qed.

Lemma buffered_texts_coalesce_witness :
  writes (timeout (messages (fun _ => "") 7%nat [Text "ab"; Text "cd"]
                     (attach 7%nat None true (detached (fun _ => 1))))) = [Str "abcd"].
Proof.
  destruct (buffered_texts_coalesce (fun _ => "") (onMessage 7%nat 0%nat true) "ab" ["cd"]
              (attach 7%nat None true (detached (fun _ => 1)))) as (_ & _ & H & _).
  - reflexivity.
  - reflexivity.
  - reflexivity.
  - reflexivity.
  - discriminate.
  - exact H.
Defined.

Lemma empty_texts_flush_null_witness :
  writes (timeouts 3%nat (messages (fun _ => "") 7%nat [Text ""; Text ""; Text "ab"]
                        (attach 7%nat None true (detached (fun _ => 1))))) =
    [Str "ab"; Null; Null].
Proof.
  destruct (empty_texts_flush_null (fun _ => "") (onMessage 7%nat 0%nat true) 2%nat "ab" []
              (attach 7%nat None true (detached (fun _ => 1)))) as (_ & _ & H).
  - reflexivity.
  - reflexivity.
  - reflexivity.
  - reflexivity.
  - discriminate.
  - exact H.
Defined.

(** A terminal attached twice to the same socket is written every
    message twice. *)
Lemma unbuffered_writes_in_order_witness :
  writes (messages (fun _ => "") 7%nat [Text "a"; Blob; Text "b"]
            (attach 7%nat None false (attach 7%nat None false (detached (fun _ => 1))))) =
    [Str "a"; Str "a"; Str "b"; Str "b"].
Proof.
  destruct (unbuffered_writes_in_order (fun _ => "") 7%nat [Text "a"; Blob; Text "b"]
              (attach 7%nat None false (attach 7%nat None false (detached (fun _ => 1)))))
    as (H & _).
  - vm_compute. by repeat constructor.
  - exact H.
Defined.

Lemma empty_binary_message_witness :
  writes (message (fun _ => "") 7%nat (ArrayBuffer [])
            (attach 7%nat None false (detached (fun _ => 1)))) = [Buffer []].
Proof.
  destruct (empty_binary_message (fun _ => "") (onMessage 7%nat 0%nat false) []
              (attach 7%nat None false (detached (fun _ => 1)))) as (H & _).
  - reflexivity.
  - reflexivity.
  - exact (H eq_refl).
Defined.

Lemma detach_keeps_pending_flush_witness :
  let s1 := message (fun _ => "") 7%nat (Text "ab")
              (attach 7%nat None true (detached (fun _ => 1))) in
  let s2 := dataEvents ["x"] (messages (fun _ => "") 7%nat [Text "cd"] (detach None s1)) in
  writes (timeout s2) = [Str "ab"] /\ sent s2 = [].
Proof.
  destruct (detach_keeps_pending_flush (fun _ => "") 7%nat 0%nat None true
              "ab" [Text "cd"] ["x"]
              (attach 7%nat None true (detached (fun _ => 1)))) as (_ & _ & H3 & _ & H5).
  - reflexivity.
  - reflexivity.
  - reflexivity.
  - reflexivity.
  - by left.
  - reflexivity.
  - reflexivity.
  - discriminate.
  - split; [exact H5 | exact H3].
Defined.

End AttachFacts.
